(** * Work-item persistence: a shallow embedding of [StorageService]

    Source: [ecs_fargate_app/backend/src/modules/storage/storage.service.ts].

    The service orchestrates two external stores, an S3 bucket and a DynamoDB
    table.  Both are modelled as finite maps inside a [World]; every call the
    service sends to one of them is recorded in a trace, so that the order of
    the calls and the absence of calls are observable.  Asynchronous methods
    are sequential ([await] everywhere), so a method is a state transformer
    that either returns a value or throws an [Error] with a message. *)

From Stdlib Require Import ZArith Ascii String List Bool Lia DecimalString.
From Stdlib.Strings Require Import Byte.
From stdpp Require Import base option gmap strings list fin_maps sorting.

Local Open Scope Z_scope.

(* ===================================================================== *)
(** * JavaScript strings *)
(* ===================================================================== *)

Module Js.

(** [s.startsWith(p)] *)
Definition startsWith (s p : string) : bool := String.prefix p s.

Fixpoint drop (n : nat) (s : string) : string :=
  match n, s with
  | O, _ => s
  | S n', String _ s' => drop n' s'
  | S _, EmptyString => EmptyString
  end.

(** First occurrence of [sep] in [s]: the text before it and the text
    after it. *)
Fixpoint find_sub (sep s : string) : option (string * string) :=
  if String.prefix sep s then Some (EmptyString, drop (String.length sep) s)
  else match s with
       | EmptyString => None
       | String c s' =>
           match find_sub sep s' with
           | Some (b, a) => Some (String c b, a)
           | None => None
           end
       end.

(** [s.split(sep)[1]] for a non-empty separator: [None] is [undefined]
    (the separator does not occur), otherwise the text between the first
    occurrence and the second one (or the end). *)
Definition split_at1 (s sep : string) : option string :=
  match find_sub sep s with
  | None => None
  | Some (_, rest) =>
      match find_sub sep rest with
      | None => Some rest
      | Some (seg, _) => Some seg
      end
  end.

(** [arr.join(sep)] *)
Fixpoint join (sep : string) (l : list string) : string :=
  match l with
  | [] => ""
  | [x] => x
  | x :: xs => x +:+ sep +:+ join sep xs
  end.

End Js.

(* ===================================================================== *)
(** * Key layout: [getS3Locations] *)
(* ===================================================================== *)

Record S3Locations := {
  metadata : string;
  originalContent : string;
  analysisResults : string;
  iacDocument : string;
  packedContent : string;
  supportingDocument : string;
}.

(** The template [`${userId}/${fileId}`], which the source writes out at
    every use ([getS3Locations], [s3Prefix], the prefix of [deleteWorkItem]). *)
Definition storageRoot (userId fileId : string) : string :=
  userId +:+ "/" +:+ fileId.

Definition getS3Locations (userId fileId : string) : S3Locations :=
  let prefix := storageRoot userId fileId in
  {| metadata := prefix +:+ "/metadata.json";
     originalContent := prefix +:+ "/original_content";
     analysisResults := prefix +:+ "/analysis/analysis_results.json";
     iacDocument := prefix +:+ "/iac_templates/generated_template";
     packedContent := prefix +:+ "/packed_content";
     supportingDocument := prefix +:+ "/supporting_document" |}.

(** The keys of a location record, in field order. *)
Definition locationKeys (l : S3Locations) : list string :=
  [metadata l; originalContent l; analysisResults l; iacDocument l;
   packedContent l; supportingDocument l].

(** Both identifiers are produced by [createHash('sha256')...digest('hex')]
    ([createUserIdHash], [createFileIdHash]): 64 lower-case hexadecimal
    digits. *)
Definition isHexDigit (c : ascii) : bool :=
  let n := nat_of_ascii c in
  ((48 <=? n)%nat && (n <=? 57)%nat) || ((97 <=? n)%nat && (n <=? 102)%nat).

Fixpoint allChars (p : ascii -> bool) (s : string) : bool :=
  match s with
  | EmptyString => true
  | String c s' => p c && allChars p s'
  end.

Definition validId (s : string) : bool :=
  (String.length s =? 64)%nat && allChars isHexDigit s.

(* ===================================================================== *)
(** * Values, records and buffers *)
(* ===================================================================== *)

(** Scalar attribute values of a work item, as [marshall]/[unmarshall]
    carry them between the service and the table. *)
Inductive JsVal :=
  | VStr (s : string)
  | VNum (n : Z)
  | VBool (b : bool)
  | VNull.

#[global] Instance JsVal_eq_dec : EqDecision JsVal.
Proof. solve_decision. Defined.

(** A work item (and any table item) is an object: a finite map from field
    names to values; a field that is [undefined] is absent from the map. *)
Abbreviation Item := (gmap string JsVal).

(** JavaScript truthiness of a field that may be [undefined]. *)
Definition truthy (v : option JsVal) : bool :=
  match v with
  | None => false
  | Some VNull => false
  | Some (VStr s) => negb (String.eqb s "")
  | Some (VNum n) => negb (n =? 0)
  | Some (VBool b) => b
  end.

(** [v || dflt] on a field. *)
Definition orElse (v : option JsVal) (dflt : JsVal) : JsVal :=
  match v with
  | Some x => if truthy v then x else dflt
  | None => dflt
  end.

(** [s || dflt] on an optional string, as in
    [result.ContentType || 'application/octet-stream']. *)
Definition strOrElse (s : option string) (dflt : string) : string :=
  match s with
  | Some x => if String.eqb x "" then dflt else x
  | None => dflt
  end.

(** [string | Buffer] *)
Inductive Content :=
  | CStr (s : string)
  | CBuf (b : list byte).

Record StorageConfig := {
  enabled : bool;
  bucket : string;
  table : string;
}.

(** The constructor builds [this.config], the only write to it: the
    bucket and the table come from the configuration service, [enabled] is
    the literal [true]. *)
Definition constructor (storageBucket storageTable : string) : StorageConfig :=
  {| enabled := true; bucket := storageBucket; table := storageTable |}.

(** The result of the packer. *)
Module PackedProject.
Record t := {
  packedContent : string;
  tokenCount : Z;
  exceedsTokenLimit : bool;
}.
End PackedProject.

Record UploadedFile := {
  filename : string;
  buffer : list byte;
  mimetype : string;
}.

(* ===================================================================== *)
(** * Outcomes and the world *)
(* ===================================================================== *)

(** What an [async] method settles to: a value, or a thrown [Error] with its
    [message]. *)
Inductive Outcome (A : Type) :=
  | Returned (a : A)
  | Thrown (message : string).
Arguments Returned {A} a.
Arguments Thrown {A} message.

Record S3Object := {
  Body : list byte;
  ContentType : option string;
}.

(** The commands the service sends to the two stores. *)
Inductive Call :=
  | S3Upload (key : string)
  | S3GetObject (key : string)
  | S3ListObjectsV2 (prefix : string)
  | S3DeleteObjects (keys : list string)
  | DdbPutItem (item : Item)
  | DdbGetItem (userId fileId : string)
  | DdbDeleteItem (userId fileId : string)
  | DdbUpdateItem (userId fileId : string) (updateExpression : string)
      (names : gmap string string) (values : gmap string JsVal)
  | DdbQuery (userId : string).

(** The configured bucket, the configured table (partition key [userId], sort
    key [fileId]), the clock read by [Date.now()] and [new Date()], and the
    calls sent so far, oldest first. *)
Record World := {
  objects : gmap string S3Object;
  items : gmap (string * string) Item;
  clock : Z;
  calls : list Call;
}.

Definition M (A : Type) : Type := World -> Outcome A * World.

Definition ret {A} (a : A) : M A := fun w => (Returned a, w).

Definition throw {A} (message : string) : M A := fun w => (Thrown message, w).

Definition bind {A B} (m : M A) (k : A -> M B) : M B :=
  fun w =>
    match m w with
    | (Returned a, w') => k a w'
    | (Thrown e, w') => (Thrown e, w')
    end.

(** [try { m } catch (error) { h error.message }] *)
Definition tryCatch {A} (m : M A) (h : string -> M A) : M A :=
  fun w =>
    match m w with
    | (Returned a, w') => (Returned a, w')
    | (Thrown e, w') => h e w'
    end.

(** A synchronous or store-free computation that may throw. *)
Definition liftOutcome {A} (o : Outcome A) : M A := fun w => (o, w).

Ltac unfold_monad := unfold bind, tryCatch, ret, throw, liftOutcome.

Declare Scope js_scope.
Delimit Scope js_scope with js.
Notation "x <- m ;; k" := (bind m (fun x => k))
  (at level 100, m at next level, right associativity) : js_scope.
Notation "m ;;; k" := (bind m (fun _ => k))
  (at level 100, right associativity) : js_scope.
Local Open Scope js_scope.

Definition record (c : Call) (w : World) : World :=
  {| objects := objects w; items := items w; clock := clock w;
     calls := calls w ++ [c] |}.

Definition setObjects (o : gmap string S3Object) (w : World) : World :=
  {| objects := o; items := items w; clock := clock w; calls := calls w |}.

Definition setItems (t : gmap (string * string) Item) (w : World) : World :=
  {| objects := objects w; items := t; clock := clock w; calls := calls w |}.

(** [Date.now()] *)
Definition Date_now : M Z := fun w => (Returned (clock w), w).

(** ** Values on their way to the table

    [marshall] of [@aws-sdk/util-dynamodb] converts an object of scalars
    to attribute values.  Strings (the empty one too), booleans and [null]
    always convert; a number converts when it is a safe integer and makes
    [marshall] throw otherwise.  The message names the number; every
    caller replaces it in its [catch] block. *)

(** [Number.MAX_SAFE_INTEGER], [2^53 - 1] *)
Definition MAX_SAFE_INTEGER : Z := 9007199254740991.

Definition isSafeInteger (n : Z) : bool :=
  (- MAX_SAFE_INTEGER <=? n) && (n <=? MAX_SAFE_INTEGER).

Definition marshallable (v : JsVal) : bool :=
  match v with
  | VNum n => isSafeInteger n
  | VStr _ | VBool _ | VNull => true
  end.

Definition marshall (data : gmap string JsVal) : Outcome (gmap string JsVal) :=
  if forallb marshallable (map_to_list data).*2
  then Returned data
  else Thrown "Number is outside the safe integer range. Use BigInt.".

(* ===================================================================== *)
(** * The object store *)
(* ===================================================================== *)

(** Network faults and throttling are outside the model: a call fails only
    for a reason that the request and the stored data determine.  The
    result pages of the two listing calls are part of the model, since the
    service reads one page only. *)
Module S3.

(** [ListObjectsV2] returns at most this many keys per call; the service
    makes one call and does not follow continuation tokens. *)
Definition MaxKeys : nat := 1000.

(** [new Upload({ params: { Key, Body, ContentType } }).done()] with the
    bytes of the body. *)
Definition upload (key : string) (body : list byte) (contentType : option string)
  : M unit :=
  fun w =>
    (Returned tt,
     setObjects (<[key := {| Body := body; ContentType := contentType |}]> (objects w))
                (record (S3Upload key) w)).

(** [GetObjectCommand]: fails with [NoSuchKey] when nothing is stored under
    the key. *)
Definition getObject (key : string) : M S3Object :=
  fun w =>
    let w' := record (S3GetObject key) w in
    match objects w !! key with
    | Some o => (Returned o, w')
    | None => (Thrown "The specified key does not exist.", w')
    end.

(** The keys under a prefix, in the order the service lists them. *)
Definition keysUnder (prefix : string) (o : gmap string S3Object) : list string :=
  merge_sort String.le
    (filter (fun k => Is_true (String.prefix prefix k)) (map_to_list o).*1).

(** [ListObjectsV2Command]: the [Key]s of [Contents] (no [Contents] and an
    empty [Contents] are the same to the caller). *)
Definition listObjectsV2 (prefix : string) : M (list string) :=
  fun w =>
    (Returned (take MaxKeys (keysUnder prefix (objects w))),
     record (S3ListObjectsV2 prefix) w).

(** [DeleteObjectsCommand]: a request without any object is malformed;
    keys that hold nothing are skipped silently. *)
Definition deleteObjects (keys : list string) : M unit :=
  fun w =>
    let w' := record (S3DeleteObjects keys) w in
    match keys with
    | [] => (Thrown "The XML you provided was not well-formed", w')
    | _ => (Returned tt, setObjects (foldr delete (objects w) keys) w')
    end.

End S3.

(* ===================================================================== *)
(** * The metadata table *)
(* ===================================================================== *)

Module Ddb.

(** A key attribute may not hold the empty string. *)
Definition validKey (userId fileId : string) : bool :=
  negb (String.eqb userId "") && negb (String.eqb fileId "").

Definition validationException : string :=
  "One or more parameter values were invalid".

(** [PutItemCommand]: the item replaces whatever the table holds under its
    key attributes. *)
Definition putItem (item : Item) : M unit :=
  fun w =>
    let w' := record (DdbPutItem item) w in
    match item !! "userId", item !! "fileId" with
    | Some (VStr u), Some (VStr f) =>
        if validKey u f
        then (Returned tt, setItems (<[(u, f) := item]> (items w)) w')
        else (Thrown validationException, w')
    | _, _ => (Thrown validationException, w')
    end.

(** [GetItemCommand]: [result.Item] is [undefined] for an absent key. *)
Definition getItem (userId fileId : string) : M (option Item) :=
  fun w =>
    let w' := record (DdbGetItem userId fileId) w in
    if validKey userId fileId
    then (Returned (items w !! (userId, fileId)), w')
    else (Thrown validationException, w').

(** [DeleteItemCommand] without a condition: deleting an absent item
    succeeds. *)
Definition deleteItem (userId fileId : string) : M unit :=
  fun w =>
    let w' := record (DdbDeleteItem userId fileId) w in
    if validKey userId fileId
    then (Returned tt, setItems (delete (userId, fileId) (items w)) w')
    else (Thrown validationException, w').

(** One [Query] returns at most this many bytes of items (1 MB) and
    reports the rest through [LastEvaluatedKey], which the service does
    not follow. *)
Definition pageBytes : N := 1048576.

(** The sort keys of a partition, in the order the table returns its
    items. *)
Definition sortKeys (userId : string) (t : gmap (string * string) Item) : list string :=
  merge_sort String.le
    (filter (fun k => k.1 = userId) (map_to_list t).*1).*2.

(** The items of a partition, in sort-key order. *)
Definition partition (userId : string) (t : gmap (string * string) Item) : list Item :=
  omap (fun fileId => t !! (userId, fileId)) (sortKeys userId t).

(** The leading items whose sizes add up to at most [budget] bytes. *)
Fixpoint takePage (size : Item -> N) (budget : N) (l : list Item) : list Item :=
  match l with
  | [] => []
  | item :: rest =>
      if (size item <=? budget)%N
      then item :: takePage size (budget - size item) rest
      else []
  end.

Definition totalSize (size : Item -> N) (l : list Item) : N :=
  foldr (fun item acc => (size item + acc)%N) 0%N l.

(** [QueryCommand] on the partition key: the first page of the partition;
    the value compared with a key attribute may not be the empty string.
    [size] is what the table counts as the size of an item. *)
Definition query (size : Item -> N) (userId : string) : M (list Item) :=
  fun w =>
    let w' := record (DdbQuery userId) w in
    if String.eqb userId ""
    then (Thrown validationException, w')
    else (Returned (takePage size pageBytes (partition userId (items w))), w').

(** ** Update expressions

    The table reads the expression the service sends.  The service only
    ever sends [SET #n1 = :v1, #n2 = :v2, ...]; a placeholder is a sigil
    followed by one or more letters, digits or underscores. *)

Definition isIdentChar (c : ascii) : bool :=
  let n := nat_of_ascii c in
  ((48 <=? n)%nat && (n <=? 57)%nat)
  || ((65 <=? n)%nat && (n <=? 90)%nat)
  || ((97 <=? n)%nat && (n <=? 122)%nat)
  || (n =? 95)%nat.

Fixpoint spanIdent (s : string) : string * string :=
  match s with
  | String c s' =>
      if isIdentChar c
      then let (a, r) := spanIdent s' in (String c a, r)
      else (EmptyString, s)
  | EmptyString => (EmptyString, EmptyString)
  end.

Definition stripPrefix (p s : string) : option string :=
  if String.prefix p s then Some (Js.drop (String.length p) s) else None.

Definition isEmpty (s : string) : bool :=
  match s with EmptyString => true | _ => false end.

(** The actions of a [SET] clause: pairs of a name placeholder and a
    value placeholder.  Every action consumes input, so the length of the
    text bounds the number of actions. *)
Fixpoint parseActions (fuel : nat) (s : string) : option (list (string * string)) :=
  match fuel with
  | O => None
  | S fuel' =>
      match s with
      | String "#" s1 =>
          let (nm, s2) := spanIdent s1 in
          if isEmpty nm then None else
          match stripPrefix " = :" s2 with
          | None => None
          | Some s3 =>
              let (vl, s4) := spanIdent s3 in
              if isEmpty vl then None else
              if isEmpty s4 then Some [("#" +:+ nm, ":" +:+ vl)] else
              match stripPrefix ", " s4 with
              | None => None
              | Some s5 =>
                  match parseActions fuel' s5 with
                  | Some rest => Some (("#" +:+ nm, ":" +:+ vl) :: rest)
                  | None => None
                  end
              end
          end
      | _ => None
      end
  end.

Definition parseUpdateExpression (e : string) : option (list (string * string)) :=
  match stripPrefix "SET " e with
  | Some s => parseActions (String.length s) s
  | None => None
  end.

(** An action resolved through [ExpressionAttributeNames] and
    [ExpressionAttributeValues]. *)
Definition resolve (names : gmap string string) (values : gmap string JsVal)
    (a : string * string) : option (string * JsVal) :=
  match names !! a.1, values !! a.2 with
  | Some n, Some v => Some (n, v)
  | _, _ => None
  end.

Definition isKeyAttribute (n : string) : bool :=
  String.eqb n "userId" || String.eqb n "fileId".

(** The assignments of an update request, or [None] when the table
    rejects the request: the expression does not parse, a placeholder is
    not defined, an action targets a key attribute, or two actions target
    the same attribute. *)
Definition assignments (expr : string) (names : gmap string string)
    (values : gmap string JsVal) : option (list (string * JsVal)) :=
  match parseUpdateExpression expr with
  | None => None
  | Some acts =>
      match mapM (resolve names values) acts with
      | None => None
      | Some asg =>
          if existsb isKeyAttribute asg.*1 then None
          else if bool_decide (NoDup asg.*1) then Some asg
          else None
      end
  end.

Definition keyItem (userId fileId : string) : Item :=
  <["userId" := VStr userId]> (<["fileId" := VStr fileId]> ∅).

Definition applyAssignments (asg : list (string * JsVal)) (item : Item) : Item :=
  foldl (fun it a => <[a.1 := a.2]> it) item asg.

(** [UpdateItemCommand] with [ReturnValues: 'ALL_NEW'] and no condition:
    the assignments are applied to the stored item, or to a new item that
    holds the key attributes when none is stored; the result carries all
    attributes of the item after the update. *)
Definition updateItem (userId fileId : string) (expr : string)
    (names : gmap string string) (values : gmap string JsVal) : M Item :=
  fun w =>
    let w' := record (DdbUpdateItem userId fileId expr names values) w in
    if validKey userId fileId then
      match assignments expr names values with
      | None => (Thrown validationException, w')
      | Some asg =>
          let old := default (keyItem userId fileId) (items w !! (userId, fileId)) in
          let new := applyAssignments asg old in
          (Returned new, setItems (<[(userId, fileId) := new]> (items w)) w')
      end
    else (Thrown validationException, w').

End Ddb.

(* ===================================================================== *)
(** * What the service imports *)
(* ===================================================================== *)

(** Functions of the Node.js runtime and of the AWS SDK that the service
    calls on strings and buffers, and the size accounting of the table. *)
Class Runtime := {
  (** [createHash('sha256').update(s).digest('hex')] *)
  sha256Hex : string -> string;
  (** the bytes of a string body *)
  utf8Encode : string -> list byte;
  (** [buf.toString('utf-8')], [Body.transformToString()] *)
  utf8Decode : list byte -> string;
  (** [buf.toString('base64')] *)
  base64Encode : list byte -> string;
  (** [Buffer.from(s, 'base64')] *)
  base64Decode : string -> list byte;
  (** [new Date(ms).toISOString()] *)
  toISOString : Z -> string;
  (** [s.trim()] and [s.toLowerCase()] *)
  trim : string -> string;
  toLowerCase : string -> string;
  (** [JSON.stringify] of an object of scalars *)
  stringifyItem : Item -> string;
  (** analysis results (typed [any]) with [JSON.stringify] and [JSON.parse] *)
  Json : Type;
  stringify : Json -> string;
  parse : string -> Outcome Json;
  (** the bytes that the table counts for an item when it fills a page *)
  itemSize : Item -> N;
}.

(** The values of the enum [FileUploadMode] of [shared/dto/analysis.dto],
    whose declaration is not part of the sources at hand. *)
Class FileUploadMode := {
  SINGLE_FILE : string;
  MULTIPLE_FILES : string;
  ZIP_FILE : string;
}.

(** The methods of [ProjectPacker] ([shared/utils/project-packer]) that the
    service calls.  They touch neither store. *)
Class ProjectPacker := {
  processZipFile : list byte -> string -> Outcome PackedProject.t;
  createZipFromFiles : list UploadedFile -> Outcome (list byte);
  processMultipleFiles : list UploadedFile -> Outcome PackedProject.t;
}.

(** [n.toString()] on an integer. *)
Definition numberToString (n : Z) : string :=
  NilZero.string_of_int (Z.to_int n).

(** An object literal. *)
Definition object (fields : list (string * JsVal)) : Item := list_to_map fields.

(* ===================================================================== *)
(** * The storage service *)
(* ===================================================================== *)

Section Service.

Context {RT : Runtime} {FM : FileUploadMode} {PP : ProjectPacker}.

(** [this.config] *)
Variable config : StorageConfig.

Definition notEnabled : string := "Storage is not enabled".

Definition createFileIdHash (input : string) : string := sha256Hex input.

(** The bytes that reach the bucket for a [Body] of type [string | Buffer]. *)
Definition bodyBytes (c : Content) : list byte :=
  match c with
  | CStr s => utf8Encode s
  | CBuf b => b
  end.

Definition getWorkItem (userId fileId : string) : M Item :=
  if negb (enabled config) then throw notEnabled else
  tryCatch
    (result <- Ddb.getItem userId fileId ;;
     match result with
     | None => throw "Work item not found"
     | Some item => ret item
     end)
    (fun _ => throw "Failed to get work item").

(** The numbers of the item are the token count that the packer measured
    on a text in memory and is taken to be a safe integer: [marshall] does
    not throw here. *)
Definition storeWorkItemInDynamoDB (workItem : Item) : M unit :=
  tryCatch (Ddb.putItem workItem)
           (fun _ => throw "Failed to store work item metadata").

Definition storePackedContent (userId fileId content : string) : M unit :=
  if negb (enabled config) then throw notEnabled else
  let s3Locations := getS3Locations userId fileId in
  tryCatch
    (S3.upload (packedContent s3Locations) (utf8Encode content) (Some "text/plain"))
    (fun _ => throw "Failed to store packed content").

Definition getPackedContent (userId fileId : string) : M string :=
  if negb (enabled config) then throw notEnabled else
  let s3Locations := getS3Locations userId fileId in
  tryCatch
    (result <- S3.getObject (packedContent s3Locations) ;;
     ret (utf8Decode (Body result)))
    (fun _ => throw "Failed to get packed content").

(** [content.split(';base64,')[1] || content] *)
Definition base64Payload (content : string) : string :=
  match Js.split_at1 content ";base64," with
  | Some seg => if String.eqb seg "" then content else seg
  | None => content
  end.

Definition storeOriginalContent (userId fileId : string) (content : Content)
    (fileType : string) : M unit :=
  if negb (enabled config) then throw notEnabled else
  let s3Locations := getS3Locations userId fileId in
  tryCatch
    (match content with
     | CStr s =>
         if Js.startsWith fileType "image/" then
           let base64Data := base64Payload s in
           let buffer := base64Decode base64Data in
           S3.upload (originalContent s3Locations) buffer (Some fileType)
         else
           S3.upload (originalContent s3Locations) (bodyBytes content) (Some fileType)
     | CBuf _ =>
         S3.upload (originalContent s3Locations) (bodyBytes content) (Some fileType)
     end)
    (fun _ => throw "Failed to store original content").

(** [workItem.uploadMode === FileUploadMode.MULTIPLE_FILES ||
     workItem.uploadMode === FileUploadMode.ZIP_FILE] *)
Definition isPackedMode (workItem : Item) : bool :=
  bool_decide (workItem !! "uploadMode" = Some (VStr MULTIPLE_FILES))
  || bool_decide (workItem !! "uploadMode" = Some (VStr ZIP_FILE)).

(** The tail of [getOriginalContent]: how the original object is handed
    to the caller. *)
Definition shapeOriginal (forDownload : bool) (result : S3Object) : Content * string :=
  let contentType := strOrElse (ContentType result) "application/octet-stream" in
  let response := Body result in
  if forDownload then (CBuf response, contentType)
  else if Js.startsWith contentType "image/" then
    let base64Data := base64Encode response in
    (CStr ("data:" +:+ contentType +:+ ";base64," +:+ base64Data), contentType)
  else (CStr (utf8Decode response), contentType).

Definition readOriginal (key : string) (forDownload : bool) : M (Content * string) :=
  result <- S3.getObject key ;;
  ret (shapeOriginal forDownload result).

(** [early] is the value of the [return] inside the inner [try] block:
    [Some] when the packed text is served, [None] when control falls
    through to the read of the original content. *)
Definition getOriginalContent (userId fileId : string) (forDownload : bool)
  : M (Content * string) :=
  if negb (enabled config) then throw notEnabled else
  let s3Locations := getS3Locations userId fileId in
  tryCatch
    (workItem <- getWorkItem userId fileId ;;
     early <-
       (if isPackedMode workItem && negb forDownload then
          tryCatch
            (packed <- getPackedContent userId fileId ;;
             ret (Some (CStr packed, "text/plain")))
            (fun _ => ret None)
        else ret None) ;;
     match early with
     | Some r => ret r
     | None => readOriginal (originalContent s3Locations) forDownload
     end)
    (fun _ => throw "Failed to get original content").

(** Storing the original content and reading it back for download. *)
Definition storeThenDownload (userId fileId : string) (content : Content)
    (fileType : string) : M (Content * string) :=
  storeOriginalContent userId fileId content fileType ;;;
  getOriginalContent userId fileId true.

(** [Object.entries(updates).forEach(...)]: one step of the loop on the
    three accumulators [updateExpr], [exprAttrNames], [exprAttrValues]. *)
Definition updateStep
    (acc : list string * gmap string string * gmap string JsVal)
    (entry : string * option JsVal)
  : list string * gmap string string * gmap string JsVal :=
  let '(updateExpr, exprAttrNames, exprAttrValues) := acc in
  let (key, value) := entry in
  match value with
  | Some v =>
      (updateExpr ++ ["#" +:+ key +:+ " = :" +:+ key],
       <["#" +:+ key := key]> exprAttrNames,
       <[":" +:+ key := v]> exprAttrValues)
  | None => acc
  end.

(** [updates] is the entry list of the partial work item, in insertion
    order; [None] is a field set to [undefined]. *)
Definition updateWorkItem (userId fileId : string)
    (updates : list (string * option JsVal)) : M Item :=
  if negb (enabled config) then throw notEnabled else
  let '(updateExpr, exprAttrNames, exprAttrValues) :=
    foldl updateStep ([], ∅, ∅) updates in
  let updateExprStr := "SET " +:+ Js.join ", " updateExpr in
  tryCatch
    (marshalled <- liftOutcome (marshall exprAttrValues) ;;
     result <- Ddb.updateItem userId fileId updateExprStr exprAttrNames marshalled ;;
     ret result)
    (fun _ => throw "Failed to update work item").

Definition linkSupportingDocumentToWorkItem
    (userId fileId supportingDocId docName docType description : string) : M Item :=
  if negb (enabled config) then throw notEnabled else
  now <- Date_now ;;
  updateWorkItem userId fileId
    [("supportingDocumentId", Some (VStr supportingDocId));
     ("supportingDocumentAdded", Some (VBool true));
     ("supportingDocumentDescription", Some (VStr description));
     ("supportingDocumentName", Some (VStr docName));
     ("supportingDocumentType", Some (VStr docType));
     ("lastModified", Some (VStr (toISOString now)))].

Definition supportingDocKey (userId mainFileId supportingDocId : string) : string :=
  userId +:+ "/" +:+ mainFileId +:+ "/supporting_documents/" +:+ supportingDocId.

(** The [try] block of [getSupportingDocument]. *)
Definition getSupportingDocumentBody (userId mainFileId supportingDocId : string)
  : M (list byte * string * JsVal) :=
  workItem <- getWorkItem userId mainFileId ;;
  if negb (truthy (workItem !! "supportingDocumentId"))
     || negb (truthy (workItem !! "supportingDocumentAdded"))
  then throw "No supporting document available for this work item"
  else if negb (bool_decide (workItem !! "supportingDocumentId" = Some (VStr supportingDocId)))
  then throw "Supporting document ID does not match the work item record"
  else
    result <- S3.getObject (supportingDocKey userId mainFileId supportingDocId) ;;
    let contentType := strOrElse (ContentType result) "application/octet-stream" in
    ret (Body result, contentType,
         orElse (workItem !! "supportingDocumentName") (VStr "supporting-document")).

Definition getSupportingDocument (userId mainFileId supportingDocId : string)
  : M (list byte * string * JsVal) :=
  if negb (enabled config) then throw notEnabled else
  tryCatch (getSupportingDocumentBody userId mainFileId supportingDocId)
           (fun _ => throw "Failed to get supporting document").

Definition deleteWorkItem (userId fileId : string) : M unit :=
  if negb (enabled config) then throw notEnabled else
  tryCatch
    (contents <- S3.listObjectsV2 (storageRoot userId fileId) ;;
     (if (0 <? length contents)%nat then S3.deleteObjects contents else ret tt) ;;;
     Ddb.deleteItem userId fileId)
    (fun _ => throw "Failed to delete work item").

Definition createUserIdHash (email : string) : string :=
  let normalizedEmail := toLowerCase (trim email) in
  sha256Hex normalizedEmail.

(** The work item literal of [createWorkItem]. *)
Definition createdWorkItem (userId fileId fileName fileType timestamp uploadMode : string)
  : Item :=
  object
    [("userId", VStr userId);
     ("fileId", VStr fileId);
     ("fileName", VStr fileName);
     ("fileType", VStr fileType);
     ("uploadDate", VStr timestamp);
     ("analysisStatus", VStr "NOT_STARTED");
     ("analysisProgress", VNum 0);
     ("iacGenerationStatus", VStr "NOT_STARTED");
     ("iacGenerationProgress", VNum 0);
     ("s3Prefix", VStr (storageRoot userId fileId));
     ("lastModified", VStr timestamp);
     ("uploadMode", VStr uploadMode)].

(** [uploadMode] is an optional parameter with default
    [FileUploadMode.SINGLE_FILE]. *)
Definition createWorkItem (userId fileName fileType : string) (fileBuffer : list byte)
    (uploadMode : option string) : M Item :=
  if negb (enabled config) then throw notEnabled else
  now <- Date_now ;;
  let fileId := createFileIdHash (fileName +:+ numberToString now) in
  date <- Date_now ;;
  let timestamp := toISOString date in
  let s3Locations := getS3Locations userId fileId in
  let workItem :=
    createdWorkItem userId fileId fileName fileType timestamp
                    (default SINGLE_FILE uploadMode) in
  tryCatch
    (Ddb.putItem workItem ;;;
     S3.upload (originalContent s3Locations) fileBuffer (Some fileType) ;;;
     S3.upload (metadata s3Locations) (utf8Encode (stringifyItem workItem))
               (Some "application/json") ;;;
     ret workItem)
    (fun _ => throw "Failed to create work item").

Definition listWorkItems (userId : string) : M (list Item) :=
  if negb (enabled config) then throw notEnabled else
  tryCatch (Ddb.query itemSize userId) (fun _ => throw "Failed to list work items").

Definition storeAnalysisResults (userId fileId : string) (results : Json) : M unit :=
  if negb (enabled config) then throw notEnabled else
  let s3Locations := getS3Locations userId fileId in
  tryCatch
    (S3.upload (analysisResults s3Locations) (utf8Encode (stringify results))
               (Some "application/json"))
    (fun _ => throw "Failed to store analysis results").

Definition getAnalysisResults (userId fileId : string) : M Json :=
  if negb (enabled config) then throw notEnabled else
  let s3Locations := getS3Locations userId fileId in
  tryCatch
    (result <- S3.getObject (analysisResults s3Locations) ;;
     let content := utf8Decode (Body result) in
     liftOutcome (parse content))
    (fun _ => throw "Failed to get analysis results").

(** [templateType] is an optional parameter; the empty string is falsy. *)
Definition storeIaCDocument (userId fileId content extension : string)
    (templateType : option string) : M unit :=
  if negb (enabled config) then throw notEnabled else
  let s3Locations := getS3Locations userId fileId in
  tryCatch
    (S3.upload (iacDocument s3Locations +:+ "." +:+ extension) (utf8Encode content) None ;;;
     match templateType with
     | Some t =>
         if String.eqb t "" then ret tt else
         now <- Date_now ;;
         updateWorkItem userId fileId
           [("iacGeneratedFileType", Some (VStr t));
            ("lastModified", Some (VStr (toISOString now)))] ;;;
         ret tt
     | None => ret tt
     end)
    (fun _ => throw "Failed to store IaC document").

(** [s.includes(sub)] *)
Definition includes (s sub : string) : bool :=
  match Js.find_sub sub s with Some _ => true | None => false end.

Definition getExtensionFromTemplateType (templateType : string) : string :=
  if includes templateType "yaml" then "yaml"
  else if includes templateType "json" then "json"
  else "tf".

(** [workItem] is an optional parameter.  A truthy [iacGeneratedFileType]
    that is not a string has no [includes] method. *)
Definition getIaCDocument (userId fileId extension : string) (workItem : option Item)
  : M string :=
  if negb (enabled config) then throw notEnabled else
  let s3Locations := getS3Locations userId fileId in
  tryCatch
    (iacGeneratedExtension <-
       match workItem with
       | Some item =>
           if truthy (item !! "iacGeneratedFileType") then
             match item !! "iacGeneratedFileType" with
             | Some (VStr t) => ret (getExtensionFromTemplateType t)
             | _ => throw "templateType.includes is not a function"
             end
           else ret extension
       | None => ret extension
       end ;;
     result <- S3.getObject (iacDocument s3Locations +:+ "." +:+ iacGeneratedExtension) ;;
     ret (utf8Decode (Body result)))
    (fun _ => throw "Failed to get IaC document").

Definition storeSupportingDocument
    (userId mainFileId fileName fileType : string) (fileBuffer : list byte)
    (description : string) : M string :=
  if negb (enabled config) then throw notEnabled else
  now <- Date_now ;;
  let supportingDocId :=
    createFileIdHash ("supporting_" +:+ mainFileId +:+ "_" +:+ fileName +:+ "_"
                      +:+ numberToString now) in
  date <- Date_now ;;
  let timestamp := toISOString date in
  let docKey := supportingDocKey userId mainFileId supportingDocId in
  tryCatch
    (S3.upload docKey fileBuffer (Some fileType) ;;;
     let metadata :=
       object
         [("userId", VStr userId);
          ("fileId", VStr supportingDocId);
          ("mainFileId", VStr mainFileId);
          ("fileName", VStr fileName);
          ("fileType", VStr fileType);
          ("uploadDate", VStr timestamp);
          ("lastModified", VStr timestamp);
          ("description", VStr description);
          ("type", VStr "supporting-document")] in
     S3.upload (docKey +:+ "_metadata.json")
               (utf8Encode (stringifyItem metadata)) (Some "application/json") ;;;
     linkSupportingDocumentToWorkItem userId mainFileId supportingDocId fileName
                                      fileType description ;;;
     ret supportingDocId)
    (fun _ => throw "Failed to store supporting document").

(** The work item literal shared by [handleZipFile] and
    [handleMultipleFiles]. *)
Definition uploadedWorkItem (userId fileId fileName fileType timestamp uploadMode : string)
    (packedProject : PackedProject.t) : Item :=
  object
    [("userId", VStr userId);
     ("fileId", VStr fileId);
     ("fileName", VStr fileName);
     ("fileType", VStr fileType);
     ("uploadDate", VStr timestamp);
     ("analysisStatus", VStr "NOT_STARTED");
     ("analysisProgress", VNum 0);
     ("iacGenerationStatus", VStr "NOT_STARTED");
     ("iacGenerationProgress", VNum 0);
     ("s3Prefix", VStr (storageRoot userId fileId));
     ("lastModified", VStr timestamp);
     ("uploadMode", VStr uploadMode);
     ("tokenCount", VNum (PackedProject.tokenCount packedProject));
     ("exceedsTokenLimit", VBool (PackedProject.exceedsTokenLimit packedProject))].

Definition handleZipFile (userId filename : string) (buffer : list byte)
  : M (string * Z * bool) :=
  tryCatch
    (packedProject <- liftOutcome (processZipFile buffer filename) ;;
     now <- Date_now ;;
     let fileId := createFileIdHash (filename +:+ numberToString now) in
     date <- Date_now ;;
     let timestamp := toISOString date in
     let workItem :=
       uploadedWorkItem userId fileId filename "application/zip" timestamp
                        ZIP_FILE packedProject in
     storeWorkItemInDynamoDB workItem ;;;
     storeOriginalContent userId fileId (CBuf buffer) "application/zip" ;;;
     storePackedContent userId fileId (PackedProject.packedContent packedProject) ;;;
     ret (fileId, PackedProject.tokenCount packedProject,
          PackedProject.exceedsTokenLimit packedProject))
    (fun message => throw ("Failed to process zip file: " +:+ message)).

(** [files.length < 2 ? files.map(f => f.filename).join('_')
     : `${files[0].filename}_and_${files.length - 1}_more_files`] *)
Definition combinedFilename (first : UploadedFile) (files : list UploadedFile) : string :=
  if (length files <? 2)%nat then Js.join "_" (filename <$> files)
  else filename first +:+ "_and_"
       +:+ numberToString (Z.of_nat (length files) - 1) +:+ "_more_files".

Definition handleMultipleFiles (userId : string) (files : list UploadedFile)
  : M (string * Z * bool) :=
  tryCatch
    (zipBuffer <- liftOutcome (createZipFromFiles files) ;;
     packedProject <- liftOutcome (processMultipleFiles files) ;;
     match files with
     | [] => throw "Cannot read properties of undefined (reading 'filename')"
     | first :: _ =>
         now <- Date_now ;;
         let fileId := createFileIdHash (filename first +:+ numberToString now) in
         date <- Date_now ;;
         let timestamp := toISOString date in
         let workItem :=
           uploadedWorkItem userId fileId (combinedFilename first files)
                            "application/multiple-files" timestamp
                            MULTIPLE_FILES packedProject in
         storeWorkItemInDynamoDB workItem ;;;
         storeOriginalContent userId fileId (CBuf zipBuffer) "application/zip" ;;;
         storePackedContent userId fileId (PackedProject.packedContent packedProject) ;;;
         ret (fileId, PackedProject.tokenCount packedProject,
              PackedProject.exceedsTokenLimit packedProject)
     end)
    (fun message => throw ("Failed to process multiple files: " +:+ message)).

End Service.

(* ===================================================================== *)
(** * Vocabulary of the properties *)
(* ===================================================================== *)

(** The entries of a partial work item whose value is not [undefined]. *)
Definition definedFields (updates : list (string * option JsVal))
  : list (string * JsVal) :=
  omap (fun e => pair e.1 <$> e.2) updates.

(** A field of [WorkItemUpdate]: an identifier that is not one of the two
    key attributes. *)
Definition isFieldName (k : string) : bool :=
  negb (Ddb.isEmpty k) && allChars Ddb.isIdentChar k && negb (Ddb.isKeyAttribute k).

(** The text that [updateWorkItem] pushes for a field. *)
Definition setClause (k : string) : string := "#" +:+ k +:+ " = :" +:+ k.

(** What may follow an identifier in an update expression: the end of the
    text, or a character that cannot continue the identifier. *)
Definition stops (r : string) : Prop :=
  match r with
  | EmptyString => True
  | String c _ => Ddb.isIdentChar c = false
  end.

(** The items of the [PutItem] calls in a trace. *)
Definition putItems (cs : list Call) : list Item :=
  omap (fun c => match c with DdbPutItem item => Some item | _ => None end) cs.

(** The calls that a run added to the trace of the world it started in. *)
Definition callsSince (w w' : World) : list Call :=
  drop (length (calls w)) (calls w').

(** Every record and every object of [w0] is still there in [w], with
    whatever content. *)
Definition retains (w0 w : World) : Prop :=
  (forall k, is_Some (items w0 !! k) -> is_Some (items w !! k))
  /\ (forall k, is_Some (objects w0 !! k) -> is_Some (objects w !! k)).

(** A run that throws [message] before it sends any call. *)
Definition failsBeforeAnyCall {A : Type} (message : string) (m : M A) (w : World) : Prop :=
  (m w).1 = Thrown message /\ callsSince w (m w).2 = [].

(** Both stores hold what they hold in [w0]. *)
Definition sameStores (w0 w : World) : Prop :=
  objects w = objects w0 /\ items w = items w0.

(** A run keeps a property of the world, whatever it returns or throws. *)
Definition preserves {A : Type} (P : World -> Prop) (m : M A) : Prop :=
  forall w, P w -> P (m w).2.

(** A text without the character [;], as a content type without
    parameters and a base64 text are. *)
Definition noSemicolon (s : string) : bool :=
  allChars (fun c => negb (Ascii.eqb c ";")) s.

(* ===================================================================== *)
(** * The content packer *)
(* ===================================================================== *)

(** What the packer is built from and the spec leaves open: reading and
    writing archives, the delimiter that introduces a file in the packed
    text, the token estimate, the configured limit and the ceiling on the
    size of one entry. *)
Class PackerParts := {
  readArchive : list byte -> Outcome (list (string * list byte));
  writeArchive : list (string * list byte) -> list byte;
  entryHeader : string -> string;
  estimateTokens : string -> Z;
  configuredLimit : Z;
  maxEntryBytes : Z;
}.

Section PackerModel.

Context {RT : Runtime} {PK : PackerParts}.

Definition packedText (entries : list (string * list byte)) : string :=
  foldr (fun e acc => entryHeader e.1 +:+ utf8Decode e.2 +:+ acc) "" entries.

(** Modelled from the spec: the measurement that [ProjectPacker]
    ([shared/utils/project-packer], not among the sources) attaches to a
    packed text: the token count is the estimate of the text, and
    [exceedsTokenLimit] is [tokenCount > configuredLimit]. *)
Definition measured (text : string) : PackedProject.t :=
  let tokenCount := estimateTokens text in
  {| PackedProject.packedContent := text;
     PackedProject.tokenCount := tokenCount;
     PackedProject.exceedsTokenLimit := tokenCount >? configuredLimit |}.

(** Modelled from the spec: packing the entries of an upload in
    [ProjectPacker]: an empty file set fails, an entry above the ceiling
    fails, otherwise the entries are concatenated in order, each under
    its header, and measured. *)
Definition packEntries (entries : list (string * list byte)) : Outcome PackedProject.t :=
  match entries with
  | [] => Thrown "No files to process"
  | _ =>
      if existsb (fun e => maxEntryBytes <? Z.of_nat (length e.2)) entries
      then Thrown "File exceeds the maximum size"
      else Returned (measured (packedText entries))
  end.

Definition fileEntries (files : list UploadedFile) : list (string * list byte) :=
  (fun f => (filename f, buffer f)) <$> files.

(** Modelled from the spec: the three methods of [ProjectPacker] that the
    service calls.  An unreadable archive fails the whole operation. *)
Definition specPacker : ProjectPacker :=
  {| processZipFile buffer _ :=
       match readArchive buffer with
       | Returned entries => packEntries entries
       | Thrown e => Thrown e
       end;
     createZipFromFiles files :=
       match files with
       | [] => Thrown "No files to process"
       | _ => Returned (writeArchive (fileEntries files))
       end;
     processMultipleFiles files := packEntries (fileEntries files) |}.

End PackerModel.

(* ===================================================================== *)
(** * A runtime for closed examples *)
(* ===================================================================== *)

(** The theorems below hold for every [Runtime], every value of the enum
    and every packer.  Closed examples need one of each: base64 is the
    standard codec; text is ASCII, where UTF-8 is the identity; the digest
    and the date format are placeholders of the right shape, on which no
    example depends. *)
Module Example.

Definition alphabet : list ascii :=
  list_ascii_of_string
    "ABCDEFGHIJKLMNOPQRSTUVWXYZabcdefghijklmnopqrstuvwxyz0123456789+/".

Definition sextetChar (n : N) : ascii := nth (N.to_nat n) alphabet "A"%char.

Fixpoint encodeTriples (l : list N) : string :=
  match l with
  | a :: b :: c :: r =>
      let n := (a * 65536 + b * 256 + c)%N in
      String (sextetChar (n / 262144))
        (String (sextetChar ((n / 4096) mod 64))
           (String (sextetChar ((n / 64) mod 64))
              (String (sextetChar (n mod 64)) (encodeTriples r))))
  | [a; b] =>
      let n := (a * 65536 + b * 256)%N in
      String (sextetChar (n / 262144))
        (String (sextetChar ((n / 4096) mod 64))
           (String (sextetChar ((n / 64) mod 64)) "="))
  | [a] =>
      let n := (a * 65536)%N in
      String (sextetChar (n / 262144))
        (String (sextetChar ((n / 4096) mod 64)) "==")
  | [] => ""
  end.

Definition encodeBase64 (b : list byte) : string := encodeTriples (Byte.to_N <$> b).

Fixpoint indexOf (c : ascii) (l : list ascii) (i : N) : option N :=
  match l with
  | [] => None
  | x :: r => if Ascii.eqb x c then Some i else indexOf c r (i + 1)%N
  end.

(** The sextets of a text, up to the first padding character; other
    characters are skipped. *)
Fixpoint sextets (s : string) : list N :=
  match s with
  | EmptyString => []
  | String c r =>
      if Ascii.eqb c "="%char then []
      else match indexOf c alphabet 0%N with
           | Some n => n :: sextets r
           | None => sextets r
           end
  end.

Definition byteOf (n : N) : byte := default x00 (Byte.of_N (n mod 256)%N).

Fixpoint decodeQuads (l : list N) : list byte :=
  match l with
  | a :: b :: c :: d :: r =>
      let n := (a * 262144 + b * 4096 + c * 64 + d)%N in
      byteOf (n / 65536) :: byteOf (n / 256) :: byteOf n :: decodeQuads r
  | [a; b; c] =>
      let n := (a * 262144 + b * 4096 + c * 64)%N in
      [byteOf (n / 65536); byteOf (n / 256)]
  | [a; b] =>
      let n := (a * 262144 + b * 4096)%N in
      [byteOf (n / 65536)]
  | _ => []
  end.

Definition decodeBase64 (s : string) : list byte := decodeQuads (sextets s).

Definition zeros64 : string :=
  "0000000000000000000000000000000000000000000000000000000000000000".

Definition ones64 : string :=
  "1111111111111111111111111111111111111111111111111111111111111111".

Definition lowerAscii (c : ascii) : ascii :=
  let n := nat_of_ascii c in
  if (65 <=? n)%nat && (n <=? 90)%nat then ascii_of_nat (n + 32) else c.

Fixpoint mapChars (f : ascii -> ascii) (s : string) : string :=
  match s with
  | EmptyString => EmptyString
  | String c r => String (f c) (mapChars f r)
  end.

Fixpoint trimStart (s : string) : string :=
  match s with
  | String c r => if Ascii.is_space c then trimStart r else s
  | EmptyString => EmptyString
  end.

Definition trimAscii (s : string) : string :=
  String.rev (trimStart (String.rev (trimStart s))).

Definition runtimeOf (size : Item -> N) : Runtime :=
  {| sha256Hex _ := zeros64;
     utf8Encode := list_byte_of_string;
     utf8Decode := string_of_list_byte;
     base64Encode := encodeBase64;
     base64Decode := decodeBase64;
     toISOString n := numberToString n;
     trim := trimAscii;
     toLowerCase := mapChars lowerAscii;
     stringifyItem _ := "{}";
     Json := string;
     stringify text := text;
     parse text := Returned text;
     itemSize := size |}.

(** Every item counts for 1 KB. *)
Definition runtime : Runtime := runtimeOf (fun _ => 1024%N).

(** Every item counts for 600 KB: two items do not fit one page. *)
Definition bulky : Runtime := runtimeOf (fun _ => 614400%N).

Definition modes : FileUploadMode :=
  {| SINGLE_FILE := "single_file";
     MULTIPLE_FILES := "multiple_files";
     ZIP_FILE := "zip_file" |}.

(** An archive reader that yields one entry holding the bytes it is
    given, a token estimate of one token per character, a limit of ten
    tokens. *)
Definition parts : PackerParts :=
  {| readArchive b := Returned [("a.tf", b)];
     writeArchive es := concat es.*2;
     entryHeader name := name +:+ ":";
     estimateTokens text := Z.of_nat (String.length text);
     configuredLimit := 10;
     maxEntryBytes := 104857600 |}.

Definition packer : ProjectPacker := @specPacker runtime parts.

Definition on : StorageConfig := constructor "bucket" "table".

Definition off : StorageConfig :=
  {| enabled := false; bucket := "bucket"; table := "table" |}.

Definition emptyWorld : World :=
  {| objects := ∅; items := ∅; clock := 0; calls := [] |}.

Definition user : string := zeros64.
Definition file : string := ones64.

(** A single-file work item. *)
Definition singleItem : Item :=
  object [("userId", VStr user); ("fileId", VStr file);
          ("fileName", VStr "main.tf"); ("uploadMode", VStr "single_file")].

(** A zip work item with a linked supporting document. *)
Definition zipItem : Item :=
  object [("userId", VStr user); ("fileId", VStr file);
          ("fileName", VStr "project.zip"); ("uploadMode", VStr "zip_file");
          ("supportingDocumentId", VStr "doc1");
          ("supportingDocumentAdded", VBool true)].

Definition withItem (item : Item) (w : World) : World :=
  setItems (<[(user, file) := item]> (items w)) w.

Definition withObject (key : string) (body : list byte) (contentType : string)
    (w : World) : World :=
  setObjects (<[key := {| Body := body; ContentType := Some contentType |}]> (objects w)) w.

Definition originalKey : string := originalContent (getS3Locations user file).
Definition packedKey : string := packedContent (getS3Locations user file).

(** A single-file work item whose original content is a three-byte image. *)
Definition pngWorld : World :=
  withObject originalKey (decodeBase64 "AAEC") "image/png"
             (withItem singleItem emptyWorld).

(** A zip work item with its archive and its packed text. *)
Definition zipWorld : World :=
  withObject packedKey (list_byte_of_string "a.tf:hello") "text/plain"
    (withObject originalKey (list_byte_of_string "PK-archive") "application/zip"
       (withItem zipItem emptyWorld)).

(** The same work item after the packed text has been removed. *)
Definition zipWorldUnpacked : World :=
  withObject originalKey (list_byte_of_string "PK-archive") "application/zip"
    (withItem zipItem emptyWorld).

Definition statusUpdate : list (string * option JsVal) :=
  [("analysisStatus", Some (VStr "COMPLETED"));
   ("analysisProgress", Some (VNum 100));
   ("iacGeneratedFileType", None)].

(** One uploaded file, and what the packer makes of it. *)
Definition helloFile : UploadedFile :=
  {| filename := "a.tf"; buffer := list_byte_of_string "hello";
     mimetype := "text/plain" |}.

Definition helloPacked : PackedProject.t :=
  {| PackedProject.packedContent := "a.tf:hello";
     PackedProject.tokenCount := 10;
     PackedProject.exceedsTokenLimit := false |}.

(** A world that holds the single-file work item and nothing else. *)
Definition singleWorld : World := withItem singleItem emptyWorld.

(** Analysis results without findings. *)
Definition noFindings : @Json runtime := "[]"%string.

(** A second work item of the same user, and a world that holds both. *)
Definition otherItem : Item :=
  object [("userId", VStr user); ("fileId", VStr user);
          ("fileName", VStr "other.tf"); ("uploadMode", VStr "single_file")].

Definition twoItemsWorld : World :=
  setItems (<[(user, user) := otherItem]> (items singleWorld)) singleWorld.

(** A work item whose template was generated as CloudFormation YAML. *)
Definition typedItem : Item :=
  object [("userId", VStr user); ("fileId", VStr file);
          ("iacGeneratedFileType", VStr "cloudformation-yaml")].

End Example.

(* ********************************************************************* *)
(** * Part II: properties *)
(* ********************************************************************* *)

(* ===================================================================== *)
(** * Facts on strings *)
(* ===================================================================== *)

Section StringFacts.

Lemma app_nil_s (b : string) : "" +:+ b = b.
Proof. reflexivity. Qed.

Lemma app_cons_s (x : ascii) (a b : string) :
  String x a +:+ b = String x (a +:+ b).
Proof. reflexivity. Qed.

Lemma app_assoc_s (a b c : string) : (a +:+ b) +:+ c = a +:+ (b +:+ c).
Proof.
  induction a as [|x a IH]; [done|]. by rewrite !app_cons_s, IH.
Qed.

Lemma app_inj_length (a a' b b' : string) :
  String.length a = String.length a' ->
  a +:+ b = a' +:+ b' -> a = a' /\ b = b'.
Proof.
  revert a'. induction a as [|x a IH]; intros [|x' a'] Hlen Heq;
    try discriminate.
  - done.
  - rewrite !app_cons_s in Heq. injection Hlen as Hlen.
    injection Heq as -> Heq.
    destruct (IH a' Hlen Heq) as [-> ->]. done.
Qed.

Lemma prefix_app (p s : string) :
  String.prefix p s = true <-> exists r, s = p +:+ r.
Proof.
  revert s. induction p as [|x p IH]; intros s.
  - destruct s; split; eauto.
  - destruct s as [|y s]; simpl.
    + split; [done | intros [r Hr]; discriminate].
    + destruct (ascii_dec x y) as [->|Hne].
      * rewrite IH. split; intros [r Hr]; exists r.
        -- by rewrite Hr.
        -- rewrite app_cons_s in Hr. by injection Hr.
      * split; [done|]. intros [r Hr]. rewrite app_cons_s in Hr.
        injection Hr as ? ?; congruence.
Qed.

Lemma validId_length (s : string) : validId s = true -> String.length s = 64%nat.
Proof.
  unfold validId. intros [H _]%andb_prop. by apply Nat.eqb_eq in H.
Qed.

(** A key rooted at one storage root, read against another root of the
    same shape. *)
Lemma storageRoot_app_inj (n m : nat) (u f u' f' r r' : string) :
  String.length u = n -> String.length u' = n ->
  String.length f = m -> String.length f' = m ->
  storageRoot u f +:+ r = storageRoot u' f' +:+ r' ->
  u = u' /\ f = f' /\ r = r'.
Proof.
  intros Hu Hu' Hf Hf'. unfold storageRoot.
  rewrite !app_assoc_s. intros H.
  apply app_inj_length in H as [-> H]; [|congruence].
  rewrite !app_cons_s, !app_nil_s in H. injection H as H.
  apply app_inj_length in H as [-> ->]; [done | congruence].
Qed.

End StringFacts.

(* ===================================================================== *)
(** * Key layout *)
(* ===================================================================== *)

Section KeyLayout.

Lemma locationKeys_rooted (u f k : string) :
  k ∈ locationKeys (getS3Locations u f) -> exists r, k = storageRoot u f +:+ r.
Proof.
  unfold locationKeys, getS3Locations; simpl.
  rewrite !elem_of_cons, elem_of_nil.
  intros [->|[->|[->|[->|[->|[->|[]]]]]]]; eauto.
Qed.

(** Keys under the roots of two pairs of identifiers of the same lengths
    never meet, and no key under one root extends the other root. *)
Lemma rooted_keys_apart (n m : nat) (u f u' f' : string) :
  String.length u = n -> String.length u' = n ->
  String.length f = m -> String.length f' = m ->
  (u, f) <> (u', f') ->
  forall r, String.prefix (storageRoot u' f') (storageRoot u f +:+ r) = false.
Proof.
  intros Hu Hu' Hf Hf' Hne r.
  destruct (String.prefix _ _) eqn:Hp; [|done].
  apply prefix_app in Hp as [r' Hr'].
  destruct (storageRoot_app_inj n m u f u' f' r r') as (-> & -> & _); done.
Qed.

(** Without the fixed shape of the identifiers the layout is not
    injective: a separator inside an identifier moves the boundary. *)
Example getS3Locations_unrestricted_collision :
  getS3Locations "a/b" "c" = getS3Locations "a" "b/c".
Proof. reflexivity. Qed.

Example storageRoot_unrestricted_prefix :
  String.prefix (storageRoot "a" "b") (metadata (getS3Locations "a" "bc")) = true.
Proof. reflexivity. Qed.

(** C1. [getS3Locations] is a function of its two arguments, and for two
    distinct pairs of valid identifiers (SHA-256 digests in hexadecimal)
    the two key sets are disjoint and no key of one pair extends the
    storage root of the other pair. *)
Theorem getS3Locations_deterministic_injective (u f u' f' : string) :
  validId u = true -> validId f = true ->
  validId u' = true -> validId f' = true ->
  (u, f) <> (u', f') ->
  (forall a b a' b', (a, b) = (a', b') -> getS3Locations a b = getS3Locations a' b')
  /\ (forall k, k ∈ locationKeys (getS3Locations u f) ->
                k ∉ locationKeys (getS3Locations u' f'))
  /\ (forall k, k ∈ locationKeys (getS3Locations u f) ->
                String.prefix (storageRoot u' f') k = false)
  /\ (forall k, k ∈ locationKeys (getS3Locations u' f') ->
                String.prefix (storageRoot u f) k = false).
Proof.
  intros Hu%validId_length Hf%validId_length Hu'%validId_length
         Hf'%validId_length Hne.
  split; [by intros a b a' b' [= -> ->]|].
  assert (Hne' : (u', f') <> (u, f)) by congruence.
  split; [|split].
  - intros k [r ->]%locationKeys_rooted [r' Hr']%locationKeys_rooted.
    destruct (storageRoot_app_inj 64 64 u f u' f' r r') as (-> & -> & _); done.
  - intros k [r ->]%locationKeys_rooted.
    by apply (rooted_keys_apart 64 64).
  - intros k [r ->]%locationKeys_rooted.
    by apply (rooted_keys_apart 64 64).
Qed.

Lemma getS3Locations_deterministic_injective_witness :
  (forall a b a' b', (a, b) = (a', b') -> getS3Locations a b = getS3Locations a' b')
  /\ (forall k, k ∈ locationKeys (getS3Locations Example.zeros64 Example.ones64) ->
                k ∉ locationKeys (getS3Locations Example.ones64 Example.zeros64))
  /\ (forall k, k ∈ locationKeys (getS3Locations Example.zeros64 Example.ones64) ->
                String.prefix (storageRoot Example.ones64 Example.zeros64) k = false)
  /\ (forall k, k ∈ locationKeys (getS3Locations Example.ones64 Example.zeros64) ->
                String.prefix (storageRoot Example.zeros64 Example.ones64) k = false).
Proof.
  apply (getS3Locations_deterministic_injective
           Example.zeros64 Example.ones64 Example.ones64 Example.zeros64);
    [reflexivity | reflexivity | reflexivity | reflexivity | discriminate].
Defined.

End KeyLayout.

(* ===================================================================== *)
(** * Reading and writing content *)
(* ===================================================================== *)

Section Content.

Context {RT : Runtime} {FM : FileUploadMode} {PP : ProjectPacker}.
Variable config : StorageConfig.
Hypothesis Henabled : enabled config = true.

(** The calls that a run added, read off the trace it left. *)
Lemma callsSince_app (w w' : World) (new : list Call) :
  calls w' = calls w ++ new -> callsSince w w' = new.
Proof. intros E. unfold callsSince. rewrite E. apply drop_app_length. Qed.

Lemma callsSince_same (w : World) : callsSince w w = [].
Proof. apply callsSince_app. by rewrite app_nil_r. Qed.

(** A [catch] block that throws a fixed message leaves two outcomes. *)
Lemma tryCatch_rethrow {A : Type} (m : M A) (e : string) (w : World) :
  (exists a, (tryCatch m (fun _ => throw e) w).1 = Returned a)
  \/ (tryCatch m (fun _ => throw e) w).1 = Thrown e.
Proof.
  unfold tryCatch, throw. destruct (m w) as [[a|e'] w']; eauto.
Qed.

Lemma getWorkItem_found (u f : string) (item : Item) (w : World) :
  Ddb.validKey u f = true ->
  items w !! (u, f) = Some item ->
  getWorkItem config u f w = (Returned item, record (DdbGetItem u f) w).
Proof.
  intros Hkey Hitem. unfold getWorkItem. rewrite Henabled; cbn [negb]; cbv zeta.
  unfold_monad. unfold Ddb.getItem. by rewrite Hkey, Hitem.
Qed.

Lemma getWorkItem_missing (u f : string) (w : World) :
  items w !! (u, f) = None ->
  getWorkItem config u f w
  = (Thrown "Failed to get work item", record (DdbGetItem u f) w).
Proof.
  intros Hitem. unfold getWorkItem. rewrite Henabled; cbn [negb]; cbv zeta.
  unfold_monad. unfold Ddb.getItem.
  destruct (Ddb.validKey u f); [by rewrite Hitem | done].
Qed.

Lemma getPackedContent_found (u f : string) (o : S3Object) (w : World) :
  objects w !! packedContent (getS3Locations u f) = Some o ->
  getPackedContent config u f w
  = (Returned (utf8Decode (Body o)),
     record (S3GetObject (packedContent (getS3Locations u f))) w).
Proof.
  intros Ho. unfold getPackedContent. rewrite Henabled; cbn [negb]; cbv zeta.
  unfold_monad. unfold S3.getObject. by rewrite Ho.
Qed.

Lemma getPackedContent_missing (u f : string) (w : World) :
  objects w !! packedContent (getS3Locations u f) = None ->
  getPackedContent config u f w
  = (Thrown "Failed to get packed content",
     record (S3GetObject (packedContent (getS3Locations u f))) w).
Proof.
  intros Ho. unfold getPackedContent. rewrite Henabled; cbn [negb]; cbv zeta.
  unfold_monad. unfold S3.getObject. by rewrite Ho.
Qed.

Lemma readOriginal_found (key : string) (forDownload : bool) (o : S3Object) (w : World) :
  objects w !! key = Some o ->
  readOriginal key forDownload w
  = (Returned (shapeOriginal forDownload o), record (S3GetObject key) w).
Proof.
  intros Ho. unfold readOriginal. unfold_monad. unfold S3.getObject.
  by rewrite Ho.
Qed.

Lemma isPackedMode_true (item : Item) :
  item !! "uploadMode" = Some (VStr MULTIPLE_FILES)
  \/ item !! "uploadMode" = Some (VStr ZIP_FILE) ->
  isPackedMode item = true.
Proof.
  unfold isPackedMode. intros [H|H]; rewrite H.
  - by rewrite bool_decide_eq_true_2.
  - rewrite (bool_decide_eq_true_2 (Some (VStr ZIP_FILE) = Some (VStr ZIP_FILE)))
      by done.
    apply orb_true_r.
Qed.

(** The download path: the work item is looked up, then the original
    object is returned as it is stored. *)
Lemma getOriginalContent_download (u f : string) (item : Item) (o : S3Object) (w : World) :
  Ddb.validKey u f = true ->
  items w !! (u, f) = Some item ->
  objects w !! originalContent (getS3Locations u f) = Some o ->
  (getOriginalContent config u f true w).1
  = Returned (CBuf (Body o), strOrElse (ContentType o) "application/octet-stream").
Proof.
  intros Hkey Hitem Ho. unfold getOriginalContent. rewrite Henabled; cbn [negb]; cbv zeta.
  unfold tryCatch at 1. unfold bind at 1.
  rewrite (getWorkItem_found u f item w Hkey Hitem).
  rewrite andb_false_r. unfold bind at 1. unfold ret at 1.
  by rewrite (readOriginal_found _ true o).
Qed.

(** The in-app path when the packed text is not served: the original
    object, shaped for viewing. *)
Lemma getOriginalContent_view_original (u f : string) (item : Item) (o : S3Object)
    (w : World) :
  Ddb.validKey u f = true ->
  items w !! (u, f) = Some item ->
  isPackedMode item = false
  \/ objects w !! packedContent (getS3Locations u f) = None ->
  objects w !! originalContent (getS3Locations u f) = Some o ->
  (getOriginalContent config u f false w).1 = Returned (shapeOriginal false o).
Proof.
  intros Hkey Hitem Hmode Ho. unfold getOriginalContent. rewrite Henabled; cbn [negb]; cbv zeta.
  unfold tryCatch at 1. unfold bind at 1.
  rewrite (getWorkItem_found u f item w Hkey Hitem).
  unfold bind at 1.
  destruct (isPackedMode item) eqn:Hpm; cbn [andb negb].
  - destruct Hmode as [|Hnone]; [done|].
    unfold tryCatch at 1. unfold bind at 1.
    rewrite getPackedContent_missing by done.
    unfold ret at 1. by rewrite (readOriginal_found _ false o).
  - unfold ret at 1. by rewrite (readOriginal_found _ false o).
Qed.

(** C2. For a work item in [MULTIPLE_FILES] or [ZIP_FILE] mode, the
    in-app read ([forDownload = false]) looks up the record and asks for
    the packed text.  When the packed-content key holds an object, its
    text is returned as [text/plain] and nothing else is read.  When it
    holds none, the failed fetch is followed by a fetch of the original
    content, which is what the caller gets: a data URI for an [image/]
    content type, the UTF-8 text otherwise, under the stored content type
    (or [application/octet-stream]); the error of the packed-content
    fetch is gone, and only a missing original makes the read fail, with
    ['Failed to get original content']. *)
Theorem getOriginalContent_packed_or_fallback (u f : string) (item : Item) (w : World) :
  Ddb.validKey u f = true ->
  items w !! (u, f) = Some item ->
  item !! "uploadMode" = Some (VStr MULTIPLE_FILES)
  \/ item !! "uploadMode" = Some (VStr ZIP_FILE) ->
  match objects w !! packedContent (getS3Locations u f) with
  | Some packed =>
      (getOriginalContent config u f false w).1
      = Returned (CStr (utf8Decode (Body packed)), "text/plain")
      /\ callsSince w (getOriginalContent config u f false w).2
         = [DdbGetItem u f; S3GetObject (packedContent (getS3Locations u f))]
  | None =>
      callsSince w (getOriginalContent config u f false w).2
      = [DdbGetItem u f;
         S3GetObject (packedContent (getS3Locations u f));
         S3GetObject (originalContent (getS3Locations u f))]
      /\ (getOriginalContent config u f false w).1
         = match objects w !! originalContent (getS3Locations u f) with
           | Some original =>
               let contentType :=
                 match ContentType original with
                 | Some "" | None => "application/octet-stream"
                 | Some type => type
                 end in
               Returned
                 (if Js.startsWith contentType "image/"
                  then CStr ("data:" +:+ contentType +:+ ";base64,"
                             +:+ base64Encode (Body original))
                  else CStr (utf8Decode (Body original)),
                  contentType)
           | None => Thrown "Failed to get original content"
           end
  end.
Proof.
  intros Hkey Hitem Hmode.
  assert (Hrun : getOriginalContent config u f false w
    = match objects w !! packedContent (getS3Locations u f) with
      | Some packed =>
          (Returned (CStr (utf8Decode (Body packed)), "text/plain"),
           record (S3GetObject (packedContent (getS3Locations u f)))
             (record (DdbGetItem u f) w))
      | None =>
          (match objects w !! originalContent (getS3Locations u f) with
           | Some original => Returned (shapeOriginal false original)
           | None => Thrown "Failed to get original content"
           end,
           record (S3GetObject (originalContent (getS3Locations u f)))
             (record (S3GetObject (packedContent (getS3Locations u f)))
                (record (DdbGetItem u f) w)))
      end).
  { unfold getOriginalContent. rewrite Henabled; cbn [negb]; cbv zeta.
    unfold tryCatch at 1. unfold bind at 1.
    rewrite (getWorkItem_found u f item w Hkey Hitem).
    rewrite (isPackedMode_true item Hmode); cbn [andb negb].
    unfold bind at 1. unfold tryCatch at 1. unfold bind at 1.
    destruct (objects w !! packedContent (getS3Locations u f)) as [packed|] eqn:Hpacked.
    - by rewrite (getPackedContent_found u f packed).
    - rewrite getPackedContent_missing by done.
      unfold ret at 1. unfold readOriginal, bind, S3.getObject, ret, throw.
      cbn [objects record].
      by destruct (objects w !! originalContent (getS3Locations u f)). }
  rewrite Hrun.
  destruct (objects w !! packedContent (getS3Locations u f)) as [packed|].
  - cbn [fst snd]. split; [done|].
    apply callsSince_app. cbn [calls record]. by rewrite <- app_assoc.
  - cbn [fst snd]. split.
    + apply callsSince_app. cbn [calls record]. by rewrite <- !app_assoc.
    + destruct (objects w !! originalContent (getS3Locations u f)) as [original|];
        [|done].
      unfold shapeOriginal, strOrElse.
      destruct (ContentType original) as [[|c type]|]; cbn [String.eqb]; try done.
      by destruct (Js.startsWith (String c type) "image/").
Qed.

(** C8. Given a work item and its stored original content: a download
    ([forDownload = true]) returns the raw bytes with the stored content
    type, whatever that type is; an in-app read ([forDownload = false])
    that is served from the original content returns a data URI
    [data:{contentType};base64,...] when the content type starts with
    [image/] and the bytes decoded as UTF-8 text otherwise. *)
Theorem getOriginalContent_image_uri_only_in_app (u f : string) (item : Item)
    (o : S3Object) (w : World) :
  Ddb.validKey u f = true ->
  items w !! (u, f) = Some item ->
  objects w !! originalContent (getS3Locations u f) = Some o ->
  let contentType := strOrElse (ContentType o) "application/octet-stream" in
  (getOriginalContent config u f true w).1 = Returned (CBuf (Body o), contentType)
  /\ (isPackedMode item = false
      \/ objects w !! packedContent (getS3Locations u f) = None ->
      (getOriginalContent config u f false w).1
      = Returned
          (if Js.startsWith contentType "image/"
           then CStr ("data:" +:+ contentType +:+ ";base64," +:+ base64Encode (Body o))
           else CStr (utf8Decode (Body o)),
           contentType)).
Proof.
  intros Hkey Hitem Ho contentType. split.
  - by apply (getOriginalContent_download u f item).
  - intros Hmode.
    rewrite (getOriginalContent_view_original u f item o w) by done.
    unfold shapeOriginal. fold contentType.
    by destruct (Js.startsWith contentType "image/").
Qed.

Lemma storeOriginalContent_run (u f : string) (content : Content) (fileType : string)
    (w : World) :
  storeOriginalContent config u f content fileType w
  = (Returned tt,
     setObjects
       (<[originalContent (getS3Locations u f) :=
            {| Body := match content with
                       | CBuf b => b
                       | CStr s =>
                           if Js.startsWith fileType "image/"
                           then base64Decode (base64Payload s)
                           else utf8Encode s
                       end;
               ContentType := Some fileType |}]> (objects w))
       (record (S3Upload (originalContent (getS3Locations u f))) w)).
Proof.
  unfold storeOriginalContent. rewrite Henabled; cbn [negb]; cbv zeta.
  unfold tryCatch, S3.upload.
  destruct content as [s|b]; [destruct (Js.startsWith fileType "image/")|]; done.
Qed.

Lemma strOrElse_nonempty (s dflt : string) : s <> "" -> strOrElse (Some s) dflt = s.
Proof.
  intros Hs. unfold strOrElse.
  destruct (String.eqb s "") eqn:E; [by apply String.eqb_eq in E | done].
Qed.

(** C7. For a pair that has a metadata record and a non-empty content
    type, storing the original content and reading it back for download
    returns the stored content type and the bytes that were uploaded: the
    buffer itself, the UTF-8 bytes of a string, and for a string stored
    under an [image/] content type the base64-decoded payload of the data
    URI. *)
Theorem storeThenDownload_uploaded_bytes (u f : string) (content : Content)
    (fileType : string) (item : Item) (w : World) :
  Ddb.validKey u f = true ->
  items w !! (u, f) = Some item ->
  fileType <> "" ->
  (storeThenDownload config u f content fileType w).1
  = Returned
      (CBuf match content with
            | CBuf b => b
            | CStr s =>
                if Js.startsWith fileType "image/"
                then base64Decode (base64Payload s)
                else utf8Encode s
            end,
       fileType).
Proof.
  intros Hkey Hitem Htype. unfold storeThenDownload. unfold bind at 1.
  rewrite storeOriginalContent_run.
  erewrite (getOriginalContent_download u f item);
    [|done|done|cbn [objects setObjects]; apply lookup_insert_eq].
  cbn [Body ContentType]. by rewrite strOrElse_nonempty.
Qed.

(** The errors that the validation of [getSupportingDocument] raises
    inside its [try] block. *)
Lemma getSupportingDocumentBody_unlinked (u f docId : string) (item : Item) (w : World) :
  Ddb.validKey u f = true ->
  items w !! (u, f) = Some item ->
  truthy (item !! "supportingDocumentId") = false
  \/ truthy (item !! "supportingDocumentAdded") = false ->
  getSupportingDocumentBody config u f docId w
  = (Thrown "No supporting document available for this work item",
     record (DdbGetItem u f) w).
Proof.
  intros Hkey Hitem Hlink. unfold getSupportingDocumentBody. unfold bind at 1.
  rewrite (getWorkItem_found u f item w Hkey Hitem).
  destruct Hlink as [-> | ->]; [done|].
  by rewrite orb_true_r.
Qed.

Lemma getSupportingDocumentBody_mismatch (u f docId : string) (item : Item) (w : World) :
  Ddb.validKey u f = true ->
  items w !! (u, f) = Some item ->
  truthy (item !! "supportingDocumentId") = true ->
  truthy (item !! "supportingDocumentAdded") = true ->
  item !! "supportingDocumentId" <> Some (VStr docId) ->
  getSupportingDocumentBody config u f docId w
  = (Thrown "Supporting document ID does not match the work item record",
     record (DdbGetItem u f) w).
Proof.
  intros Hkey Hitem H1 H2 Hne. unfold getSupportingDocumentBody. unfold bind at 1.
  rewrite (getWorkItem_found u f item w Hkey Hitem).
  rewrite H1, H2; cbn [negb orb].
  by rewrite bool_decide_eq_false_2.
Qed.

(** C9. When the work item has no linked supporting document, or the
    requested id is not the linked one, [getSupportingDocument] fails
    after the lookup of the work item alone, without any request to the
    object store; the error it throws is the one of the operation,
    ['Failed to get supporting document'], into which the [catch] block
    turns the validation error.  When the requested id is the linked one,
    the blob is fetched. *)
Theorem getSupportingDocument_validates_before_fetch (u f docId : string)
    (item : Item) (w : World) :
  Ddb.validKey u f = true ->
  items w !! (u, f) = Some item ->
  (truthy (item !! "supportingDocumentId") = false
   \/ truthy (item !! "supportingDocumentAdded") = false
   \/ item !! "supportingDocumentId" <> Some (VStr docId) ->
   getSupportingDocument config u f docId w
   = (Thrown "Failed to get supporting document", record (DdbGetItem u f) w))
  /\ (truthy (item !! "supportingDocumentId") = true ->
      truthy (item !! "supportingDocumentAdded") = true ->
      item !! "supportingDocumentId" = Some (VStr docId) ->
      calls (getSupportingDocument config u f docId w).2
      = calls w ++ [DdbGetItem u f; S3GetObject (supportingDocKey u f docId)]).
Proof.
  intros Hkey Hitem. split.
  - intros Hbad. unfold getSupportingDocument.
    rewrite Henabled; cbn [negb]. unfold tryCatch.
    destruct (truthy (item !! "supportingDocumentId")) eqn:H1;
      [destruct (truthy (item !! "supportingDocumentAdded")) eqn:H2|].
    + destruct Hbad as [|[|Hne]]; [done..|].
      by rewrite (getSupportingDocumentBody_mismatch u f docId item).
    + rewrite (getSupportingDocumentBody_unlinked u f docId item); auto.
    + rewrite (getSupportingDocumentBody_unlinked u f docId item); auto.
  - intros H1 H2 Heq. unfold getSupportingDocument.
    rewrite Henabled; cbn [negb]. unfold tryCatch, getSupportingDocumentBody.
    unfold bind at 1. rewrite (getWorkItem_found u f item w Hkey Hitem).
    rewrite H1, H2; cbn [negb orb].
    rewrite bool_decide_eq_true_2 by done; cbn [negb].
    unfold_monad. unfold S3.getObject. cbn [objects record].
    destruct (objects w !! supportingDocKey u f docId);
      cbn [calls record snd]; by rewrite <- app_assoc.
Qed.

End Content.

(* ===================================================================== *)
(** * Update expressions *)
(* ===================================================================== *)

Section UpdateExpression.

Lemma app_nil_r_s (a : string) : a +:+ "" = a.
Proof. induction a as [|x a IH]; [done|]. by rewrite app_cons_s, IH. Qed.

Lemma length_app_s (a b : string) :
  String.length (a +:+ b) = (String.length a + String.length b)%nat.
Proof.
  induction a as [|x a IH]; [done|]. rewrite app_cons_s. simpl. by rewrite IH.
Qed.

Lemma stripPrefix_app (p r : string) : Ddb.stripPrefix p (p +:+ r) = Some r.
Proof.
  unfold Ddb.stripPrefix.
  assert (Hp : String.prefix p (p +:+ r) = true) by (apply prefix_app; eauto).
  rewrite Hp. f_equal. clear Hp.
  induction p as [|x p IH]; [done|]. by rewrite app_cons_s.
Qed.

Lemma spanIdent_app (k r : string) :
  allChars Ddb.isIdentChar k = true -> stops r ->
  Ddb.spanIdent (k +:+ r) = (k, r).
Proof.
  intros Hk Hr. induction k as [|x k IH].
  - rewrite app_nil_s. destruct r as [|c r]; [done|].
    simpl in *. by rewrite Hr.
  - simpl in Hk. apply andb_prop in Hk as [Hx Hk].
    rewrite app_cons_s. simpl. by rewrite Hx, (IH Hk).
Qed.

Lemma isFieldName_ident (k : string) :
  isFieldName k = true ->
  Ddb.isEmpty k = false /\ allChars Ddb.isIdentChar k = true
  /\ Ddb.isKeyAttribute k = false.
Proof.
  unfold isFieldName.
  intros [[H1 H2]%andb_prop H3]%andb_prop.
  by apply negb_true_iff in H1, H3.
Qed.

Lemma join_cons2 (sep x y : string) (l : list string) :
  Js.join sep (x :: y :: l) = x +:+ sep +:+ Js.join sep (y :: l).
Proof. reflexivity. Qed.

Lemma parseActions_render (keys : list string) (fuel : nat) :
  keys <> [] ->
  Forall (fun k => isFieldName k = true) keys ->
  (length keys <= fuel)%nat ->
  Ddb.parseActions fuel (Js.join ", " (setClause <$> keys))
  = Some ((fun k => ("#" +:+ k, ":" +:+ k)) <$> keys).
Proof.
  revert fuel. induction keys as [|k keys IH]; intros fuel Hne Hall Hfuel; [done|].
  apply Forall_cons in Hall as [Hk Hall].
  apply isFieldName_ident in Hk as (Hnonempty & Hident & _).
  destruct fuel as [|fuel]; [simpl in Hfuel; lia|].
  destruct keys as [|k2 keys].
  - cbn [fmap list_fmap Js.join]. unfold setClause.
    rewrite app_cons_s, app_nil_s. cbn [Ddb.parseActions].
    rewrite (spanIdent_app k (" = :" +:+ k)) by done.
    rewrite Hnonempty, stripPrefix_app.
    rewrite <- (app_nil_r_s k) at 1.
    rewrite (spanIdent_app k "") by done.
    by rewrite Hnonempty.
  - rewrite !fmap_cons, join_cons2. unfold setClause at 1.
    rewrite !app_assoc_s, app_cons_s, app_nil_s. cbn [Ddb.parseActions].
    rewrite (spanIdent_app k) by done.
    rewrite Hnonempty, stripPrefix_app.
    rewrite (spanIdent_app k (", " +:+ _)) by done.
    rewrite Hnonempty. rewrite (app_cons_s "," " ") at 1.
    cbn [Ddb.isEmpty]. rewrite stripPrefix_app.
    rewrite <- fmap_cons, IH; [done|done|done|].
    simpl in *; lia.
Qed.

Lemma join_length (keys : list string) :
  (length keys <= String.length (Js.join ", " (setClause <$> keys)))%nat.
Proof.
  induction keys as [|k keys IH]; [done|].
  destruct keys as [|k2 keys].
  - cbn [fmap list_fmap Js.join]. unfold setClause.
    rewrite app_cons_s. simpl. lia.
  - rewrite !fmap_cons, join_cons2. rewrite <- fmap_cons.
    unfold setClause at 1. rewrite app_cons_s. simpl String.length.
    rewrite !length_app_s. simpl in *. lia.
Qed.

Lemma parseUpdateExpression_render (keys : list string) :
  keys <> [] ->
  Forall (fun k => isFieldName k = true) keys ->
  Ddb.parseUpdateExpression ("SET " +:+ Js.join ", " (setClause <$> keys))
  = Some ((fun k => ("#" +:+ k, ":" +:+ k)) <$> keys).
Proof.
  intros Hne Hall. unfold Ddb.parseUpdateExpression.
  rewrite stripPrefix_app. apply parseActions_render; auto using join_length.
Qed.

(** An expression without any action is rejected. *)
Lemma parseUpdateExpression_empty :
  Ddb.parseUpdateExpression ("SET " +:+ Js.join ", " []) = None.
Proof. reflexivity. Qed.

End UpdateExpression.

(* ===================================================================== *)
(** * Partial updates *)
(* ===================================================================== *)

Section FoldInsert.

Context {V : Type} (g : string -> string) (h : string * JsVal -> V).
Context {Hinj : Inj (=) (=) g}.

Lemma foldl_insert_other (D : list (string * JsVal)) (m : gmap string V) (key : string) :
  (forall a, a ∈ D -> g a.1 <> key) ->
  foldl (fun m a => <[g a.1 := h a]> m) m D !! key = m !! key.
Proof.
  revert m. induction D as [|a D IH]; intros m Hnot; [done|].
  cbn [foldl]. rewrite IH.
  - apply lookup_insert_ne. apply Hnot. by left.
  - intros b Hb. apply Hnot. by right.
Qed.

Lemma foldl_insert_at (D : list (string * JsVal)) (m : gmap string V) (a : string * JsVal) :
  NoDup D.*1 -> a ∈ D ->
  foldl (fun m a => <[g a.1 := h a]> m) m D !! g a.1 = Some (h a).
Proof.
  revert m. induction D as [|b D IH]; intros m Hnd Hin.
  - by apply elem_of_nil in Hin.
  - rewrite fmap_cons in Hnd. apply NoDup_cons in Hnd as [Hfresh Hnd].
    cbn [foldl]. apply elem_of_cons in Hin as [->|Hin].
    + rewrite foldl_insert_other.
      * apply lookup_insert_eq.
      * intros c Hc Heq. apply Hinj in Heq. apply Hfresh.
        rewrite <- Heq. apply list_elem_of_fmap. by exists c.
    + by apply IH.
Qed.

Lemma foldl_insert_Forall (P : V -> Prop) (D : list (string * JsVal)) (m : gmap string V) :
  map_Forall (fun _ x => P x) m ->
  Forall (fun a => P (h a)) D ->
  map_Forall (fun _ x => P x) (foldl (fun m a => <[g a.1 := h a]> m) m D).
Proof.
  intros Hm HD. revert m Hm. induction HD as [|a D Ha _ IH]; intros m Hm; [done|].
  cbn [foldl]. apply IH. by apply map_Forall_insert_2.
Qed.

End FoldInsert.

Section Update.

Context {RT : Runtime} {FM : FileUploadMode} {PP : ProjectPacker}.
Variable config : StorageConfig.
Hypothesis Henabled : enabled config = true.

Lemma elem_of_definedFields (updates : list (string * option JsVal)) (k : string) (v : JsVal) :
  (k, v) ∈ definedFields updates <-> (k, Some v) ∈ updates.
Proof.
  unfold definedFields. rewrite list_elem_of_omap. split.
  - intros ([k' [v'|]] & Hin & Heq); simplify_eq/=. done.
  - intros Hin. exists (k, Some v). done.
Qed.

Lemma definedFields_sublist (updates : list (string * option JsVal)) :
  (definedFields updates).*1 `sublist_of` updates.*1.
Proof.
  induction updates as [|[k [v|]] updates IH]; cbn.
  - done.
  - by apply sublist_skip.
  - by apply sublist_cons.
Qed.

(** The three accumulators after the loop over the entries. *)
Lemma foldl_updateStep (updates : list (string * option JsVal))
    (e : list string) (n : gmap string string) (v : gmap string JsVal) :
  foldl updateStep (e, n, v) updates
  = (e ++ (setClause <$> (definedFields updates).*1),
     foldl (fun m a => <["#" +:+ a.1 := a.1]> m) n (definedFields updates),
     foldl (fun m a => <[":" +:+ a.1 := a.2]> m) v (definedFields updates)).
Proof.
  revert e n v. induction updates as [|[k [x|]] updates IH]; intros e n v.
  - cbn. by rewrite app_nil_r.
  - cbn [foldl updateStep]. rewrite IH. cbn. by rewrite <- app_assoc.
  - cbn [foldl updateStep]. by rewrite IH.
Qed.

Lemma resolve_all (names : gmap string string) (values : gmap string JsVal)
    (D : list (string * JsVal)) :
  (forall a, a ∈ D -> names !! ("#" +:+ a.1) = Some a.1
                      /\ values !! (":" +:+ a.1) = Some a.2) ->
  mapM (Ddb.resolve names values) ((fun k => ("#" +:+ k, ":" +:+ k)) <$> D.*1)
  = Some D.
Proof.
  intros Hall. apply mapM_Some. induction D as [|[k v] D IH]; [constructor|].
  cbn. constructor.
  - destruct (Hall (k, v)) as [Hn Hv]; [by left|].
    unfold Ddb.resolve. cbn in *. by rewrite Hn, Hv.
  - apply IH. intros a Ha. apply Hall. by right.
Qed.

Lemma existsb_isKeyAttribute (keys : list string) :
  Forall (fun k => isFieldName k = true) keys ->
  existsb Ddb.isKeyAttribute keys = false.
Proof.
  induction 1 as [|k keys Hk _ IH]; [done|].
  apply isFieldName_ident in Hk as (_ & _ & Hk). cbn. by rewrite Hk, IH.
Qed.

Lemma marshall_accepts (data : gmap string JsVal) :
  map_Forall (fun _ v => marshallable v = true) data -> marshall data = Returned data.
Proof.
  intros Hall. unfold marshall.
  assert (Hvals : forallb marshallable (map_to_list data).*2 = true).
  { apply forallb_forall. intros v Hin%list_elem_of_In.
    apply list_elem_of_fmap in Hin as [[k v'] [-> Hin%elem_of_map_to_list]].
    by apply (Hall k). }
  by rewrite Hvals.
Qed.

Lemma marshall_rejects (data : gmap string JsVal) (k : string) (n : Z) :
  data !! k = Some (VNum n) -> isSafeInteger n = false ->
  exists e, marshall data = Thrown e.
Proof.
  intros Hk Hn. unfold marshall.
  destruct (forallb marshallable (map_to_list data).*2) eqn:E; [|eauto].
  rewrite forallb_forall in E. specialize (E (VNum n)). cbn in E.
  rewrite E in Hn; [done|].
  apply list_elem_of_In, list_elem_of_fmap. exists (k, VNum n).
  split; [done|]. by apply elem_of_map_to_list.
Qed.

Lemma safe_numbers_marshallable (updates : list (string * option JsVal)) :
  (forall k n, (k, Some (VNum n)) ∈ updates -> isSafeInteger n = true) ->
  Forall (fun a => marshallable a.2 = true) (definedFields updates).
Proof.
  intros Hsafe. apply Forall_forall. intros [k v] Hin%elem_of_definedFields.
  destruct v as [s|n|b|]; cbn; eauto.
Qed.

(** A request that carries at least one field, all of them fields of the
    interface and all numbers safe integers, is accepted, and its
    assignments are the defined entries. *)
Lemma updateWorkItem_run (u f : string) (updates : list (string * option JsVal))
    (w : World) :
  Ddb.validKey u f = true ->
  NoDup updates.*1 ->
  Forall (fun k => isFieldName k = true) (definedFields updates).*1 ->
  Forall (fun a => marshallable a.2 = true) (definedFields updates) ->
  definedFields updates <> [] ->
  let D := definedFields updates in
  let new := Ddb.applyAssignments D (default (Ddb.keyItem u f) (items w !! (u, f))) in
  let expr := "SET " +:+ Js.join ", " (setClause <$> D.*1) in
  let names := foldl (fun m a => <["#" +:+ a.1 := a.1]> m) ∅ D in
  let values := foldl (fun m a => <[":" +:+ a.1 := a.2]> m) ∅ D in
  updateWorkItem config u f updates w
  = (Returned new,
     setItems (<[(u, f) := new]> (items w))
              (record (DdbUpdateItem u f expr names values) w)).
Proof.
  intros Hkey Hnd Hfields Hsafe Hne D new expr names values.
  assert (HndD : NoDup D.*1)
    by (apply (sublist_NoDup _ updates.*1); [done | apply definedFields_sublist]).
  unfold updateWorkItem. rewrite Henabled; cbn [negb].
  rewrite foldl_updateStep, app_nil_l. fold D expr names values.
  assert (Hmarshall : marshall values = Returned values).
  { apply marshall_accepts.
    apply (foldl_insert_Forall (fun k => ":" +:+ k) (fun a => a.2)
             (fun v => marshallable v = true)); [|done].
    apply map_Forall_empty. }
  unfold_monad. rewrite Hmarshall. unfold Ddb.updateItem. rewrite Hkey.
  assert (Hasg : Ddb.assignments expr names values = Some D).
  { unfold Ddb.assignments, expr.
    rewrite parseUpdateExpression_render;
      [|by intros E%fmap_nil_inv | done].
    rewrite resolve_all.
    - rewrite existsb_isKeyAttribute by done.
      by rewrite bool_decide_eq_true_2.
    - intros a Ha. split.
      + apply (foldl_insert_at (fun k => "#" +:+ k) (fun a => a.1)); done.
      + apply (foldl_insert_at (fun k => ":" +:+ k) (fun a => a.2)); done. }
  by rewrite Hasg.
Qed.

Lemma applyAssignments_written (D : list (string * JsVal)) (old : Item) (k : string) (v : JsVal) :
  NoDup D.*1 -> (k, v) ∈ D -> Ddb.applyAssignments D old !! k = Some v.
Proof.
  intros Hnd Hin.
  apply (foldl_insert_at (fun k => k) (fun a => a.2) D old (k, v)); done.
Qed.

Lemma applyAssignments_frame (D : list (string * JsVal)) (old : Item) (k : string) :
  k ∉ D.*1 -> Ddb.applyAssignments D old !! k = old !! k.
Proof.
  intros Hnot.
  apply (foldl_insert_other (fun k => k) (fun a => a.2)).
  intros a Ha Heq. apply Hnot. rewrite <- Heq.
  apply list_elem_of_fmap. by exists a.
Qed.

(** C4. For an existing work item and a partial update that carries at
    least one field that is not [undefined], all its fields being fields
    of the interface and all its numbers safe integers (within
    [2^53 - 1] in absolute value, as [marshall] demands):
    [updateWorkItem] sends one update whose expression
    names every written field through a [#] placeholder bound in
    [ExpressionAttributeNames]; the stored record gets exactly the fields
    that are not [undefined], every other attribute keeps its value, no
    other record and no object changes, and the record after the update
    is returned. *)
Theorem updateWorkItem_writes_defined_fields (u f : string)
    (updates : list (string * option JsVal)) (old : Item) (w : World) :
  Ddb.validKey u f = true ->
  items w !! (u, f) = Some old ->
  NoDup updates.*1 ->
  (forall k v, (k, Some v) ∈ updates -> isFieldName k = true) ->
  (forall k n, (k, Some (VNum n)) ∈ updates -> isSafeInteger n = true) ->
  (exists k v, (k, Some v) ∈ updates) ->
  exists new expr names values,
    (updateWorkItem config u f updates w).1 = Returned new
    /\ items (updateWorkItem config u f updates w).2 = <[(u, f) := new]> (items w)
    /\ objects (updateWorkItem config u f updates w).2 = objects w
    /\ (forall k v, (k, Some v) ∈ updates -> new !! k = Some v)
    /\ (forall k, (forall v, (k, Some v) ∉ updates) -> new !! k = old !! k)
    /\ calls (updateWorkItem config u f updates w).2
       = calls w ++ [DdbUpdateItem u f expr names values]
    /\ expr = "SET " +:+ Js.join ", " (setClause <$> (definedFields updates).*1)
    /\ (forall k v, (k, Some v) ∈ updates ->
          names !! ("#" +:+ k) = Some k /\ values !! (":" +:+ k) = Some v).
Proof.
  intros Hkey Hold Hnd Hfields Hsafe%safe_numbers_marshallable [k0 [v0 Hsome]].
  assert (HndD : NoDup (definedFields updates).*1)
    by (apply (sublist_NoDup _ updates.*1); [done | apply definedFields_sublist]).
  assert (HF : Forall (fun k => isFieldName k = true) (definedFields updates).*1).
  { apply Forall_forall. intros k [[k' v] [-> Hin]]%list_elem_of_fmap.
    apply elem_of_definedFields in Hin. eauto. }
  assert (Hne : definedFields updates <> []).
  { intros E. apply elem_of_definedFields in Hsome.
    rewrite E in Hsome. by apply elem_of_nil in Hsome. }
  rewrite (updateWorkItem_run u f updates w Hkey Hnd HF Hsafe Hne).
  rewrite Hold. cbn [default fst snd setItems record items objects calls].
  do 4 eexists. repeat split; try reflexivity.
  - intros k v Hin%elem_of_definedFields.
    by apply applyAssignments_written.
  - intros k Hnot. apply applyAssignments_frame.
    intros [[k' v] [-> Hin]]%list_elem_of_fmap.
    apply elem_of_definedFields in Hin. by apply (Hnot v).
  - apply elem_of_definedFields in H.
    apply (foldl_insert_at (fun k => "#" +:+ k) (fun a => a.1) _ _ (k, v)); done.
  - apply elem_of_definedFields in H.
    apply (foldl_insert_at (fun k => ":" +:+ k) (fun a => a.2) _ _ (k, v)); done.
Qed.

(** C10. For a pair without a metadata record and a partial update that
    carries at least one field that is not [undefined] (all its fields
    being fields of the interface, all its numbers safe integers),
    [updateWorkItem] does not fail: the update creates a record that holds
    the two key attributes and the supplied fields that are not
    [undefined], nothing else, and this record is what [updateWorkItem]
    returns. *)
Theorem updateWorkItem_upserts_missing_record (u f : string)
    (updates : list (string * option JsVal)) (w : World) :
  Ddb.validKey u f = true ->
  items w !! (u, f) = None ->
  NoDup updates.*1 ->
  (forall k v, (k, Some v) ∈ updates -> isFieldName k = true) ->
  (forall k n, (k, Some (VNum n)) ∈ updates -> isSafeInteger n = true) ->
  (exists k v, (k, Some v) ∈ updates) ->
  exists new,
    (updateWorkItem config u f updates w).1 = Returned new
    /\ items (updateWorkItem config u f updates w).2 !! (u, f) = Some new
    /\ new !! "userId" = Some (VStr u)
    /\ new !! "fileId" = Some (VStr f)
    /\ (forall k v, (k, Some v) ∈ updates -> new !! k = Some v)
    /\ (forall k, k <> "userId" -> k <> "fileId" ->
          (forall v, (k, Some v) ∉ updates) -> new !! k = None).
Proof.
  intros Hkey Hnone Hnd Hfields Hsafe%safe_numbers_marshallable [k0 [v0 Hsome]].
  assert (HndD : NoDup (definedFields updates).*1)
    by (apply (sublist_NoDup _ updates.*1); [done | apply definedFields_sublist]).
  assert (HF : Forall (fun k => isFieldName k = true) (definedFields updates).*1).
  { apply Forall_forall. intros k [[k' v] [-> Hin]]%list_elem_of_fmap.
    apply elem_of_definedFields in Hin. eauto. }
  assert (Hne : definedFields updates <> []).
  { intros E. apply elem_of_definedFields in Hsome.
    rewrite E in Hsome. by apply elem_of_nil in Hsome. }
  assert (Hframe : forall k, (forall v, (k, Some v) ∉ updates) ->
            Ddb.applyAssignments (definedFields updates) (Ddb.keyItem u f) !! k
            = Ddb.keyItem u f !! k).
  { intros k Hnot. apply applyAssignments_frame.
    intros [[k' v] [-> Hin]]%list_elem_of_fmap.
    apply elem_of_definedFields in Hin. by apply (Hnot v). }
  assert (Hkeyattr : forall k, Ddb.isKeyAttribute k = true ->
            forall v, (k, Some v) ∉ updates).
  { intros k Hk v Hin. apply Hfields in Hin.
    apply isFieldName_ident in Hin as (_ & _ & Hin). congruence. }
  rewrite (updateWorkItem_run u f updates w Hkey Hnd HF Hsafe Hne).
  rewrite Hnone. cbn [default fst snd setItems record items].
  eexists. split; [reflexivity|]. split; [apply lookup_insert_eq|].
  split; [|split; [|split]].
  - rewrite Hframe by (by apply Hkeyattr). apply lookup_insert_eq.
  - rewrite Hframe by (by apply Hkeyattr). unfold Ddb.keyItem.
    rewrite lookup_insert_ne by done. apply lookup_insert_eq.
  - intros k v Hin%elem_of_definedFields.
    by apply applyAssignments_written.
  - intros k Hu Hf Hnot. rewrite Hframe by done. unfold Ddb.keyItem.
    by rewrite !lookup_insert_ne, lookup_empty.
Qed.

End Update.

(* ===================================================================== *)
(** * Cascading deletion *)
(* ===================================================================== *)

Section Delete.

Context {RT : Runtime} {FM : FileUploadMode} {PP : ProjectPacker}.
Variable config : StorageConfig.
Hypothesis Henabled : enabled config = true.

Lemma elem_of_keysUnder (prefix k : string) (o : gmap string S3Object) :
  k ∈ S3.keysUnder prefix o <-> String.prefix prefix k = true /\ is_Some (o !! k).
Proof.
  unfold S3.keysUnder. rewrite merge_sort_Permutation, list_elem_of_filter.
  rewrite Is_true_true, list_elem_of_fmap. split.
  - intros [Hp [[k' x] [-> Hin%elem_of_map_to_list]]]. eauto.
  - intros [Hp [x Hx]]. split; [done|]. exists (k, x).
    split; [done|]. by apply elem_of_map_to_list.
Qed.

Lemma keysUnder_after_delete (prefix : string) (o : gmap string S3Object) :
  S3.keysUnder prefix (foldr delete o (S3.keysUnder prefix o)) = [].
Proof.
  apply elem_of_nil_inv. intros k [Hp [x Hx]]%elem_of_keysUnder.
  apply lookup_foldr_delete_Some in Hx as [Hnot Hx].
  apply Hnot, elem_of_keysUnder. eauto.
Qed.

Lemma keysUnder_nil_take (prefix : string) (o : gmap string S3Object) :
  S3.keysUnder prefix o = [] -> take S3.MaxKeys (S3.keysUnder prefix o) = [].
Proof. by intros ->. Qed.

(** One run of [deleteWorkItem]: the listing, the bulk deletion unless the
    listing is empty, the deletion of the record. *)
Lemma deleteWorkItem_run (u f : string) (w : World) :
  Ddb.validKey u f = true ->
  let root := storageRoot u f in
  let listed := take S3.MaxKeys (S3.keysUnder root (objects w)) in
  deleteWorkItem config u f w
  = (Returned tt,
     {| objects := foldr delete (objects w) listed;
        items := delete (u, f) (items w);
        clock := clock w;
        calls := calls w ++ [S3ListObjectsV2 root]
                 ++ match listed with
                    | [] => []
                    | _ => [S3DeleteObjects listed]
                    end
                 ++ [DdbDeleteItem u f] |}).
Proof.
  intros Hkey root listed. unfold deleteWorkItem.
  rewrite Henabled; cbn [negb]. unfold_monad.
  unfold S3.listObjectsV2. fold root. cbn [objects record]. fold listed.
  clearbody listed. destruct listed as [|k rest].
  - cbn [length Nat.ltb Nat.leb]. unfold Ddb.deleteItem. rewrite Hkey.
    unfold setItems, record; cbn. by rewrite <- app_assoc.
  - cbn [length Nat.ltb Nat.leb]. unfold S3.deleteObjects, Ddb.deleteItem.
    rewrite Hkey.
    unfold setItems, setObjects, record; cbn. by rewrite <- !app_assoc.
Qed.

(** C5. [deleteWorkItem] lists the keys under the storage root of the
    item, deletes the listed keys in one bulk request, and only then
    deletes the metadata record.  A second [deleteWorkItem] on the same
    pair succeeds as well; when the first listing was complete, the second
    run finds nothing under the root, sends no bulk deletion and leaves
    both stores as they are. *)
Theorem deleteWorkItem_ordered_and_repeatable (u f : string) (w : World) :
  Ddb.validKey u f = true ->
  let root := storageRoot u f in
  let listed := take S3.MaxKeys (S3.keysUnder root (objects w)) in
  let first := deleteWorkItem config u f w in
  let second := deleteWorkItem config u f first.2 in
  first.1 = Returned tt
  /\ calls first.2
     = calls w ++ [S3ListObjectsV2 root]
       ++ match listed with
          | [] => []
          | _ => [S3DeleteObjects listed]
          end
       ++ [DdbDeleteItem u f]
  /\ (forall k, k ∈ listed -> objects first.2 !! k = None)
  /\ items first.2 !! (u, f) = None
  /\ second.1 = Returned tt
  /\ items second.2 = items first.2
  /\ ((length (S3.keysUnder root (objects w)) <= S3.MaxKeys)%nat ->
      (forall k, String.prefix root k = true -> objects first.2 !! k = None)
      /\ calls second.2 = calls first.2 ++ [S3ListObjectsV2 root; DdbDeleteItem u f]
      /\ objects second.2 = objects first.2).
Proof.
  intros Hkey root listed first second. subst second first.
  rewrite (deleteWorkItem_run u f w Hkey). fold root listed.
  cbn [fst snd]. rewrite (deleteWorkItem_run u f _ Hkey). fold root.
  cbn [fst snd objects items calls].
  split; [done|]. split; [done|].
  split; [intros k Hk; by apply lookup_foldr_delete|].
  split; [apply lookup_delete_eq|]. split; [done|].
  split.
  { apply map_eq. intros i. rewrite !lookup_delete.
    by repeat case_decide. }
  intros Hall.
  assert (Hlisted : listed = S3.keysUnder root (objects w))
    by (by apply take_ge).
  assert (Hgone : S3.keysUnder root (foldr delete (objects w) listed) = [])
    by (rewrite Hlisted; apply keysUnder_after_delete).
  split; [|split].
  - intros k Hp.
    destruct (foldr delete (objects w) listed !! k) as [x|] eqn:Hx; [|done].
    assert (Hin : k ∈ S3.keysUnder root (foldr delete (objects w) listed))
      by (apply elem_of_keysUnder; eauto).
    rewrite Hgone in Hin. by apply elem_of_nil in Hin.
  - rewrite Hgone. cbn [take]. by rewrite <- !app_assoc.
  - by rewrite Hgone.
Qed.

End Delete.

(* ===================================================================== *)
(** * Archive and multi-file uploads *)
(* ===================================================================== *)

Section Uploads.

Context {RT : Runtime} {FM : FileUploadMode} {PP : ProjectPacker}.
Variable config : StorageConfig.

Lemma uploadedWorkItem_keys (u fid name type ts mode : string) (p : PackedProject.t) :
  uploadedWorkItem u fid name type ts mode p !! "userId" = Some (VStr u)
  /\ uploadedWorkItem u fid name type ts mode p !! "fileId" = Some (VStr fid).
Proof. split; vm_compute; reflexivity. Qed.

Lemma uploadedWorkItem_tokens (u fid name type ts mode : string) (p : PackedProject.t) :
  uploadedWorkItem u fid name type ts mode p !! "tokenCount"
  = Some (VNum (PackedProject.tokenCount p))
  /\ uploadedWorkItem u fid name type ts mode p !! "exceedsTokenLimit"
     = Some (VBool (PackedProject.exceedsTokenLimit p)).
Proof. split; vm_compute; reflexivity. Qed.

Lemma storeWorkItemInDynamoDB_uploaded (u fid name type ts mode : string)
    (p : PackedProject.t) (w : World) :
  let item := uploadedWorkItem u fid name type ts mode p in
  storeWorkItemInDynamoDB item w
  = if Ddb.validKey u fid
    then (Returned tt,
          setItems (<[(u, fid) := item]> (items w)) (record (DdbPutItem item) w))
    else (Thrown "Failed to store work item metadata", record (DdbPutItem item) w).
Proof.
  intros item. unfold storeWorkItemInDynamoDB, tryCatch, Ddb.putItem.
  destruct (uploadedWorkItem_keys u fid name type ts mode p) as [Hu Hf].
  fold item in Hu, Hf. rewrite Hu, Hf.
  by destruct (Ddb.validKey u fid).
Qed.

(** The two content writes that follow the metadata write. *)
Lemma store_contents_run (u fid : string) (bytes : list byte) (text : string)
    (A : Type) (a : A) (w : World) :
  (storeOriginalContent config u fid (CBuf bytes) "application/zip" ;;;
   storePackedContent config u fid text ;;;
   ret a) w
  = if enabled config
    then (Returned a,
          (S3.upload (packedContent (getS3Locations u fid)) (utf8Encode text)
             (Some "text/plain")
             (S3.upload (originalContent (getS3Locations u fid)) bytes
                (Some "application/zip") w).2).2)
    else (Thrown notEnabled, w).
Proof.
  unfold storeOriginalContent, storePackedContent.
  destruct (enabled config); cbn [negb]; [|done].
  cbv zeta. unfold_monad. by unfold S3.upload.
Qed.

(** [handleZipFile] once the packer has returned. *)
Lemma handleZipFile_run (userId name : string) (bytes : list byte)
    (p : PackedProject.t) (w : World) :
  processZipFile bytes name = Returned p ->
  let fileId := createFileIdHash (name +:+ numberToString (clock w)) in
  let item :=
    uploadedWorkItem userId fileId name "application/zip"
                     (toISOString (clock w)) ZIP_FILE p in
  let w1 := setItems (<[(userId, fileId) := item]> (items w))
                     (record (DdbPutItem item) w) in
  handleZipFile config userId name bytes w
  = if Ddb.validKey userId fileId then
      if enabled config then
        (Returned (fileId, PackedProject.tokenCount p, PackedProject.exceedsTokenLimit p),
         (S3.upload (packedContent (getS3Locations userId fileId))
            (utf8Encode (PackedProject.packedContent p)) (Some "text/plain")
            (S3.upload (originalContent (getS3Locations userId fileId)) bytes
               (Some "application/zip") w1).2).2)
      else (Thrown ("Failed to process zip file: " +:+ notEnabled), w1)
    else (Thrown "Failed to process zip file: Failed to store work item metadata",
          record (DdbPutItem item) w).
Proof.
  intros Hp fileId item w1. unfold handleZipFile.
  unfold tryCatch at 1. unfold bind at 1. unfold liftOutcome. rewrite Hp.
  unfold bind at 1. unfold Date_now at 1. unfold bind at 1. unfold Date_now at 1.
  fold fileId. unfold bind at 1.
  rewrite (storeWorkItemInDynamoDB_uploaded userId fileId). cbv zeta. fold item.
  destruct (Ddb.validKey userId fileId); [|done].
  fold w1. rewrite store_contents_run.
  by destruct (enabled config).
Qed.

Lemma handleZipFile_packer_fails (userId name : string) (bytes : list byte)
    (e : string) (w : World) :
  processZipFile bytes name = Thrown e ->
  handleZipFile config userId name bytes w
  = (Thrown ("Failed to process zip file: " +:+ e), w).
Proof.
  intros Hp. unfold handleZipFile. unfold_monad. by rewrite Hp.
Qed.

(** [handleMultipleFiles] once both packer calls have returned. *)
Lemma handleMultipleFiles_run (userId : string) (first : UploadedFile)
    (others : list UploadedFile) (zip : list byte) (p : PackedProject.t) (w : World) :
  let files := first :: others in
  createZipFromFiles files = Returned zip ->
  processMultipleFiles files = Returned p ->
  let fileId := createFileIdHash (filename first +:+ numberToString (clock w)) in
  let item :=
    uploadedWorkItem userId fileId (combinedFilename first files)
                     "application/multiple-files"
                     (toISOString (clock w)) MULTIPLE_FILES p in
  let w1 := setItems (<[(userId, fileId) := item]> (items w))
                     (record (DdbPutItem item) w) in
  handleMultipleFiles config userId files w
  = if Ddb.validKey userId fileId then
      if enabled config then
        (Returned (fileId, PackedProject.tokenCount p, PackedProject.exceedsTokenLimit p),
         (S3.upload (packedContent (getS3Locations userId fileId))
            (utf8Encode (PackedProject.packedContent p)) (Some "text/plain")
            (S3.upload (originalContent (getS3Locations userId fileId)) zip
               (Some "application/zip") w1).2).2)
      else (Thrown ("Failed to process multiple files: " +:+ notEnabled), w1)
    else (Thrown "Failed to process multiple files: Failed to store work item metadata",
          record (DdbPutItem item) w).
Proof.
  intros files Hz Hp fileId item w1. unfold handleMultipleFiles.
  unfold tryCatch at 1. unfold bind at 1. unfold liftOutcome at 1. rewrite Hz.
  unfold bind at 1. unfold liftOutcome at 1. rewrite Hp.
  subst files. cbv iota.
  unfold bind at 1. unfold Date_now at 1. unfold bind at 1. unfold Date_now at 1.
  fold fileId. unfold bind at 1.
  rewrite (storeWorkItemInDynamoDB_uploaded userId fileId). cbv zeta. fold item.
  destruct (Ddb.validKey userId fileId); [|done].
  fold w1. rewrite store_contents_run.
  by destruct (enabled config).
Qed.

End Uploads.

(* ===================================================================== *)
(** * Token fields of uploaded work items *)
(* ===================================================================== *)

Section TokenLimit.

Context {RT : Runtime} {FM : FileUploadMode} {PK : PackerParts}.
Variable config : StorageConfig.

Lemma packEntries_measured (entries : list (string * list byte)) (p : PackedProject.t) :
  packEntries entries = Returned p ->
  PackedProject.exceedsTokenLimit p = (PackedProject.tokenCount p >? configuredLimit).
Proof.
  unfold packEntries. destruct entries; [done|].
  destruct (existsb _ _); [done|]. by intros [= <-].
Qed.

Lemma specPacker_zip_measured (bytes : list byte) (name : string) (p : PackedProject.t) :
  processZipFile (ProjectPacker := specPacker) bytes name = Returned p ->
  PackedProject.exceedsTokenLimit p = (PackedProject.tokenCount p >? configuredLimit).
Proof.
  cbn. destruct (readArchive bytes); [apply packEntries_measured | done].
Qed.

Lemma specPacker_files_measured (files : list UploadedFile) (p : PackedProject.t) :
  processMultipleFiles (ProjectPacker := specPacker) files = Returned p ->
  PackedProject.exceedsTokenLimit p = (PackedProject.tokenCount p >? configuredLimit).
Proof. cbn. apply packEntries_measured. Qed.

(** The calls of one upload: none, or the write of the work item followed
    by calls that write no record. *)
Lemma handleZipFile_puts (userId name : string) (bytes : list byte) (w : World) :
  putItems (callsSince w (handleZipFile (PP := specPacker) config userId name bytes w).2)
  = []
  \/ exists p fileId ts,
      processZipFile (ProjectPacker := specPacker) bytes name = Returned p
      /\ putItems (callsSince w (handleZipFile (PP := specPacker) config userId name bytes w).2)
         = [uploadedWorkItem userId fileId name "application/zip" ts ZIP_FILE p].
Proof.
  destruct (processZipFile (ProjectPacker := specPacker) bytes name) as [p|e] eqn:Hp.
  - right. exists p. do 2 eexists. split; [done|].
    rewrite (handleZipFile_run (PP := specPacker) config userId name bytes p w Hp).
    destruct (Ddb.validKey _ _); [destruct (enabled config)|];
      (erewrite callsSince_app;
       [|cbn [snd calls S3.upload setObjects setItems record];
         rewrite <- ?app_assoc; reflexivity]); reflexivity.
  - left.
    rewrite (handleZipFile_packer_fails (PP := specPacker) config userId name bytes e w Hp).
    cbn [snd]. by rewrite callsSince_same.
Qed.

Lemma handleMultipleFiles_puts (userId : string) (files : list UploadedFile) (w : World) :
  putItems (callsSince w (handleMultipleFiles (PP := specPacker) config userId files w).2)
  = []
  \/ exists p fileId name ts,
      processMultipleFiles (ProjectPacker := specPacker) files = Returned p
      /\ putItems (callsSince w (handleMultipleFiles (PP := specPacker) config userId files w).2)
         = [uploadedWorkItem userId fileId name "application/multiple-files" ts
                             MULTIPLE_FILES p].
Proof.
  destruct files as [|first others].
  { left. unfold handleMultipleFiles. unfold_monad. cbn.
    by rewrite callsSince_same. }
  destruct (createZipFromFiles (ProjectPacker := specPacker) (first :: others))
    as [zip|e] eqn:Hz;
    [destruct (processMultipleFiles (ProjectPacker := specPacker) (first :: others))
       as [p|e] eqn:Hp|].
  - right. exists p. do 3 eexists. split; [done|].
    rewrite (handleMultipleFiles_run (PP := specPacker) config userId first others
               zip p w Hz Hp).
    destruct (Ddb.validKey _ _); [destruct (enabled config)|];
      (erewrite callsSince_app;
       [|cbn [snd calls S3.upload setObjects setItems record];
         rewrite <- ?app_assoc; reflexivity]); reflexivity.
  - left. unfold handleMultipleFiles. unfold_monad. rewrite Hz, Hp.
    cbn [snd]. by rewrite callsSince_same.
  - left. unfold handleMultipleFiles. unfold_monad. rewrite Hz.
    cbn [snd]. by rewrite callsSince_same.
Qed.

(** C3. Every work item record that [handleZipFile] or
    [handleMultipleFiles] writes to the table carries a token count [T]
    and [exceedsTokenLimit = (T > configuredLimit)]; in particular a
    record whose token count is the limit carries
    [exceedsTokenLimit = false]. *)
Theorem uploads_write_consistent_token_fields (userId name : string)
    (bytes : list byte) (files : list UploadedFile) (w : World) :
  let consistent (item : Item) :=
    exists T,
      item !! "tokenCount" = Some (VNum T)
      /\ item !! "exceedsTokenLimit" = Some (VBool (T >? configuredLimit))
      /\ (T = configuredLimit -> item !! "exceedsTokenLimit" = Some (VBool false)) in
  Forall consistent
    (putItems (callsSince w (handleZipFile (PP := specPacker) config userId name bytes w).2))
  /\ Forall consistent
       (putItems (callsSince w
          (handleMultipleFiles (PP := specPacker) config userId files w).2)).
Proof.
  intros consistent.
  assert (Hitem : forall u fid nm ty ts mode p,
            PackedProject.exceedsTokenLimit p
            = (PackedProject.tokenCount p >? configuredLimit) ->
            consistent (uploadedWorkItem u fid nm ty ts mode p)).
  { intros u fid nm ty ts mode p Hm. exists (PackedProject.tokenCount p).
    destruct (uploadedWorkItem_tokens u fid nm ty ts mode p) as [-> ->].
    rewrite Hm. split; [done|]. split; [done|].
    intros ->. by rewrite Z.gtb_ltb, Z.ltb_irrefl. }
  split.
  - destruct (handleZipFile_puts userId name bytes w)
      as [-> | (p & fileId & ts & Hp & ->)]; [constructor|].
    repeat constructor. apply Hitem. by apply (specPacker_zip_measured bytes name).
  - destruct (handleMultipleFiles_puts userId files w)
      as [-> | (p & fileId & nm & ts & Hp & ->)]; [constructor|].
    repeat constructor. apply Hitem. by apply (specPacker_files_measured files).
Qed.

(** The record is written whenever the packer returns and the key is
    valid, and it is the record that the table then holds. *)
Lemma handleZipFile_writes_record (userId name : string) (bytes : list byte)
    (p : PackedProject.t) (w : World) :
  enabled config = true ->
  processZipFile (ProjectPacker := specPacker) bytes name = Returned p ->
  let fileId := createFileIdHash (name +:+ numberToString (clock w)) in
  Ddb.validKey userId fileId = true ->
  let r := handleZipFile (PP := specPacker) config userId name bytes w in
  r.1 = Returned (fileId, PackedProject.tokenCount p,
                  PackedProject.tokenCount p >? configuredLimit)
  /\ exists item,
       items r.2 !! (userId, fileId) = Some item
       /\ item !! "tokenCount" = Some (VNum (PackedProject.tokenCount p))
       /\ item !! "exceedsTokenLimit"
          = Some (VBool (PackedProject.tokenCount p >? configuredLimit)).
Proof.
  intros Hon Hp fileId Hkey r. subst r.
  rewrite (handleZipFile_run (PP := specPacker) config userId name bytes p w Hp).
  fold fileId. rewrite Hkey, Hon. cbn [fst snd].
  rewrite <- (specPacker_zip_measured bytes name p Hp). split; [done|].
  eexists. split.
  - cbn [S3.upload snd items setObjects setItems record]. apply lookup_insert_eq.
  - apply uploadedWorkItem_tokens.
Qed.

End TokenLimit.

(* ===================================================================== *)
(** * The disabled service *)
(* ===================================================================== *)

(** No service instance is disabled: the constructor is the only place
    that writes the configuration.  The lemmas of this section describe
    the method bodies under a flag that no run has. *)
Lemma constructor_enabled (storageBucket storageTable : string) :
  enabled (constructor storageBucket storageTable) = true.
Proof. reflexivity. Qed.

Section Disabled.

Context {RT : Runtime} {FM : FileUploadMode} {PP : ProjectPacker}.
Variable config : StorageConfig.
Hypothesis Hdisabled : enabled config = false.

(** X19. The operations that start with the guard fail before any call. *)
Lemma guarded_operations_fail_fast (u f : string) (w : World) :
  (getWorkItem config u f w = (Thrown notEnabled, w))
  /\ (forall text, storePackedContent config u f text w = (Thrown notEnabled, w))
  /\ (getPackedContent config u f w = (Thrown notEnabled, w))
  /\ (forall c t, storeOriginalContent config u f c t w = (Thrown notEnabled, w))
  /\ (forall d, getOriginalContent config u f d w = (Thrown notEnabled, w))
  /\ (forall updates, updateWorkItem config u f updates w = (Thrown notEnabled, w))
  /\ (forall a b c d,
        linkSupportingDocumentToWorkItem config u f a b c d w = (Thrown notEnabled, w))
  /\ (forall docId, getSupportingDocument config u f docId w = (Thrown notEnabled, w))
  /\ (deleteWorkItem config u f w = (Thrown notEnabled, w))
  /\ (forall name type bytes mode,
        createWorkItem config u name type bytes mode w = (Thrown notEnabled, w))
  /\ (listWorkItems config u w = (Thrown notEnabled, w))
  /\ (forall results, storeAnalysisResults config u f results w = (Thrown notEnabled, w))
  /\ (getAnalysisResults config u f w = (Thrown notEnabled, w))
  /\ (forall text ext type,
        storeIaCDocument config u f text ext type w = (Thrown notEnabled, w))
  /\ (forall ext item, getIaCDocument config u f ext item w = (Thrown notEnabled, w))
  /\ (forall name type bytes description,
        storeSupportingDocument config u f name type bytes description w
        = (Thrown notEnabled, w)).
Proof.
  unfold getWorkItem, storePackedContent, getPackedContent, storeOriginalContent,
    getOriginalContent, updateWorkItem, linkSupportingDocumentToWorkItem,
    getSupportingDocument, deleteWorkItem, createWorkItem, listWorkItems,
    storeAnalysisResults, getAnalysisResults, storeIaCDocument, getIaCDocument,
    storeSupportingDocument.
  rewrite Hdisabled; cbn [negb]. repeat split; done.
Qed.


(** [handleZipFile] has no guard: the packer runs, the work item is
    written to the table, and only the first guarded callee stops the
    run; its error is wrapped by the [catch] block. *)
Lemma handleZipFile_disabled (userId name : string) (bytes : list byte)
    (p : PackedProject.t) (w : World) :
  processZipFile bytes name = Returned p ->
  let fileId := createFileIdHash (name +:+ numberToString (clock w)) in
  let item :=
    uploadedWorkItem userId fileId name "application/zip"
                     (toISOString (clock w)) ZIP_FILE p in
  Ddb.validKey userId fileId = true ->
  handleZipFile config userId name bytes w
  = (Thrown ("Failed to process zip file: " +:+ notEnabled),
     setItems (<[(userId, fileId) := item]> (items w)) (record (DdbPutItem item) w)).
Proof.
  intros Hp fileId item Hkey.
  rewrite (handleZipFile_run config userId name bytes p w Hp).
  fold fileId. by rewrite Hkey, Hdisabled.
Qed.

Lemma handleMultipleFiles_disabled (userId : string) (first : UploadedFile)
    (others : list UploadedFile) (zip : list byte) (p : PackedProject.t) (w : World) :
  createZipFromFiles (first :: others) = Returned zip ->
  processMultipleFiles (first :: others) = Returned p ->
  let fileId := createFileIdHash (filename first +:+ numberToString (clock w)) in
  let item :=
    uploadedWorkItem userId fileId (combinedFilename first (first :: others))
                     "application/multiple-files"
                     (toISOString (clock w)) MULTIPLE_FILES p in
  Ddb.validKey userId fileId = true ->
  handleMultipleFiles config userId (first :: others) w
  = (Thrown ("Failed to process multiple files: " +:+ notEnabled),
     setItems (<[(userId, fileId) := item]> (items w)) (record (DdbPutItem item) w)).
Proof.
  intros Hz Hp fileId item Hkey.
  rewrite (handleMultipleFiles_run config userId first others zip p w Hz Hp).
  fold fileId. by rewrite Hkey, Hdisabled.
Qed.

End Disabled.

(* ===================================================================== *)
(** * Closed instances *)
(* ===================================================================== *)

Section Instances.

Import Example.
#[local] Existing Instance runtime.
#[local] Existing Instance modes.
#[local] Existing Instance parts.
#[local] Existing Instance packer.

Lemma getOriginalContent_packed_or_fallback_witness :
  Ddb.validKey user file = true
  /\ items zipWorldUnpacked !! (user, file) = Some zipItem
  /\ (zipItem !! "uploadMode" = Some (VStr MULTIPLE_FILES)
      \/ zipItem !! "uploadMode" = Some (VStr ZIP_FILE))
  /\ objects zipWorldUnpacked !! packedContent (getS3Locations user file) = None
  /\ callsSince zipWorldUnpacked (getOriginalContent on user file false zipWorldUnpacked).2
     = [DdbGetItem user file;
        S3GetObject (packedContent (getS3Locations user file));
        S3GetObject (originalContent (getS3Locations user file))]
  /\ (getOriginalContent on user file false zipWorldUnpacked).1
     = Returned (CStr (utf8Decode (list_byte_of_string "PK-archive")), "application/zip").
Proof.
  split; [reflexivity|]. split; [reflexivity|]. split; [right; reflexivity|].
  split; [reflexivity|].
  exact (getOriginalContent_packed_or_fallback on eq_refl user file zipItem
           zipWorldUnpacked eq_refl eq_refl (or_intror eq_refl)).
Defined.

(** The two branches of C2 on closed worlds. *)
Example getOriginalContent_serves_packed :
  (getOriginalContent on user file false zipWorld).1
  = Returned (CStr "a.tf:hello", "text/plain").
Proof. reflexivity. Qed.

Example getOriginalContent_falls_back :
  (getOriginalContent on user file false zipWorldUnpacked).1
  = Returned (CStr "PK-archive", "application/zip").
Proof. reflexivity. Qed.

Lemma uploads_write_consistent_token_fields_witness :
  let consistent (item : Item) :=
    exists T,
      item !! "tokenCount" = Some (VNum T)
      /\ item !! "exceedsTokenLimit" = Some (VBool (T >? configuredLimit))
      /\ (T = configuredLimit -> item !! "exceedsTokenLimit" = Some (VBool false)) in
  Forall consistent
    (putItems (callsSince emptyWorld
       (handleZipFile (PP := specPacker) on user "a.zip"
          (list_byte_of_string "hello") emptyWorld).2))
  /\ Forall consistent
       (putItems (callsSince emptyWorld
          (handleMultipleFiles (PP := specPacker) on user
             [{| filename := "a.tf"; buffer := list_byte_of_string "hello";
                 mimetype := "text/plain" |}] emptyWorld).2)).
Proof.
  apply (uploads_write_consistent_token_fields (PK := parts) on user "a.zip"
           (list_byte_of_string "hello")
           [{| filename := "a.tf"; buffer := list_byte_of_string "hello";
               mimetype := "text/plain" |}] emptyWorld).
Defined.

(** A packed text of exactly [configuredLimit] tokens does not exceed the
    limit; one more token does. *)
Example handleZipFile_at_the_limit :
  (handleZipFile on user "a.zip" (list_byte_of_string "hello") emptyWorld).1
  = Returned (zeros64, 10, false)
  /\ (handleZipFile on user "a.zip" (list_byte_of_string "hello!") emptyWorld).1
     = Returned (zeros64, 11, true).
Proof. split; reflexivity. Qed.

(** C4 fails for a partial update without any defined field: the
    expression [SET ] is rejected, and no record is returned. *)
Lemma updateWorkItem_empty_update_fails :
  items (withItem singleItem emptyWorld) !! (user, file) = Some singleItem
  /\ updateWorkItem on user file [] (withItem singleItem emptyWorld)
     = (Thrown "Failed to update work item",
        record (DdbUpdateItem user file "SET " ∅ ∅) (withItem singleItem emptyWorld))
  /\ (updateWorkItem on user file [("lastModified", None)]
        (withItem singleItem emptyWorld)).1
     = Thrown "Failed to update work item".
Proof. split; [reflexivity|]. split; reflexivity. Qed.

Lemma statusUpdate_fields (k : string) (v : JsVal) :
  (k, Some v) ∈ statusUpdate -> isFieldName k = true.
Proof.
  unfold statusUpdate. rewrite !elem_of_cons, elem_of_nil.
  intros [[= -> _]|[[= -> _]|[[=]|[]]]]; reflexivity.
Qed.

Lemma statusUpdate_NoDup : NoDup statusUpdate.*1.
Proof. apply (bool_decide_unpack _). reflexivity. Qed.

Lemma statusUpdate_defined : exists k v, (k, Some v) ∈ statusUpdate.
Proof. exists "analysisStatus", (VStr "COMPLETED"). by left. Qed.

Lemma statusUpdate_safe (k : string) (n : Z) :
  (k, Some (VNum n)) ∈ statusUpdate -> isSafeInteger n = true.
Proof.
  unfold statusUpdate. rewrite !elem_of_cons, elem_of_nil.
  intros [[=]|[[= _ ->]|[[=]|[]]]]; reflexivity.
Qed.

Lemma updateWorkItem_writes_defined_fields_witness :
  Ddb.validKey user file = true
  /\ items (withItem singleItem emptyWorld) !! (user, file) = Some singleItem
  /\ NoDup statusUpdate.*1
  /\ (forall k v, (k, Some v) ∈ statusUpdate -> isFieldName k = true)
  /\ (forall k n, (k, Some (VNum n)) ∈ statusUpdate -> isSafeInteger n = true)
  /\ (exists k v, (k, Some v) ∈ statusUpdate)
  /\ exists new expr names values,
       (updateWorkItem on user file statusUpdate (withItem singleItem emptyWorld)).1
       = Returned new
       /\ items (updateWorkItem on user file statusUpdate (withItem singleItem emptyWorld)).2
          = <[(user, file) := new]> (items (withItem singleItem emptyWorld))
       /\ objects (updateWorkItem on user file statusUpdate (withItem singleItem emptyWorld)).2
          = objects (withItem singleItem emptyWorld)
       /\ (forall k v, (k, Some v) ∈ statusUpdate -> new !! k = Some v)
       /\ (forall k, (forall v, (k, Some v) ∉ statusUpdate) ->
             new !! k = singleItem !! k)
       /\ calls (updateWorkItem on user file statusUpdate (withItem singleItem emptyWorld)).2
          = calls (withItem singleItem emptyWorld)
            ++ [DdbUpdateItem user file expr names values]
       /\ expr = "SET " +:+ Js.join ", " (setClause <$> (definedFields statusUpdate).*1)
       /\ (forall k v, (k, Some v) ∈ statusUpdate ->
             names !! ("#" +:+ k) = Some k /\ values !! (":" +:+ k) = Some v).
Proof.
  split; [reflexivity|]. split; [reflexivity|].
  split; [exact statusUpdate_NoDup|]. split; [exact statusUpdate_fields|].
  split; [exact statusUpdate_safe|]. split; [exact statusUpdate_defined|].
  apply (updateWorkItem_writes_defined_fields on eq_refl user file statusUpdate
           singleItem (withItem singleItem emptyWorld));
    [reflexivity | reflexivity | exact statusUpdate_NoDup
     | exact statusUpdate_fields | exact statusUpdate_safe | exact statusUpdate_defined].
Defined.

(** The request of the example above. *)
Example updateWorkItem_expression :
  calls (updateWorkItem on user file statusUpdate (withItem singleItem emptyWorld)).2
  = [DdbUpdateItem user file
       "SET #analysisStatus = :analysisStatus, #analysisProgress = :analysisProgress"
       (<["#analysisStatus" := "analysisStatus"]>
          (<["#analysisProgress" := "analysisProgress"]> ∅))
       (<[":analysisStatus" := VStr "COMPLETED"]>
          (<[":analysisProgress" := VNum 100]> ∅))].
Proof. vm_compute. reflexivity. Qed.

Lemma updateWorkItem_upserts_missing_record_witness :
  Ddb.validKey user file = true
  /\ items emptyWorld !! (user, file) = None
  /\ NoDup statusUpdate.*1
  /\ (forall k v, (k, Some v) ∈ statusUpdate -> isFieldName k = true)
  /\ (forall k n, (k, Some (VNum n)) ∈ statusUpdate -> isSafeInteger n = true)
  /\ (exists k v, (k, Some v) ∈ statusUpdate)
  /\ exists new,
       (updateWorkItem on user file statusUpdate emptyWorld).1 = Returned new
       /\ items (updateWorkItem on user file statusUpdate emptyWorld).2 !! (user, file)
          = Some new
       /\ new !! "userId" = Some (VStr user)
       /\ new !! "fileId" = Some (VStr file)
       /\ (forall k v, (k, Some v) ∈ statusUpdate -> new !! k = Some v)
       /\ (forall k, k <> "userId" -> k <> "fileId" ->
             (forall v, (k, Some v) ∉ statusUpdate) -> new !! k = None).
Proof.
  split; [reflexivity|]. split; [reflexivity|].
  split; [exact statusUpdate_NoDup|]. split; [exact statusUpdate_fields|].
  split; [exact statusUpdate_safe|]. split; [exact statusUpdate_defined|].
  apply (updateWorkItem_upserts_missing_record on eq_refl user file statusUpdate
           emptyWorld);
    [reflexivity | reflexivity | exact statusUpdate_NoDup
     | exact statusUpdate_fields | exact statusUpdate_safe | exact statusUpdate_defined].
Defined.

(** C10 fails for a partial update without any defined field: on a pair
    without a record the call throws, returns no record and creates
    none. *)
Lemma updateWorkItem_empty_update_creates_nothing :
  items emptyWorld !! (user, file) = None
  /\ (updateWorkItem on user file [] emptyWorld).1 = Thrown "Failed to update work item"
  /\ items (updateWorkItem on user file [] emptyWorld).2 !! (user, file) = None
  /\ (updateWorkItem on user file [("lastModified", None)] emptyWorld).1
     = Thrown "Failed to update work item".
Proof. split; [reflexivity|]. split; [reflexivity|]. split; reflexivity. Qed.

(** A number beyond the safe integers stops [updateWorkItem] before any
    request is sent. *)
Example updateWorkItem_unsafe_number_fails :
  updateWorkItem on user file [("tokenCount", Some (VNum (2 ^ 53)))]
    (withItem singleItem emptyWorld)
  = (Thrown "Failed to update work item", withItem singleItem emptyWorld).
Proof. reflexivity. Qed.

Lemma deleteWorkItem_ordered_and_repeatable_witness :
  Ddb.validKey user file = true
  /\ (let root := storageRoot user file in
      let listed := take S3.MaxKeys (S3.keysUnder root (objects zipWorld)) in
      let first := deleteWorkItem on user file zipWorld in
      let second := deleteWorkItem on user file first.2 in
      first.1 = Returned tt
      /\ calls first.2
         = calls zipWorld ++ [S3ListObjectsV2 root]
           ++ match listed with
              | [] => []
              | _ => [S3DeleteObjects listed]
              end
           ++ [DdbDeleteItem user file]
      /\ (forall k, k ∈ listed -> objects first.2 !! k = None)
      /\ items first.2 !! (user, file) = None
      /\ second.1 = Returned tt
      /\ items second.2 = items first.2
      /\ ((length (S3.keysUnder root (objects zipWorld)) <= S3.MaxKeys)%nat ->
          (forall k, String.prefix root k = true -> objects first.2 !! k = None)
          /\ calls second.2
             = calls first.2 ++ [S3ListObjectsV2 root; DdbDeleteItem user file]
          /\ objects second.2 = objects first.2)).
Proof.
  split; [reflexivity|].
  apply (deleteWorkItem_ordered_and_repeatable on eq_refl user file zipWorld).
  reflexivity.
Defined.

(** The calls of two deletions in a row on a closed world. *)
Example deleteWorkItem_twice_calls :
  calls (deleteWorkItem on user file (deleteWorkItem on user file zipWorld).2).2
  = [S3ListObjectsV2 (storageRoot user file);
     S3DeleteObjects [originalKey; packedKey];
     DdbDeleteItem user file;
     S3ListObjectsV2 (storageRoot user file);
     DdbDeleteItem user file].
Proof. vm_compute. reflexivity. Qed.



Example handleMultipleFiles_disabled_writes_metadata :
  exists item,
    handleMultipleFiles off user
      [{| filename := "a.tf"; buffer := list_byte_of_string "hello";
          mimetype := "text/plain" |}] emptyWorld
    = (Thrown "Failed to process multiple files: Storage is not enabled",
       setItems (<[(user, zeros64) := item]> ∅) (record (DdbPutItem item) emptyWorld)).
Proof. eexists. vm_compute. reflexivity. Qed.

(** C7 fails for a pair without a metadata record: the content is stored,
    and the read fails on the lookup of the work item. *)
Lemma storeThenDownload_without_record_fails :
  items emptyWorld !! (user, file) = None
  /\ (storeThenDownload on user file (CBuf [x00; x01; x02]) "image/png" emptyWorld).1
     = Thrown "Failed to get original content".
Proof. split; reflexivity. Qed.

(** A data URI stored under an image type comes back as the decoded
    bytes, not as the text that was passed in. *)
Example storeThenDownload_image_string :
  (storeThenDownload on user file (CStr "data:image/png;base64,AAEC") "image/png"
     (withItem singleItem emptyWorld)).1
  = Returned (CBuf [x00; x01; x02], "image/png").
Proof. reflexivity. Qed.

Lemma storeThenDownload_uploaded_bytes_witness :
  Ddb.validKey user file = true
  /\ items (withItem singleItem emptyWorld) !! (user, file) = Some singleItem
  /\ "text/plain" <> ""
  /\ (storeThenDownload on user file (CStr "resource a") "text/plain"
        (withItem singleItem emptyWorld)).1
     = Returned
         (CBuf match CStr "resource a" with
               | CBuf b => b
               | CStr s =>
                   if Js.startsWith "text/plain" "image/"
                   then base64Decode (base64Payload s)
                   else utf8Encode s
               end,
          "text/plain").
Proof.
  split; [reflexivity|]. split; [reflexivity|]. split; [discriminate|].
  apply (storeThenDownload_uploaded_bytes on eq_refl user file (CStr "resource a")
           "text/plain" singleItem (withItem singleItem emptyWorld));
    [reflexivity | reflexivity | discriminate].
Defined.

(** C8 fails for a download: the image comes back as raw bytes, not as a
    data URI; the in-app read of the same object is the data URI. *)
Lemma getOriginalContent_image_download_is_raw :
  objects pngWorld !! originalKey
  = Some {| Body := [x00; x01; x02]; ContentType := Some "image/png" |}
  /\ (getOriginalContent on user file true pngWorld).1
     = Returned (CBuf [x00; x01; x02], "image/png")
  /\ (forall s t, (getOriginalContent on user file true pngWorld).1
                  <> Returned (CStr s, t))
  /\ (getOriginalContent on user file false pngWorld).1
     = Returned (CStr "data:image/png;base64,AAEC", "image/png").
Proof.
  split; [reflexivity|]. split; [reflexivity|]. split; [|reflexivity].
  intros s t. vm_compute. discriminate.
Qed.

Lemma getOriginalContent_image_uri_only_in_app_witness :
  Ddb.validKey user file = true
  /\ items pngWorld !! (user, file) = Some singleItem
  /\ objects pngWorld !! originalContent (getS3Locations user file)
     = Some {| Body := [x00; x01; x02]; ContentType := Some "image/png" |}
  /\ (let o := {| Body := [x00; x01; x02]; ContentType := Some "image/png" |} in
      let contentType := strOrElse (ContentType o) "application/octet-stream" in
      (getOriginalContent on user file true pngWorld).1
      = Returned (CBuf (Body o), contentType)
      /\ (isPackedMode singleItem = false
          \/ objects pngWorld !! packedContent (getS3Locations user file) = None ->
          (getOriginalContent on user file false pngWorld).1
          = Returned
              (if Js.startsWith contentType "image/"
               then CStr ("data:" +:+ contentType +:+ ";base64,"
                          +:+ base64Encode (Body o))
               else CStr (utf8Decode (Body o)),
               contentType))).
Proof.
  split; [reflexivity|]. split; [reflexivity|]. split; [reflexivity|].
  apply (getOriginalContent_image_uri_only_in_app on eq_refl user file singleItem
           {| Body := [x00; x01; x02]; ContentType := Some "image/png" |} pngWorld);
    reflexivity.
Defined.

(** C9 fails on the error: for a requested id that is not the linked one
    the validation error is raised inside the [try] block, and what the
    caller gets is the error of the operation, the same as when the ids
    match and the blob is missing. *)
Lemma getSupportingDocument_mismatch_is_masked :
  zipItem !! "supportingDocumentId" = Some (VStr "doc1")
  /\ (getSupportingDocumentBody on user file "doc2" zipWorld).1
     = Thrown "Supporting document ID does not match the work item record"
  /\ (getSupportingDocument on user file "doc2" zipWorld).1
     = Thrown "Failed to get supporting document"
  /\ (getSupportingDocument on user file "doc1" zipWorld).1
     = Thrown "Failed to get supporting document"
  /\ calls (getSupportingDocument on user file "doc2" zipWorld).2
     = [DdbGetItem user file].
Proof. repeat split; reflexivity. Qed.

Lemma getSupportingDocument_validates_before_fetch_witness :
  Ddb.validKey user file = true
  /\ items zipWorld !! (user, file) = Some zipItem
  /\ (truthy (zipItem !! "supportingDocumentId") = false
      \/ truthy (zipItem !! "supportingDocumentAdded") = false
      \/ zipItem !! "supportingDocumentId" <> Some (VStr "doc2") ->
      getSupportingDocument on user file "doc2" zipWorld
      = (Thrown "Failed to get supporting document",
         record (DdbGetItem user file) zipWorld))
  /\ (truthy (zipItem !! "supportingDocumentId") = true ->
      truthy (zipItem !! "supportingDocumentAdded") = true ->
      zipItem !! "supportingDocumentId" = Some (VStr "doc2") ->
      calls (getSupportingDocument on user file "doc2" zipWorld).2
      = calls zipWorld
        ++ [DdbGetItem user file; S3GetObject (supportingDocKey user file "doc2")]).
Proof.
  split; [reflexivity|]. split; [reflexivity|].
  apply (getSupportingDocument_validates_before_fetch on eq_refl user file "doc2"
           zipItem zipWorld); reflexivity.
Defined.

(** Linking a supporting document and reading it back: the work item
    shows the link, the linked id reaches the blob, another id does not. *)
Example supporting_document_linking :
  let w := withObject (supportingDocKey user file "doc9") [x00] "application/pdf"
                      (withItem singleItem emptyWorld) in
  let linked :=
    (linkSupportingDocumentToWorkItem on user file "doc9" "notes.pdf"
       "application/pdf" "design notes" w).2 in
  (exists item,
     (getWorkItem on user file linked).1 = Returned item
     /\ item !! "supportingDocumentAdded" = Some (VBool true)
     /\ item !! "supportingDocumentId" = Some (VStr "doc9")
     /\ item !! "fileName" = Some (VStr "main.tf"))
  /\ (getSupportingDocument on user file "doc9" linked).1
     = Returned ([x00], "application/pdf", VStr "notes.pdf")
  /\ (getSupportingDocument on user file "doc1" linked).1
     = Thrown "Failed to get supporting document".
Proof.
  split; [|split; reflexivity].
  eexists. split; [reflexivity|]. repeat split; vm_compute; reflexivity.
Qed.

(** The packed text comes back as it was stored. *)
Example packed_content_round_trip :
  (getPackedContent on user file
     (storePackedContent on user file "a.tf:resource a" emptyWorld).2).1
  = Returned "a.tf:resource a".
Proof. reflexivity. Qed.

End Instances.

(* ===================================================================== *)
(** * Properties kept by every run *)
(* ===================================================================== *)

Section Preservation.

Context {A B : Type} (P : World -> Prop).

Lemma preserves_ret (a : A) : preserves P (ret a).
Proof. by intros w Hw. Qed.

Lemma preserves_throw (e : string) : preserves P (throw (A := A) e).
Proof. by intros w Hw. Qed.

Lemma preserves_liftOutcome (o : Outcome A) : preserves P (liftOutcome o).
Proof. by intros w Hw. Qed.

Lemma preserves_Date_now : preserves P Date_now.
Proof. by intros w Hw. Qed.

Lemma preserves_bind (m : M A) (k : A -> M B) :
  preserves P m -> (forall a, preserves P (k a)) -> preserves P (bind m k).
Proof.
  intros Hm Hk w Hw. unfold bind. specialize (Hm w Hw).
  destruct (m w) as [[a|e] w']; [by apply Hk | done].
Qed.

Lemma preserves_tryCatch (m : M A) (h : string -> M A) :
  preserves P m -> (forall e, preserves P (h e)) -> preserves P (tryCatch m h).
Proof.
  intros Hm Hh w Hw. unfold tryCatch. specialize (Hm w Hw).
  destruct (m w) as [[a|e] w']; [done | by apply Hh].
Qed.

End Preservation.

Create HintDb preserve discriminated.

#[export] Hint Resolve preserves_ret preserves_throw preserves_liftOutcome
  preserves_Date_now : preserve.

(** Splits a run along its sequencing, its handlers and its branches. *)
Ltac preserve :=
  repeat first
    [ solve [eauto with preserve]
    | progress intros
    | apply preserves_bind
    | apply preserves_tryCatch
    | match goal with
      | |- preserves _ (if ?b then _ else _) => destruct b
      | |- preserves _ (match ?x with _ => _ end) => destruct x
      end ].

(** ** Runs that only read *)

Section ReadOnly.

Context {RT : Runtime} {FM : FileUploadMode} {PP : ProjectPacker}.
Variable config : StorageConfig.
Variable P : World -> Prop.
Hypothesis P_getObject : forall key, preserves P (S3.getObject key).
Hypothesis P_getItem : forall u f, preserves P (Ddb.getItem u f).
Hypothesis P_query : forall size u, preserves P (Ddb.query size u).

Local Hint Resolve P_getObject P_getItem P_query : preserve.

Lemma getWorkItem_preserves (u f : string) : preserves P (getWorkItem config u f).
Proof. unfold getWorkItem. preserve. Qed.

Lemma getPackedContent_preserves (u f : string) :
  preserves P (getPackedContent config u f).
Proof. unfold getPackedContent. preserve. Qed.

Local Hint Resolve getWorkItem_preserves getPackedContent_preserves : preserve.

Lemma getOriginalContent_preserves (u f : string) (forDownload : bool) :
  preserves P (getOriginalContent config u f forDownload).
Proof. unfold getOriginalContent, readOriginal. preserve. Qed.

Lemma getSupportingDocument_preserves (u f docId : string) :
  preserves P (getSupportingDocument config u f docId).
Proof. unfold getSupportingDocument, getSupportingDocumentBody. preserve. Qed.

Lemma listWorkItems_preserves (u : string) : preserves P (listWorkItems config u).
Proof. unfold listWorkItems. preserve. Qed.

Lemma getAnalysisResults_preserves (u f : string) :
  preserves P (getAnalysisResults config u f).
Proof. unfold getAnalysisResults. preserve. Qed.

Lemma getIaCDocument_preserves (u f ext : string) (item : option Item) :
  preserves P (getIaCDocument config u f ext item).
Proof. unfold getIaCDocument. preserve. Qed.

End ReadOnly.

(** ** Runs that read and write *)

Section AllRuns.

Context {RT : Runtime} {FM : FileUploadMode} {PP : ProjectPacker}.
Variable config : StorageConfig.
Variable P : World -> Prop.
Hypothesis P_getObject : forall key, preserves P (S3.getObject key).
Hypothesis P_getItem : forall u f, preserves P (Ddb.getItem u f).
Hypothesis P_query : forall size u, preserves P (Ddb.query size u).
Hypothesis P_upload : forall key body type, preserves P (S3.upload key body type).
Hypothesis P_listObjectsV2 : forall prefix, preserves P (S3.listObjectsV2 prefix).
Hypothesis P_deleteObjects : forall keys, preserves P (S3.deleteObjects keys).
Hypothesis P_putItem : forall item, preserves P (Ddb.putItem item).
Hypothesis P_deleteItem : forall u f, preserves P (Ddb.deleteItem u f).
Hypothesis P_updateItem :
  forall u f expr names values, preserves P (Ddb.updateItem u f expr names values).

Local Hint Resolve P_getObject P_getItem P_query P_upload P_listObjectsV2
  P_deleteObjects P_putItem P_deleteItem P_updateItem : preserve.

Lemma storeWorkItemInDynamoDB_preserves (item : Item) :
  preserves P (storeWorkItemInDynamoDB item).
Proof. unfold storeWorkItemInDynamoDB. preserve. Qed.

Lemma storePackedContent_preserves (u f text : string) :
  preserves P (storePackedContent config u f text).
Proof. unfold storePackedContent. preserve. Qed.

Lemma storeOriginalContent_preserves (u f : string) (c : Content) (type : string) :
  preserves P (storeOriginalContent config u f c type).
Proof. unfold storeOriginalContent. preserve. Qed.

Lemma updateWorkItem_preserves (u f : string) (updates : list (string * option JsVal)) :
  preserves P (updateWorkItem config u f updates).
Proof.
  unfold updateWorkItem. destruct (foldl updateStep _ updates) as [[e n] v]. preserve.
Qed.

Local Hint Resolve storeWorkItemInDynamoDB_preserves storePackedContent_preserves
  storeOriginalContent_preserves updateWorkItem_preserves : preserve.

Lemma linkSupportingDocumentToWorkItem_preserves (u f a b c d : string) :
  preserves P (linkSupportingDocumentToWorkItem config u f a b c d).
Proof. unfold linkSupportingDocumentToWorkItem. preserve. Qed.

Local Hint Resolve linkSupportingDocumentToWorkItem_preserves : preserve.

Lemma deleteWorkItem_preserves (u f : string) : preserves P (deleteWorkItem config u f).
Proof. unfold deleteWorkItem. preserve. Qed.

Lemma createWorkItem_preserves (u name type : string) (bytes : list byte)
    (mode : option string) :
  preserves P (createWorkItem config u name type bytes mode).
Proof. unfold createWorkItem. preserve. Qed.

Lemma storeAnalysisResults_preserves (u f : string) (results : Json) :
  preserves P (storeAnalysisResults config u f results).
Proof. unfold storeAnalysisResults. preserve. Qed.

Lemma storeIaCDocument_preserves (u f text ext : string) (type : option string) :
  preserves P (storeIaCDocument config u f text ext type).
Proof. unfold storeIaCDocument. preserve. Qed.

Lemma storeSupportingDocument_preserves (u f name type : string) (bytes : list byte)
    (description : string) :
  preserves P (storeSupportingDocument config u f name type bytes description).
Proof. unfold storeSupportingDocument. preserve. Qed.

Lemma handleZipFile_preserves (u name : string) (bytes : list byte) :
  preserves P (handleZipFile config u name bytes).
Proof. unfold handleZipFile. preserve. Qed.

Lemma handleMultipleFiles_preserves (u : string) (files : list UploadedFile) :
  preserves P (handleMultipleFiles config u files).
Proof. unfold handleMultipleFiles. preserve. Qed.

End AllRuns.

(** ** What no writer removes, and what the readers leave alone *)

Section StoreInvariants.

Context {RT : Runtime} {FM : FileUploadMode} {PP : ProjectPacker}.
Variable config : StorageConfig.

Lemma sameStores_getObject (w0 : World) (key : string) :
  preserves (sameStores w0) (S3.getObject key).
Proof.
  intros w Hw. unfold S3.getObject. by destruct (objects w !! key).
Qed.

Lemma sameStores_getItem (w0 : World) (u f : string) :
  preserves (sameStores w0) (Ddb.getItem u f).
Proof.
  intros w Hw. unfold Ddb.getItem. by destruct (Ddb.validKey u f).
Qed.

Lemma sameStores_query (w0 : World) (size : Item -> N) (u : string) :
  preserves (sameStores w0) (Ddb.query size u).
Proof.
  intros w Hw. unfold Ddb.query. by destruct (String.eqb u "").
Qed.

Lemma retains_getObject (w0 : World) (key : string) :
  preserves (retains w0) (S3.getObject key).
Proof.
  intros w Hw. unfold S3.getObject. by destruct (objects w !! key).
Qed.

Lemma retains_getItem (w0 : World) (u f : string) :
  preserves (retains w0) (Ddb.getItem u f).
Proof.
  intros w Hw. unfold Ddb.getItem. by destruct (Ddb.validKey u f).
Qed.

Lemma retains_upload (w0 : World) (key : string) (body : list byte)
    (type : option string) :
  preserves (retains w0) (S3.upload key body type).
Proof.
  intros w [Hitems Hobjects]. split; [done|].
  intros k Hk%Hobjects. cbn [S3.upload snd objects setObjects record].
  apply lookup_insert_is_Some. destruct (decide (key = k)); auto.
Qed.

Lemma retains_putItem (w0 : World) (item : Item) :
  preserves (retains w0) (Ddb.putItem item).
Proof.
  intros w [Hitems Hobjects]. unfold Ddb.putItem.
  destruct (item !! "userId") as [[u| | |]|]; try done.
  destruct (item !! "fileId") as [[f| | |]|]; try done.
  destruct (Ddb.validKey u f); [|done].
  split; [|done]. intros k Hk%Hitems. cbn [snd items setItems record].
  apply lookup_insert_is_Some. destruct (decide ((u, f) = k)); auto.
Qed.

Lemma retains_updateItem (w0 : World) (u f expr : string) (names : gmap string string)
    (values : gmap string JsVal) :
  preserves (retains w0) (Ddb.updateItem u f expr names values).
Proof.
  intros w [Hitems Hobjects]. unfold Ddb.updateItem.
  destruct (Ddb.validKey u f); [|done].
  destruct (Ddb.assignments expr names values) as [asg|]; [|done].
  split; [|done]. intros k Hk%Hitems. cbn [snd items setItems record].
  apply lookup_insert_is_Some. destruct (decide ((u, f) = k)); auto.
Qed.


(** X2. The seven reading operations change neither the bucket nor the
    table, whether they return or throw. *)
Theorem readers_leave_stores_unchanged (w : World) :
  (forall u f, sameStores w (getWorkItem config u f w).2)
  /\ (forall u, sameStores w (listWorkItems config u w).2)
  /\ (forall u f, sameStores w (getPackedContent config u f w).2)
  /\ (forall u f d, sameStores w (getOriginalContent config u f d w).2)
  /\ (forall u f docId, sameStores w (getSupportingDocument config u f docId w).2)
  /\ (forall u f, sameStores w (getAnalysisResults config u f w).2)
  /\ (forall u f ext item, sameStores w (getIaCDocument config u f ext item w).2).
Proof.
  assert (Hw : sameStores w w) by done.
  pose proof (sameStores_getObject w). pose proof (sameStores_getItem w).
  pose proof (sameStores_query w).
  split_and!; intros.
  - by apply getWorkItem_preserves.
  - by apply listWorkItems_preserves.
  - by apply getPackedContent_preserves.
  - by apply getOriginalContent_preserves.
  - by apply getSupportingDocument_preserves.
  - by apply getAnalysisResults_preserves.
  - by apply getIaCDocument_preserves.
Qed.

End StoreInvariants.

(* ===================================================================== *)
(** * Stored content read back *)
(* ===================================================================== *)

Section RoundTrips.

Context {RT : Runtime} {FM : FileUploadMode} {PP : ProjectPacker}.
Variable config : StorageConfig.
Hypothesis Henabled : enabled config = true.

Lemma rooted_keys_differ (root a b : string) : a <> b -> root +:+ a <> root +:+ b.
Proof. intros Hne Heq. by apply (inj (String.app root)) in Heq. Qed.

Lemma extended_key_differs (key suffix : string) : suffix <> "" -> key <> key +:+ suffix.
Proof.
  intros Hne Heq. rewrite <- (app_nil_r_s key) in Heq at 1.
  by apply (inj (String.app key)) in Heq.
Qed.

Lemma storePackedContent_run (u f text : string) (w : World) :
  storePackedContent config u f text w
  = (Returned tt,
     setObjects
       (<[packedContent (getS3Locations u f) :=
            {| Body := utf8Encode text; ContentType := Some "text/plain" |}]> (objects w))
       (record (S3Upload (packedContent (getS3Locations u f))) w)).
Proof.
  unfold storePackedContent. rewrite Henabled; cbn [negb]; cbv zeta.
  by unfold tryCatch, S3.upload.
Qed.

(** X3. The packed text that [storePackedContent] stores is what
    [getPackedContent] returns, for a text that survives UTF-8 encoding and
    decoding; the write touches no record and no other key, and reading a
    pair that has no packed text fails with ['Failed to get packed
    content']. *)
Theorem storePackedContent_then_getPackedContent (u f text : string) (w : World) :
  utf8Decode (utf8Encode text) = text ->
  (storePackedContent config u f text w).1 = Returned tt
  /\ (getPackedContent config u f (storePackedContent config u f text w).2).1
     = Returned text
  /\ items (storePackedContent config u f text w).2 = items w
  /\ (forall k, k <> packedContent (getS3Locations u f) ->
        objects (storePackedContent config u f text w).2 !! k = objects w !! k)
  /\ (objects w !! packedContent (getS3Locations u f) = None ->
      (getPackedContent config u f w).1 = Thrown "Failed to get packed content").
Proof.
  intros Hutf. rewrite storePackedContent_run. cbn [fst snd].
  split; [done|]. split; [|split; [done|split]].
  - erewrite (getPackedContent_found config Henabled u f);
      [|cbn [objects setObjects]; apply lookup_insert_eq].
    cbn [fst Body]. by rewrite Hutf.
  - intros k Hk. cbn [objects setObjects record]. by rewrite lookup_insert_ne.
  - intros Hnone. by rewrite (getPackedContent_missing config Henabled).
Qed.

(** X4. Analysis results that [storeAnalysisResults] stores are what
    [getAnalysisResults] returns, when their JSON text survives the
    encoding and parses back; a pair without stored results, and a stored
    text that does not parse, both fail with ['Failed to get analysis
    results']. *)
Theorem storeAnalysisResults_then_getAnalysisResults (u f : string) (results : Json)
    (w : World) :
  parse (utf8Decode (utf8Encode (stringify results))) = Returned results ->
  (getAnalysisResults config u f (storeAnalysisResults config u f results w).2).1
  = Returned results
  /\ (objects w !! analysisResults (getS3Locations u f) = None ->
      (getAnalysisResults config u f w).1 = Thrown "Failed to get analysis results")
  /\ (forall o e,
        objects w !! analysisResults (getS3Locations u f) = Some o ->
        parse (utf8Decode (Body o)) = Thrown e ->
        (getAnalysisResults config u f w).1 = Thrown "Failed to get analysis results").
Proof.
  intros Hparse. unfold getAnalysisResults, storeAnalysisResults.
  rewrite Henabled; cbn [negb]; cbv zeta. split; [|split].
  - unfold_monad. unfold S3.upload, S3.getObject.
    cbn [snd objects setObjects record]. rewrite lookup_insert_eq.
    cbn [Body]. by rewrite Hparse.
  - intros Hnone. unfold_monad. unfold S3.getObject. by rewrite Hnone.
  - intros o e Ho He. unfold_monad. unfold S3.getObject. rewrite Ho.
    by rewrite He.
Qed.

Lemma createdWorkItem_fields (u fid name type ts mode : string) :
  let item := createdWorkItem u fid name type ts mode in
  item !! "userId" = Some (VStr u)
  /\ item !! "fileId" = Some (VStr fid)
  /\ item !! "fileName" = Some (VStr name)
  /\ item !! "fileType" = Some (VStr type)
  /\ item !! "analysisStatus" = Some (VStr "NOT_STARTED")
  /\ item !! "analysisProgress" = Some (VNum 0)
  /\ item !! "iacGenerationStatus" = Some (VStr "NOT_STARTED")
  /\ item !! "iacGenerationProgress" = Some (VNum 0)
  /\ item !! "s3Prefix" = Some (VStr (storageRoot u fid))
  /\ item !! "uploadMode" = Some (VStr mode).
Proof. cbv zeta. split_and!; vm_compute; reflexivity. Qed.

Lemma createWorkItem_run (u name type : string) (bytes : list byte)
    (mode : option string) (w : World) :
  let fileId := createFileIdHash (name +:+ numberToString (clock w)) in
  let item :=
    createdWorkItem u fileId name type (toISOString (clock w))
                    (default SINGLE_FILE mode) in
  createWorkItem config u name type bytes mode w
  = if Ddb.validKey u fileId then
      (Returned item,
       {| objects :=
            <[metadata (getS3Locations u fileId) :=
                {| Body := utf8Encode (stringifyItem item);
                   ContentType := Some "application/json" |}]>
              (<[originalContent (getS3Locations u fileId) :=
                   {| Body := bytes; ContentType := Some type |}]> (objects w));
          items := <[(u, fileId) := item]> (items w);
          clock := clock w;
          calls := calls w ++ [DdbPutItem item;
                               S3Upload (originalContent (getS3Locations u fileId));
                               S3Upload (metadata (getS3Locations u fileId))] |})
    else (Thrown "Failed to create work item", record (DdbPutItem item) w).
Proof.
  intros fileId item. unfold createWorkItem.
  rewrite Henabled; cbn [negb]. unfold bind at 1. unfold Date_now at 1.
  unfold bind at 1. unfold Date_now at 1. cbv zeta. fold fileId. fold item.
  unfold_monad. unfold Ddb.putItem.
  destruct (createdWorkItem_fields u fileId name type (toISOString (clock w))
              (default SINGLE_FILE mode)) as (Hu & Hf & _).
  fold item in Hu, Hf. rewrite Hu, Hf.
  destruct (Ddb.validKey u fileId); [|done].
  unfold S3.upload, setObjects, setItems, record; cbn.
  by rewrite <- !app_assoc.
Qed.

(** X5. [createWorkItem] with identifiers that the table accepts writes
    the record first, then the original content, then the metadata
    snapshot; it returns a work item whose two statuses are [NOT_STARTED],
    whose two progress values are 0 and whose upload mode defaults to
    [SINGLE_FILE]; afterwards [getWorkItem] returns that same item and a
    download returns the uploaded bytes and content type. *)
Theorem createWorkItem_then_read (u name type : string) (bytes : list byte)
    (mode : option string) (w : World) :
  Ddb.validKey u (createFileIdHash (name +:+ numberToString (clock w))) = true ->
  type <> "" ->
  exists fileId item,
    (createWorkItem config u name type bytes mode w).1 = Returned item
    /\ item !! "fileId" = Some (VStr fileId)
    /\ item !! "analysisStatus" = Some (VStr "NOT_STARTED")
    /\ item !! "analysisProgress" = Some (VNum 0)
    /\ item !! "iacGenerationStatus" = Some (VStr "NOT_STARTED")
    /\ item !! "iacGenerationProgress" = Some (VNum 0)
    /\ item !! "s3Prefix" = Some (VStr (storageRoot u fileId))
    /\ item !! "uploadMode" = Some (VStr (default SINGLE_FILE mode))
    /\ callsSince w (createWorkItem config u name type bytes mode w).2
       = [DdbPutItem item;
          S3Upload (originalContent (getS3Locations u fileId));
          S3Upload (metadata (getS3Locations u fileId))]
    /\ (getWorkItem config u fileId (createWorkItem config u name type bytes mode w).2).1
       = Returned item
    /\ (getOriginalContent config u fileId true
          (createWorkItem config u name type bytes mode w).2).1
       = Returned (CBuf bytes, type).
Proof.
  intros Hkey Htype. rewrite createWorkItem_run, Hkey. cbn [fst snd].
  destruct (createdWorkItem_fields u
              (createFileIdHash (name +:+ numberToString (clock w))) name type
              (toISOString (clock w)) (default SINGLE_FILE mode))
    as (_ & Hf & _ & _ & H1 & H2 & H3 & H4 & H5 & H6).
  do 2 eexists. split; [reflexivity|]. split_and!; try done.
  - by apply callsSince_app.
  - erewrite (getWorkItem_found config Henabled); [done | done |].
    cbn [items]. apply lookup_insert_eq.
  - erewrite (getOriginalContent_download config Henabled);
      [|done|cbn [items]; apply lookup_insert_eq
       |cbn [objects]; rewrite lookup_insert_ne;
        [apply lookup_insert_eq
        |unfold getS3Locations; cbn [metadata originalContent];
         by apply rooted_keys_differ]].
    cbn [Body ContentType]. by rewrite strOrElse_nonempty.
Qed.

(** X6. When the table rejects the key of the new record (an empty
    [userId] or [fileId]), [createWorkItem] fails with ['Failed to create
    work item'] after the rejected [PutItem] alone: nothing is uploaded and
    no record is written. *)
Theorem createWorkItem_rejected_writes_nothing (u name type : string)
    (bytes : list byte) (mode : option string) (w : World) :
  Ddb.validKey u (createFileIdHash (name +:+ numberToString (clock w))) = false ->
  (createWorkItem config u name type bytes mode w).1 = Thrown "Failed to create work item"
  /\ sameStores w (createWorkItem config u name type bytes mode w).2
  /\ exists item,
       callsSince w (createWorkItem config u name type bytes mode w).2 = [DdbPutItem item].
Proof.
  intros Hkey. rewrite createWorkItem_run, Hkey. cbn [fst snd].
  split; [done|]. split; [done|]. eexists. by apply callsSince_app.
Qed.

Lemma getOriginalContent_view_packed (u f : string) (item : Item) (o : S3Object)
    (w : World) :
  Ddb.validKey u f = true ->
  items w !! (u, f) = Some item ->
  isPackedMode item = true ->
  objects w !! packedContent (getS3Locations u f) = Some o ->
  (getOriginalContent config u f false w).1
  = Returned (CStr (utf8Decode (Body o)), "text/plain").
Proof.
  intros Hkey Hitem Hmode Ho. unfold getOriginalContent.
  rewrite Henabled; cbn [negb]; cbv zeta.
  unfold tryCatch at 1. unfold bind at 1.
  rewrite (getWorkItem_found config Henabled u f item w Hkey Hitem).
  rewrite Hmode; cbn [andb negb].
  unfold bind at 1. unfold tryCatch at 1. unfold bind at 1.
  by rewrite (getPackedContent_found config Henabled u f o).
Qed.

Lemma uploadedWorkItem_fields (u fid name type ts mode : string) (p : PackedProject.t) :
  let item := uploadedWorkItem u fid name type ts mode p in
  item !! "fileName" = Some (VStr name)
  /\ item !! "fileType" = Some (VStr type)
  /\ item !! "uploadMode" = Some (VStr mode)
  /\ item !! "analysisStatus" = Some (VStr "NOT_STARTED")
  /\ item !! "iacGenerationStatus" = Some (VStr "NOT_STARTED").
Proof. cbv zeta. split_and!; vm_compute; reflexivity. Qed.

(** What an upload leaves behind: the record, the archive and the packed
    text, each readable through the service. *)
Lemma uploaded_item_readable (u fid : string) (item : Item) (archive : list byte)
    (text : string) (w1 : World) :
  Ddb.validKey u fid = true ->
  utf8Decode (utf8Encode text) = text ->
  items w1 !! (u, fid) = Some item ->
  isPackedMode item = true ->
  let w3 :=
    (S3.upload (packedContent (getS3Locations u fid)) (utf8Encode text)
       (Some "text/plain")
       (S3.upload (originalContent (getS3Locations u fid)) archive
          (Some "application/zip") w1).2).2 in
  (getWorkItem config u fid w3).1 = Returned item
  /\ (getOriginalContent config u fid false w3).1 = Returned (CStr text, "text/plain")
  /\ (getOriginalContent config u fid true w3).1
     = Returned (CBuf archive, "application/zip").
Proof.
  intros Hkey Hutf Hitem Hmode w3.
  assert (Hitems : items w3 !! (u, fid) = Some item) by done.
  assert (Hpacked : objects w3 !! packedContent (getS3Locations u fid)
                    = Some {| Body := utf8Encode text; ContentType := Some "text/plain" |}).
  { subst w3. unfold S3.upload. cbn [snd objects setObjects record].
    apply lookup_insert_eq. }
  assert (Horiginal : objects w3 !! originalContent (getS3Locations u fid)
                      = Some {| Body := archive; ContentType := Some "application/zip" |}).
  { subst w3. unfold S3.upload. cbn [snd objects setObjects record].
    rewrite lookup_insert_ne; [apply lookup_insert_eq|].
    unfold getS3Locations; cbn [packedContent originalContent].
    by apply rooted_keys_differ. }
  split; [|split].
  - by rewrite (getWorkItem_found config Henabled u fid item w3 Hkey Hitems).
  - rewrite (getOriginalContent_view_packed u fid item _ w3 Hkey Hitems Hmode Hpacked).
    cbn [Body]. by rewrite Hutf.
  - by rewrite (getOriginalContent_download config Henabled u fid item _ w3 Hkey Hitems
                  Horiginal).
Qed.

(** X7. After [handleZipFile] on an archive that the packer accepts, the
    work item is readable in [ZIP_FILE] mode with the file name and the
    type [application/zip], the in-app read returns the packed text as
    [text/plain], and the download returns the uploaded archive, byte for
    byte, as [application/zip].  The record is written before the two
    uploads. *)
Theorem handleZipFile_then_read (u name : string) (bytes : list byte)
    (p : PackedProject.t) (w : World) :
  processZipFile bytes name = Returned p ->
  Ddb.validKey u (createFileIdHash (name +:+ numberToString (clock w))) = true ->
  utf8Decode (utf8Encode (PackedProject.packedContent p)) = PackedProject.packedContent p ->
  exists fileId item,
    (handleZipFile config u name bytes w).1
    = Returned (fileId, PackedProject.tokenCount p, PackedProject.exceedsTokenLimit p)
    /\ callsSince w (handleZipFile config u name bytes w).2
       = [DdbPutItem item;
          S3Upload (originalContent (getS3Locations u fileId));
          S3Upload (packedContent (getS3Locations u fileId))]
    /\ (getWorkItem config u fileId (handleZipFile config u name bytes w).2).1
       = Returned item
    /\ item !! "uploadMode" = Some (VStr ZIP_FILE)
    /\ item !! "fileName" = Some (VStr name)
    /\ item !! "fileType" = Some (VStr "application/zip")
    /\ (getOriginalContent config u fileId false (handleZipFile config u name bytes w).2).1
       = Returned (CStr (PackedProject.packedContent p), "text/plain")
    /\ (getOriginalContent config u fileId true (handleZipFile config u name bytes w).2).1
       = Returned (CBuf bytes, "application/zip").
Proof.
  intros Hp Hkey Hutf.
  rewrite (handleZipFile_run config u name bytes p w Hp), Hkey, Henabled.
  cbn [fst].
  set (fileId := createFileIdHash (name +:+ numberToString (clock w))) in *.
  set (item := uploadedWorkItem u fileId name "application/zip"
                 (toISOString (clock w)) ZIP_FILE p).
  destruct (uploadedWorkItem_fields u fileId name "application/zip"
              (toISOString (clock w)) ZIP_FILE p) as (Hn & Ht & Hm & _).
  fold item in Hn, Ht, Hm.
  exists fileId, item. split; [done|]. split.
  { apply callsSince_app. unfold S3.upload.
    cbn [snd calls setObjects setItems record]. by rewrite <- !app_assoc. }
  cbn [snd].
  destruct (uploaded_item_readable u fileId item bytes (PackedProject.packedContent p)
              (setItems (<[(u, fileId) := item]> (items w)) (record (DdbPutItem item) w)))
    as (Hg & Hv & Hd); [done | done | apply lookup_insert_eq | |].
  { apply isPackedMode_true. by right. }
  by split_and!.
Qed.

Lemma combinedFilename_cases (first : UploadedFile) (others : list UploadedFile) :
  combinedFilename first (first :: others)
  = match others with
    | [] => filename first
    | _ => filename first +:+ "_and_"
           +:+ numberToString (Z.of_nat (length others)) +:+ "_more_files"
    end.
Proof.
  unfold combinedFilename. destruct others as [|second others]; [done|].
  replace (Z.of_nat (length (first :: second :: others)) - 1)
    with (Z.of_nat (length (second :: others))) by (cbn [length]; lia).
  done.
Qed.

(** X8. After [handleMultipleFiles] on a non-empty file list that the
    packer accepts, the work item is readable in [MULTIPLE_FILES] mode
    under the name of the only file, or [first_and_n_more_files] for [n]
    further files; the in-app read returns the packed text, and the
    download returns the archive that the packer built from the files (not
    the files themselves) as [application/zip]. *)
Theorem handleMultipleFiles_then_read (u : string) (first : UploadedFile)
    (others : list UploadedFile) (zip : list byte) (p : PackedProject.t) (w : World) :
  createZipFromFiles (first :: others) = Returned zip ->
  processMultipleFiles (first :: others) = Returned p ->
  Ddb.validKey u (createFileIdHash (filename first +:+ numberToString (clock w))) = true ->
  utf8Decode (utf8Encode (PackedProject.packedContent p)) = PackedProject.packedContent p ->
  exists fileId item,
    (handleMultipleFiles config u (first :: others) w).1
    = Returned (fileId, PackedProject.tokenCount p, PackedProject.exceedsTokenLimit p)
    /\ (getWorkItem config u fileId (handleMultipleFiles config u (first :: others) w).2).1
       = Returned item
    /\ item !! "uploadMode" = Some (VStr MULTIPLE_FILES)
    /\ item !! "fileType" = Some (VStr "application/multiple-files")
    /\ item !! "fileName"
       = Some (VStr match others with
                    | [] => filename first
                    | _ => filename first +:+ "_and_"
                           +:+ numberToString (Z.of_nat (length others))
                           +:+ "_more_files"
                    end)
    /\ (getOriginalContent config u fileId false
          (handleMultipleFiles config u (first :: others) w).2).1
       = Returned (CStr (PackedProject.packedContent p), "text/plain")
    /\ (getOriginalContent config u fileId true
          (handleMultipleFiles config u (first :: others) w).2).1
       = Returned (CBuf zip, "application/zip").
Proof.
  intros Hz Hp Hkey Hutf.
  rewrite (handleMultipleFiles_run config u first others zip p w Hz Hp), Hkey, Henabled.
  cbn [fst].
  set (fileId := createFileIdHash (filename first +:+ numberToString (clock w))) in *.
  set (item := uploadedWorkItem u fileId (combinedFilename first (first :: others))
                 "application/multiple-files" (toISOString (clock w)) MULTIPLE_FILES p).
  destruct (uploadedWorkItem_fields u fileId (combinedFilename first (first :: others))
              "application/multiple-files" (toISOString (clock w)) MULTIPLE_FILES p)
    as (Hn & Ht & Hm & _).
  fold item in Hn, Ht, Hm. rewrite combinedFilename_cases in Hn.
  exists fileId, item. split; [done|]. cbn [snd].
  destruct (uploaded_item_readable u fileId item zip (PackedProject.packedContent p)
              (setItems (<[(u, fileId) := item]> (items w)) (record (DdbPutItem item) w)))
    as (Hg & Hv & Hd); [done | done | apply lookup_insert_eq | |].
  { apply isPackedMode_true. by left. }
  by split_and!.
Qed.

(** X9. [handleMultipleFiles] on an empty file list never reaches a store:
    whatever the packer answers, the call throws an error that starts with
    ['Failed to process multiple files: '] and leaves the world as it
    was. *)
Theorem handleMultipleFiles_empty_list_fails (u : string) (w : World) :
  (exists e, (handleMultipleFiles config u [] w).1
             = Thrown ("Failed to process multiple files: " +:+ e))
  /\ (handleMultipleFiles config u [] w).2 = w.
Proof.
  unfold handleMultipleFiles. unfold_monad.
  destruct (createZipFromFiles []) as [zip|e]; [|by eauto].
  destruct (processMultipleFiles []) as [p|e]; by eauto.
Qed.

(** X10. Without a metadata record [getOriginalContent] fails with
    ['Failed to get original content'] after the lookup of the record
    alone, in both modes: the bucket is not read, so content stored for a
    pair without record cannot be read back. *)
Theorem getOriginalContent_needs_record (u f : string) (forDownload : bool) (w : World) :
  items w !! (u, f) = None ->
  getOriginalContent config u f forDownload w
  = (Thrown "Failed to get original content", record (DdbGetItem u f) w).
Proof.
  intros Hnone. unfold getOriginalContent. rewrite Henabled; cbn [negb]; cbv zeta.
  unfold tryCatch at 1. unfold bind at 1.
  by rewrite (getWorkItem_missing config Henabled u f w Hnone).
Qed.

End RoundTrips.

(* ===================================================================== *)
(** * Listing, deleting and failing updates *)
(* ===================================================================== *)

Section Management.

Context {RT : Runtime} {FM : FileUploadMode} {PP : ProjectPacker}.
Variable config : StorageConfig.
Hypothesis Henabled : enabled config = true.

Lemma validId_validKey (u f : string) :
  validId u = true -> validId f = true -> Ddb.validKey u f = true.
Proof.
  intros Hu%validId_length Hf%validId_length. unfold Ddb.validKey.
  by destruct u, f.
Qed.

(** X11. For two distinct pairs of valid identifiers, [deleteWorkItem] on
    one pair leaves the record of the other pair and every object under
    the storage root of the other pair as they are; the deleted pair has
    no record afterwards, so [getWorkItem] on it fails. *)
Theorem deleteWorkItem_spares_other_items (u f u' f' : string) (w : World) :
  validId u = true -> validId f = true ->
  validId u' = true -> validId f' = true ->
  (u, f) <> (u', f') ->
  items (deleteWorkItem config u f w).2 !! (u', f') = items w !! (u', f')
  /\ (forall r, objects (deleteWorkItem config u f w).2 !! (storageRoot u' f' +:+ r)
                = objects w !! (storageRoot u' f' +:+ r))
  /\ (getWorkItem config u f (deleteWorkItem config u f w).2).1
     = Thrown "Failed to get work item".
Proof.
  intros Hu Hf Hu' Hf' Hne.
  rewrite (deleteWorkItem_run config Henabled u f w (validId_validKey u f Hu Hf)).
  cbn [snd items objects]. split; [|split].
  - by rewrite lookup_delete_ne.
  - intros r. apply lookup_foldr_delete_not_elem_of.
    intros Hin%subseteq_take. apply elem_of_keysUnder in Hin as [Hp _].
    assert (Hne' : (u', f') <> (u, f)) by congruence.
    rewrite (rooted_keys_apart 64 64 u' f' u f) in Hp;
      [done | by apply validId_length..| done].
  - rewrite (getWorkItem_missing config Henabled); [done|].
    cbn [items]. apply lookup_delete_eq.
Qed.

(** The prefix of the listing has no closing separator: for identifiers
    of other shapes the deletion of one item reaches into another. *)
Example deleteWorkItem_prefix_overreach :
  let w := {| objects := <["a/bc/original_content" :=
                             {| Body := []; ContentType := None |}]> ∅;
              items := ∅; clock := 0; calls := [] |} in
  objects (deleteWorkItem Example.on "a" "b" w).2 !! "a/bc/original_content" = None.
Proof. reflexivity. Qed.

Lemma elem_of_sortKeys (u f : string) (t : gmap (string * string) Item) :
  f ∈ Ddb.sortKeys u t <-> is_Some (t !! (u, f)).
Proof.
  unfold Ddb.sortKeys. rewrite merge_sort_Permutation, list_elem_of_fmap. split.
  - intros [[u0 f0] [-> [Heq Hin]%list_elem_of_filter]]. cbn in Heq. subst u0.
    apply list_elem_of_fmap in Hin as [[k x] [Heq Hin%elem_of_map_to_list]].
    cbn in Heq. subst k. cbn. eauto.
  - intros [x Hx]. exists (u, f). split; [done|].
    apply list_elem_of_filter. split; [done|].
    apply list_elem_of_fmap. exists ((u, f), x). split; [done|].
    by apply elem_of_map_to_list.
Qed.

Lemma elem_of_partition (u : string) (item : Item) (t : gmap (string * string) Item) :
  item ∈ Ddb.partition u t <-> exists f, t !! (u, f) = Some item.
Proof.
  unfold Ddb.partition. rewrite list_elem_of_omap. split.
  - intros (f & _ & Hf). eauto.
  - intros [f Hf]. exists f. split; [|done]. apply elem_of_sortKeys. eauto.
Qed.

Lemma takePage_prefix (size : Item -> N) (budget : N) (l : list Item) :
  Ddb.takePage size budget l `prefix_of` l.
Proof.
  revert budget. induction l as [|item l IH]; intros budget; cbn [Ddb.takePage].
  - done.
  - destruct (size item <=? budget)%N; [|apply prefix_nil].
    by apply prefix_cons.
Qed.

Lemma takePage_within (size : Item -> N) (budget : N) (l : list Item) :
  (Ddb.totalSize size (Ddb.takePage size budget l) <= budget)%N.
Proof.
  revert budget. induction l as [|item l IH]; intros budget; cbn [Ddb.takePage].
  - cbn. lia.
  - destruct (size item <=? budget)%N eqn:E; [|cbn; lia].
    apply N.leb_le in E. cbn [Ddb.totalSize foldr].
    specialize (IH (budget - size item)%N). unfold Ddb.totalSize in IH. lia.
Qed.

Lemma takePage_fits (size : Item -> N) (budget : N) (l : list Item) :
  (Ddb.totalSize size l <= budget)%N -> Ddb.takePage size budget l = l.
Proof.
  revert budget. induction l as [|item l IH]; intros budget; [done|].
  cbn [Ddb.totalSize foldr Ddb.takePage]. intros Hfit.
  assert (E : (size item <=? budget)%N = true) by (apply N.leb_le; lia).
  rewrite E. f_equal. apply IH. unfold Ddb.totalSize. lia.
Qed.

Lemma takePage_cut (size : Item -> N) (budget : N) (l : list Item) :
  (budget < Ddb.totalSize size l)%N ->
  (length (Ddb.takePage size budget l) < length l)%nat.
Proof.
  revert budget. induction l as [|item l IH]; intros budget.
  - cbn. lia.
  - cbn [Ddb.totalSize foldr Ddb.takePage]. intros Hcut.
    destruct (size item <=? budget)%N eqn:E; [|cbn; lia].
    apply N.leb_le in E. cbn [length].
    specialize (IH (budget - size item)%N). unfold Ddb.totalSize in IH. lia.
Qed.

(** X12. [listWorkItems] sends one query and returns its first page: a
    leading part, in [fileId] order, of the records stored under the given
    [userId], of at most 1 MB.  The listing holds every record of the user
    when they fit one page together, and lacks some when they do not,
    since the service does not ask for the pages that follow. *)
Theorem listWorkItems_returns_first_page (u : string) (w : World) :
  u <> "" ->
  exists l,
    listWorkItems config u w = (Returned l, record (DdbQuery u) w)
    /\ l `prefix_of` Ddb.partition u (items w)
    /\ (Ddb.totalSize itemSize l <= Ddb.pageBytes)%N
    /\ (forall item, item ∈ l -> exists f, items w !! (u, f) = Some item)
    /\ ((Ddb.totalSize itemSize (Ddb.partition u (items w)) <= Ddb.pageBytes)%N ->
        forall item, (exists f, items w !! (u, f) = Some item) -> item ∈ l)
    /\ ((Ddb.pageBytes < Ddb.totalSize itemSize (Ddb.partition u (items w)))%N ->
        (length l < length (Ddb.partition u (items w)))%nat).
Proof.
  intros Hu. unfold listWorkItems. rewrite Henabled; cbn [negb].
  unfold tryCatch, Ddb.query.
  destruct (String.eqb u "") eqn:E; [by apply String.eqb_eq in E|].
  eexists. split; [reflexivity|].
  split; [apply takePage_prefix|]. split; [apply takePage_within|].
  split; [|split].
  - intros item Hin. apply elem_of_partition.
    destruct (takePage_prefix itemSize Ddb.pageBytes (Ddb.partition u (items w)))
      as [rest Hrest].
    rewrite Hrest. apply elem_of_app. by left.
  - intros Hfit item Hitem. rewrite takePage_fits by done.
    by apply elem_of_partition.
  - apply takePage_cut.
Qed.

(** X13. An [updateWorkItem] that throws has changed nothing: whatever the
    partial work item holds, a failure is ['Failed to update work item']
    and leaves the table and the bucket as they were. *)
Theorem updateWorkItem_failure_changes_nothing (u f : string)
    (updates : list (string * option JsVal)) (e : string) (w : World) :
  (updateWorkItem config u f updates w).1 = Thrown e ->
  e = "Failed to update work item"
  /\ sameStores w (updateWorkItem config u f updates w).2.
Proof.
  unfold updateWorkItem. rewrite Henabled; cbn [negb].
  destruct (foldl updateStep _ updates) as [[ex names] values].
  unfold_monad. destruct (marshall values) as [marshalled|]; [|cbn; by intros [= <-]].
  unfold Ddb.updateItem.
  destruct (Ddb.validKey u f).
  - destruct (Ddb.assignments _ names marshalled); cbn; [done|].
    by intros [= <-].
  - cbn. by intros [= <-].
Qed.

End Management.

(* ===================================================================== *)
(** * Supporting documents *)
(* ===================================================================== *)

Section SupportingDocuments.

Context {RT : Runtime} {FM : FileUploadMode} {PP : ProjectPacker}.
Variable config : StorageConfig.
Hypothesis Henabled : enabled config = true.

(** The record after the six assignments of a link. *)
Lemma linked_record_fields (id name type desc ts : string) (old : Item) :
  let new :=
    Ddb.applyAssignments
      [("supportingDocumentId", VStr id);
       ("supportingDocumentAdded", VBool true);
       ("supportingDocumentDescription", VStr desc);
       ("supportingDocumentName", VStr name);
       ("supportingDocumentType", VStr type);
       ("lastModified", VStr ts)] old in
  new !! "supportingDocumentId" = Some (VStr id)
  /\ new !! "supportingDocumentAdded" = Some (VBool true)
  /\ new !! "supportingDocumentDescription" = Some (VStr desc)
  /\ new !! "supportingDocumentName" = Some (VStr name)
  /\ new !! "supportingDocumentType" = Some (VStr type)
  /\ new !! "lastModified" = Some (VStr ts)
  /\ (forall k,
        k ∉ ["supportingDocumentId"; "supportingDocumentAdded";
             "supportingDocumentDescription"; "supportingDocumentName";
             "supportingDocumentType"; "lastModified"] ->
        new !! k = old !! k).
Proof.
  cbv zeta. unfold Ddb.applyAssignments. cbn [foldl fst snd].
  split_and!; try by simplify_map_eq.
  intros k Hk. rewrite !not_elem_of_cons in Hk.
  destruct Hk as (? & ? & ? & ? & ? & ? & _).
  by rewrite !lookup_insert_ne.
Qed.

Lemma linkSupportingDocumentToWorkItem_run (u f id name type desc : string) (w : World) :
  Ddb.validKey u f = true ->
  exists call,
    linkSupportingDocumentToWorkItem config u f id name type desc w
    = (Returned
         (Ddb.applyAssignments
            [("supportingDocumentId", VStr id);
             ("supportingDocumentAdded", VBool true);
             ("supportingDocumentDescription", VStr desc);
             ("supportingDocumentName", VStr name);
             ("supportingDocumentType", VStr type);
             ("lastModified", VStr (toISOString (clock w)))]
            (default (Ddb.keyItem u f) (items w !! (u, f)))),
       setItems
         (<[(u, f) :=
              Ddb.applyAssignments
                [("supportingDocumentId", VStr id);
                 ("supportingDocumentAdded", VBool true);
                 ("supportingDocumentDescription", VStr desc);
                 ("supportingDocumentName", VStr name);
                 ("supportingDocumentType", VStr type);
                 ("lastModified", VStr (toISOString (clock w)))]
                (default (Ddb.keyItem u f) (items w !! (u, f)))]> (items w))
         (record call w)).
Proof.
  intros Hkey. unfold linkSupportingDocumentToWorkItem.
  rewrite Henabled; cbn [negb]. unfold bind at 1. unfold Date_now at 1.
  rewrite (updateWorkItem_run config Henabled u f _ w Hkey).
  - eexists. reflexivity.
  - apply (bool_decide_unpack _). vm_compute. exact I.
  - cbn. repeat constructor.
  - cbn. repeat constructor.
  - discriminate.
Qed.

(** X14. [linkSupportingDocumentToWorkItem] on an existing record sets the
    five link fields and sets [lastModified] to the time of the call,
    keeps every other attribute of the record and leaves the bucket alone.
    The link is single: an id that is not the new one, such as the id
    linked before, is refused by [getSupportingDocument] afterwards
    without any read of the bucket, although its blob is still stored. *)
Theorem linkSupportingDocumentToWorkItem_supersedes (u f id name type desc : string)
    (old : Item) (w : World) :
  Ddb.validKey u f = true ->
  items w !! (u, f) = Some old ->
  exists new,
    (linkSupportingDocumentToWorkItem config u f id name type desc w).1 = Returned new
    /\ items (linkSupportingDocumentToWorkItem config u f id name type desc w).2 !! (u, f)
       = Some new
    /\ new !! "supportingDocumentId" = Some (VStr id)
    /\ new !! "supportingDocumentAdded" = Some (VBool true)
    /\ new !! "supportingDocumentName" = Some (VStr name)
    /\ new !! "supportingDocumentType" = Some (VStr type)
    /\ new !! "supportingDocumentDescription" = Some (VStr desc)
    /\ new !! "lastModified" = Some (VStr (toISOString (clock w)))
    /\ (forall k,
          k ∉ ["supportingDocumentId"; "supportingDocumentAdded";
               "supportingDocumentDescription"; "supportingDocumentName";
               "supportingDocumentType"; "lastModified"] ->
          new !! k = old !! k)
    /\ objects (linkSupportingDocumentToWorkItem config u f id name type desc w).2
       = objects w
    /\ (forall other,
          other <> id ->
          callsSince (linkSupportingDocumentToWorkItem config u f id name type desc w).2
            (getSupportingDocument config u f other
               (linkSupportingDocumentToWorkItem config u f id name type desc w).2).2
          = [DdbGetItem u f]
          /\ (getSupportingDocument config u f other
                (linkSupportingDocumentToWorkItem config u f id name type desc w).2).1
             = Thrown "Failed to get supporting document").
Proof.
  intros Hkey Hold.
  destruct (linkSupportingDocumentToWorkItem_run u f id name type desc w Hkey)
    as [call ->].
  rewrite Hold. change (default (Ddb.keyItem u f) (Some old)) with old.
  cbn [fst snd].
  destruct (linked_record_fields id name type desc (toISOString (clock w)) old)
    as (H1 & H2 & H3 & H4 & H5 & H6 & Hframe).
  eexists. split; [reflexivity|].
  split; [cbn [items setItems]; apply lookup_insert_eq|].
  split_and!; try done.
  intros other Hother.
  unfold getSupportingDocument. rewrite Henabled; cbn [negb]. unfold tryCatch.
  destruct (String.eqb id "") eqn:Hid.
  - erewrite (getSupportingDocumentBody_unlinked config Henabled u f other);
      [| done | cbn [items setItems]; apply lookup_insert_eq | ].
    + split; [by apply callsSince_app | done].
    + left. rewrite H1. cbn. by rewrite Hid.
  - erewrite (getSupportingDocumentBody_mismatch config Henabled u f other);
      [| done | cbn [items setItems]; apply lookup_insert_eq | | | ].
    + split; [by apply callsSince_app | done].
    + rewrite H1. cbn. by rewrite Hid.
    + by rewrite H2.
    + rewrite H1. congruence.
Qed.

Lemma storeSupportingDocument_run (u f name type : string) (bytes : list byte)
    (desc : string) (w : World) :
  Ddb.validKey u f = true ->
  let docId :=
    createFileIdHash ("supporting_" +:+ f +:+ "_" +:+ name +:+ "_"
                      +:+ numberToString (clock w)) in
  let docKey := supportingDocKey u f docId in
  exists sidecar call,
    storeSupportingDocument config u f name type bytes desc w
    = (Returned docId,
       {| objects :=
            <[docKey +:+ "_metadata.json" := sidecar]>
              (<[docKey := {| Body := bytes; ContentType := Some type |}]> (objects w));
          items :=
            <[(u, f) :=
                Ddb.applyAssignments
                  [("supportingDocumentId", VStr docId);
                   ("supportingDocumentAdded", VBool true);
                   ("supportingDocumentDescription", VStr desc);
                   ("supportingDocumentName", VStr name);
                   ("supportingDocumentType", VStr type);
                   ("lastModified", VStr (toISOString (clock w)))]
                  (default (Ddb.keyItem u f) (items w !! (u, f)))]> (items w);
          clock := clock w;
          calls := calls w ++ [S3Upload docKey; S3Upload (docKey +:+ "_metadata.json");
                               call] |}).
Proof.
  intros Hkey docId docKey. unfold storeSupportingDocument.
  rewrite Henabled; cbn [negb]. unfold bind at 1. unfold Date_now at 1.
  unfold bind at 1. unfold Date_now at 1. cbv zeta. fold docId. fold docKey.
  unfold tryCatch. unfold bind at 1. unfold S3.upload at 1.
  unfold bind at 1. unfold S3.upload at 1. unfold bind at 1.
  match goal with
  | |- context [linkSupportingDocumentToWorkItem config u f ?a ?b ?c ?d ?w2] =>
      destruct (linkSupportingDocumentToWorkItem_run u f a b c d w2 Hkey)
        as [call Hlink]; rewrite Hlink
  end.
  do 2 eexists. unfold ret, setItems, setObjects, record; cbn.
  by rewrite <- !app_assoc.
Qed.

(** X15. [storeSupportingDocument] stores the blob and its metadata
    sidecar under the root of the main item and links the new id, creating
    the record of the main item when there is none; afterwards
    [getSupportingDocument] with the returned id returns the stored bytes,
    the stored content type and the file name (the defaults
    [application/octet-stream] and [supporting-document] stand in for an
    empty type or name). *)
Theorem storeSupportingDocument_then_get (u f name type : string) (bytes : list byte)
    (desc : string) (w : World) :
  Ddb.validKey u f = true ->
  createFileIdHash ("supporting_" +:+ f +:+ "_" +:+ name +:+ "_"
                    +:+ numberToString (clock w)) <> "" ->
  exists docId item,
    (storeSupportingDocument config u f name type bytes desc w).1 = Returned docId
    /\ (getWorkItem config u f
          (storeSupportingDocument config u f name type bytes desc w).2).1
       = Returned item
    /\ item !! "supportingDocumentAdded" = Some (VBool true)
    /\ item !! "supportingDocumentId" = Some (VStr docId)
    /\ objects (storeSupportingDocument config u f name type bytes desc w).2
         !! supportingDocKey u f docId
       = Some {| Body := bytes; ContentType := Some type |}
    /\ is_Some (objects (storeSupportingDocument config u f name type bytes desc w).2
                  !! (supportingDocKey u f docId +:+ "_metadata.json"))
    /\ (getSupportingDocument config u f docId
          (storeSupportingDocument config u f name type bytes desc w).2).1
       = Returned (bytes,
                   strOrElse (Some type) "application/octet-stream",
                   orElse (Some (VStr name)) (VStr "supporting-document")).
Proof.
  intros Hkey Hid.
  destruct (storeSupportingDocument_run u f name type bytes desc w Hkey)
    as (sidecar & call & ->).
  set (docId := createFileIdHash _) in *.
  destruct (linked_record_fields docId name type desc (toISOString (clock w))
              (default (Ddb.keyItem u f) (items w !! (u, f))))
    as (H1 & H2 & _ & H4 & _).
  set (new := Ddb.applyAssignments _ _) in *.
  cbn [fst snd].
  set (w' := {| objects := _ |}).
  assert (Hitems : items w' !! (u, f) = Some new) by apply lookup_insert_eq.
  assert (Hblob : objects w' !! supportingDocKey u f docId
                  = Some {| Body := bytes; ContentType := Some type |}).
  { cbn [objects w']. rewrite lookup_insert_ne; [apply lookup_insert_eq|].
    intros Heq. symmetry in Heq. by apply extended_key_differs in Heq. }
  exists docId, new. split; [done|].
  split; [by rewrite (getWorkItem_found config Henabled u f new w' Hkey Hitems)|].
  split; [done|]. split; [done|]. split; [done|].
  split; [cbn [objects w']; rewrite lookup_insert_eq; eauto|].
  unfold getSupportingDocument. rewrite Henabled; cbn [negb].
  unfold tryCatch, getSupportingDocumentBody. unfold bind at 1.
  rewrite (getWorkItem_found config Henabled u f new w' Hkey Hitems).
  rewrite H1, H2, H4.
  assert (Htruthy : truthy (Some (VStr docId)) = true).
  { cbn. destruct (String.eqb docId "") eqn:E; [by apply String.eqb_eq in E | done]. }
  rewrite Htruthy; cbn [truthy negb orb].
  rewrite bool_decide_eq_true_2 by done; cbn [negb].
  unfold bind, S3.getObject. cbn [objects record]. by rewrite Hblob.
Qed.

End SupportingDocuments.

(* ===================================================================== *)
(** * Generated templates *)
(* ===================================================================== *)

Section Templates.

Context {RT : Runtime} {FM : FileUploadMode} {PP : ProjectPacker}.
Variable config : StorageConfig.
Hypothesis Henabled : enabled config = true.

Lemma templateKeys_differ (root e1 e2 : string) :
  e1 <> e2 -> root +:+ "." +:+ e1 <> root +:+ "." +:+ e2.
Proof.
  intros Hne Heq. apply (inj (String.app root)) in Heq.
  by apply (inj (String.app ".")) in Heq.
Qed.

Lemma getIaCDocument_reads (u f ext : string) (item : option Item) (used : string)
    (w : World) :
  match item with
  | Some it =>
      if truthy (it !! "iacGeneratedFileType")
      then exists t, it !! "iacGeneratedFileType" = Some (VStr t)
                     /\ used = getExtensionFromTemplateType t
      else used = ext
  | None => used = ext
  end ->
  (getIaCDocument config u f ext item w).1
  = match objects w !! (iacDocument (getS3Locations u f) +:+ "." +:+ used) with
    | Some o => Returned (utf8Decode (Body o))
    | None => Thrown "Failed to get IaC document"
    end.
Proof.
  intros Hused. unfold getIaCDocument. rewrite Henabled; cbn [negb]; cbv zeta.
  unfold tryCatch. unfold bind at 1.
  assert (Hext :
    match item with
    | Some it =>
        if truthy (it !! "iacGeneratedFileType")
        then match it !! "iacGeneratedFileType" with
             | Some (VStr t) => ret (getExtensionFromTemplateType t)
             | _ => throw "templateType.includes is not a function"
             end
        else ret ext
    | None => ret ext
    end w = (Returned used, w)).
  { destruct item as [it|]; [|by subst].
    destruct (truthy (it !! "iacGeneratedFileType")); [|by subst].
    destruct Hused as (t & -> & ->). done. }
  rewrite Hext. unfold bind, S3.getObject, ret.
  by destruct (objects w !! _).
Qed.

(** X16. A template stored by [storeIaCDocument] without template type
    (absent or empty) is returned by [getIaCDocument] under the same
    extension, also when a work item without generated-file type is passed;
    the store writes no record. *)
Theorem storeIaCDocument_then_get_by_extension (u f text ext : string)
    (type : option string) (w : World) :
  type = None \/ type = Some "" ->
  utf8Decode (utf8Encode text) = text ->
  (storeIaCDocument config u f text ext type w).1 = Returned tt
  /\ items (storeIaCDocument config u f text ext type w).2 = items w
  /\ (getIaCDocument config u f ext None
        (storeIaCDocument config u f text ext type w).2).1 = Returned text
  /\ (forall item,
        truthy (item !! "iacGeneratedFileType") = false ->
        (getIaCDocument config u f ext (Some item)
           (storeIaCDocument config u f text ext type w).2).1 = Returned text).
Proof.
  intros Htype Hutf.
  assert (Hrun : storeIaCDocument config u f text ext type w
                 = (Returned tt,
                    (S3.upload (iacDocument (getS3Locations u f) +:+ "." +:+ ext)
                       (utf8Encode text) None w).2)).
  { unfold storeIaCDocument. rewrite Henabled; cbn [negb]; cbv zeta.
    unfold_monad. unfold S3.upload. by destruct Htype as [-> | ->]. }
  rewrite Hrun. cbn [fst snd]. split; [done|]. split; [done|].
  split; [|intros item Hfalsy].
  - rewrite (getIaCDocument_reads u f ext None ext) by done.
    unfold S3.upload. cbn [snd objects setObjects record].
    rewrite lookup_insert_eq. cbn [Body]. by rewrite Hutf.
  - rewrite (getIaCDocument_reads u f ext (Some item) ext) by (by rewrite Hfalsy).
    unfold S3.upload. cbn [snd objects setObjects record].
    rewrite lookup_insert_eq. cbn [Body]. by rewrite Hutf.
Qed.

(** X17. [storeIaCDocument] with a template type records the type on the
    work item.  [getIaCDocument] with that work item ignores the extension
    it is given and reads under the extension derived from the recorded
    type ([yaml], [json] or [tf]): the template comes back when the
    derived extension is the one it was stored under, and the read fails
    with ['Failed to get IaC document'] when it is not and nothing is
    stored under the derived extension. *)
Theorem storeIaCDocument_then_get_by_type (u f text ext t : string) (w : World) :
  Ddb.validKey u f = true ->
  t <> "" ->
  utf8Decode (utf8Encode text) = text ->
  exists item,
    (storeIaCDocument config u f text ext (Some t) w).1 = Returned tt
    /\ (getWorkItem config u f (storeIaCDocument config u f text ext (Some t) w).2).1
       = Returned item
    /\ item !! "iacGeneratedFileType" = Some (VStr t)
    /\ (forall passed,
          getExtensionFromTemplateType t = ext ->
          (getIaCDocument config u f passed (Some item)
             (storeIaCDocument config u f text ext (Some t) w).2).1 = Returned text)
    /\ (forall passed,
          getExtensionFromTemplateType t <> ext ->
          objects w !! (iacDocument (getS3Locations u f) +:+ "."
                        +:+ getExtensionFromTemplateType t) = None ->
          (getIaCDocument config u f passed (Some item)
             (storeIaCDocument config u f text ext (Some t) w).2).1
          = Thrown "Failed to get IaC document").
Proof.
  intros Hkey Ht Hutf.
  assert (Hempty : String.eqb t "" = false).
  { destruct (String.eqb t "") eqn:E; [by apply String.eqb_eq in E | done]. }
  set (w1 := (S3.upload (iacDocument (getS3Locations u f) +:+ "." +:+ ext)
                (utf8Encode text) None w).2).
  set (new := Ddb.applyAssignments
                [("iacGeneratedFileType", VStr t);
                 ("lastModified", VStr (toISOString (clock w)))]
                (default (Ddb.keyItem u f) (items w !! (u, f)))).
  assert (Hrun : exists call,
            storeIaCDocument config u f text ext (Some t) w
            = (Returned tt, setItems (<[(u, f) := new]> (items w)) (record call w1))).
  { unfold storeIaCDocument. rewrite Henabled; cbn [negb]; cbv zeta.
    unfold tryCatch. unfold bind at 1. unfold S3.upload at 1. rewrite Hempty.
    unfold bind at 1. unfold Date_now at 1. unfold bind at 1.
    rewrite (updateWorkItem_run config Henabled u f _ _ Hkey);
      [| apply (bool_decide_unpack _); vm_compute; exact I
       | cbn; repeat constructor
       | cbn; repeat constructor
       | discriminate].
    eexists. reflexivity. }
  destruct Hrun as [call ->]. cbn [fst snd].
  assert (Htype : new !! "iacGeneratedFileType" = Some (VStr t)).
  { subst new. unfold Ddb.applyAssignments. cbn [foldl fst snd]. by simplify_map_eq. }
  assert (Hitems : items (setItems (<[(u, f) := new]> (items w)) (record call w1))
                     !! (u, f) = Some new) by apply lookup_insert_eq.
  assert (Htruthy : truthy (new !! "iacGeneratedFileType") = true).
  { rewrite Htype. cbn. by rewrite Hempty. }
  exists new. split; [done|].
  split; [by rewrite (getWorkItem_found config Henabled u f new _ Hkey Hitems)|].
  split; [done|]. split.
  - intros passed Hext.
    rewrite (getIaCDocument_reads u f passed (Some new) ext)
      by (rewrite Htruthy; eauto).
    subst w1. unfold S3.upload. cbn [snd objects setObjects setItems record].
    rewrite lookup_insert_eq. cbn [Body]. by rewrite Hutf.
  - intros passed Hext Hnone.
    rewrite (getIaCDocument_reads u f passed (Some new) (getExtensionFromTemplateType t))
      by (rewrite Htruthy; eauto).
    subst w1. unfold S3.upload. cbn [snd objects setObjects setItems record].
    rewrite lookup_insert_ne by (apply templateKeys_differ; congruence).
    by rewrite Hnone.
Qed.

(** X20. Given a work item with a recorded template type,
    [getIaCDocument] sends exactly one request, a [GetObject] for the
    template key under one of the extensions [yaml], [json] and [tf],
    whatever extension the caller passes. *)
Theorem getIaCDocument_typed_reads_known_extension (u f passed t : string)
    (item : Item) (w : World) :
  item !! "iacGeneratedFileType" = Some (VStr t) ->
  t <> "" ->
  exists ext,
    (ext = "yaml" \/ ext = "json" \/ ext = "tf")
    /\ callsSince w (getIaCDocument config u f passed (Some item) w).2
       = [S3GetObject (iacDocument (getS3Locations u f) +:+ "." +:+ ext)].
Proof.
  intros Htype Ht.
  assert (Hempty : String.eqb t "" = false).
  { destruct (String.eqb t "") eqn:E; [by apply String.eqb_eq in E | done]. }
  exists (getExtensionFromTemplateType t). split.
  - unfold getExtensionFromTemplateType.
    destruct (includes t "yaml"); [by left|].
    destruct (includes t "json"); [by right; left | by right; right].
  - apply callsSince_app.
    unfold getIaCDocument. rewrite Henabled; cbn [negb]; cbv zeta.
    rewrite Htype. cbn [truthy]. rewrite Hempty. cbn [negb].
    unfold tryCatch, bind, ret, S3.getObject, throw.
    by destruct (objects w !! _).
Qed.

End Templates.

(* ===================================================================== *)
(** * Images shown in the application *)
(* ===================================================================== *)

Section DataUri.

Context {RT : Runtime} {FM : FileUploadMode} {PP : ProjectPacker}.
Variable config : StorageConfig.
Hypothesis Henabled : enabled config = true.

Lemma prefix_marker_head (c : ascii) (s : string) :
  Ascii.eqb c ";" = false -> String.prefix ";base64," (String c s) = false.
Proof.
  intros Hc. cbn [String.prefix].
  destruct (ascii_dec ";" c) as [<-|]; [|done].
  by rewrite Ascii.eqb_refl in Hc.
Qed.

Lemma find_sub_noSemicolon (s : string) :
  noSemicolon s = true -> Js.find_sub ";base64," s = None.
Proof.
  unfold noSemicolon. induction s as [|c s IH]; [done|].
  cbn [allChars]. intros [Hc Hs]%andb_prop. apply negb_true_iff in Hc.
  cbn [Js.find_sub]. rewrite (prefix_marker_head c s Hc).
  by rewrite (IH Hs).
Qed.

Lemma prefix_app_self (p s : string) : String.prefix p (p +:+ s) = true.
Proof.
  induction p as [|c p IH]; [by destruct s|].
  rewrite app_cons_s. cbn [String.prefix].
  by destruct (ascii_dec c c).
Qed.

Lemma drop_app_self (p s : string) : Js.drop (String.length p) (p +:+ s) = s.
Proof.
  induction p as [|c p IH]; [by destruct s|].
  by rewrite app_cons_s.
Qed.

Lemma find_sub_marker (a b : string) :
  noSemicolon a = true ->
  Js.find_sub ";base64," (a +:+ ";base64," +:+ b) = Some (a, b).
Proof.
  unfold noSemicolon. induction a as [|c a IH].
  - intros _. rewrite app_nil_s.
    destruct (";base64," +:+ b) as [|x rest] eqn:E; [done|].
    cbn [Js.find_sub]. rewrite <- E, prefix_app_self.
    by rewrite drop_app_self.
  - cbn [allChars]. intros [Hc Ha]%andb_prop. apply negb_true_iff in Hc.
    rewrite app_cons_s. cbn [Js.find_sub].
    rewrite (prefix_marker_head c _ Hc). by rewrite (IH Ha).
Qed.

Lemma base64Payload_dataUri (head b64 : string) :
  noSemicolon head = true -> noSemicolon b64 = true -> b64 <> "" ->
  base64Payload (head +:+ ";base64," +:+ b64) = b64.
Proof.
  intros Hhead Hb64 Hne. unfold base64Payload, Js.split_at1.
  rewrite (find_sub_marker head b64 Hhead), (find_sub_noSemicolon b64 Hb64).
  destruct (String.eqb b64 "") eqn:E; [by apply String.eqb_eq in E | done].
Qed.

Lemma noSemicolon_app (a b : string) :
  noSemicolon (a +:+ b) = noSemicolon a && noSemicolon b.
Proof.
  unfold noSemicolon. induction a as [|c a IH]; [done|].
  rewrite app_cons_s. cbn [allChars]. by rewrite IH, andb_assoc.
Qed.

(** X18. An image handed to [storeOriginalContent] as a data URI
    [data:{type};base64,{payload}] is shown again by [getOriginalContent]
    (in-app view, content served from the original object) as the same data
    URI with the same content type, provided the type and the payload hold
    no [;], the payload is not empty and is a canonical base64 text. *)
Theorem storeOriginalContent_dataUri_round_trip (u f type b64 : string) (item : Item)
    (w : World) :
  Ddb.validKey u f = true ->
  items w !! (u, f) = Some item ->
  isPackedMode item = false ->
  Js.startsWith type "image/" = true ->
  noSemicolon type = true ->
  noSemicolon b64 = true ->
  b64 <> "" ->
  base64Encode (base64Decode b64) = b64 ->
  (getOriginalContent config u f false
     (storeOriginalContent config u f
        (CStr ("data:" +:+ type +:+ ";base64," +:+ b64)) type w).2).1
  = Returned (CStr ("data:" +:+ type +:+ ";base64," +:+ b64), type).
Proof.
  intros Hkey Hitem Hmode Himage Htype Hb64 Hne Hcanon.
  rewrite (storeOriginalContent_run config Henabled). cbn [snd].
  rewrite Himage.
  assert (Hpayload : base64Payload ("data:" +:+ type +:+ ";base64," +:+ b64) = b64).
  { rewrite <- app_assoc_s.
    apply base64Payload_dataUri; [|done..].
    by rewrite noSemicolon_app, Htype. }
  rewrite Hpayload.
  erewrite (getOriginalContent_view_original config Henabled u f item);
    [| done | done | by left | apply lookup_insert_eq].
  unfold shapeOriginal. cbn [ContentType Body].
  assert (Hnonempty : type <> "") by (by intros ->).
  rewrite (strOrElse_nonempty type _ Hnonempty), Himage, Hcanon.
  done.
Qed.

End DataUri.

(* ===================================================================== *)
(** * Closed instances of the store properties *)
(* ===================================================================== *)

Section StoreInstances.

Import Example.
#[local] Existing Instance runtime.
#[local] Existing Instance modes.
#[local] Existing Instance parts.
#[local] Existing Instance packer.

(** What X1 excludes does happen with [deleteWorkItem]. *)
Example deleteWorkItem_removes :
  is_Some (items zipWorld !! (user, file))
  /\ items (deleteWorkItem on user file zipWorld).2 !! (user, file) = None
  /\ is_Some (objects zipWorld !! originalKey)
  /\ objects (deleteWorkItem on user file zipWorld).2 !! originalKey = None.
Proof. split_and!; [by eexists | reflexivity | by eexists | reflexivity]. Qed.

Lemma storePackedContent_then_getPackedContent_witness :
  utf8Decode (utf8Encode "a.tf:hello") = "a.tf:hello"
  /\ (storePackedContent on user file "a.tf:hello" emptyWorld).1 = Returned tt
  /\ (getPackedContent on user file
        (storePackedContent on user file "a.tf:hello" emptyWorld).2).1
     = Returned "a.tf:hello"
  /\ items (storePackedContent on user file "a.tf:hello" emptyWorld).2 = items emptyWorld
  /\ (forall k, k <> packedContent (getS3Locations user file) ->
        objects (storePackedContent on user file "a.tf:hello" emptyWorld).2 !! k
        = objects emptyWorld !! k)
  /\ (objects emptyWorld !! packedContent (getS3Locations user file) = None ->
      (getPackedContent on user file emptyWorld).1 = Thrown "Failed to get packed content").
Proof.
  split; [reflexivity|].
  apply (storePackedContent_then_getPackedContent on eq_refl user file "a.tf:hello"
           emptyWorld).
  reflexivity.
Defined.

Lemma storeAnalysisResults_then_getAnalysisResults_witness :
  parse (utf8Decode (utf8Encode (stringify noFindings))) = Returned noFindings
  /\ (getAnalysisResults on user file
        (storeAnalysisResults on user file noFindings emptyWorld).2).1
     = Returned noFindings
  /\ (objects emptyWorld !! analysisResults (getS3Locations user file) = None ->
      (getAnalysisResults on user file emptyWorld).1
      = Thrown "Failed to get analysis results")
  /\ (forall o e,
        objects emptyWorld !! analysisResults (getS3Locations user file) = Some o ->
        parse (utf8Decode (Body o)) = Thrown e ->
        (getAnalysisResults on user file emptyWorld).1
        = Thrown "Failed to get analysis results").
Proof.
  split; [reflexivity|].
  apply (storeAnalysisResults_then_getAnalysisResults on eq_refl user file
           noFindings emptyWorld).
  reflexivity.
Defined.

Lemma createWorkItem_then_read_witness :
  Ddb.validKey user (createFileIdHash ("main.tf" +:+ numberToString (clock emptyWorld)))
  = true
  /\ "text/plain" <> ""
  /\ exists fileId item,
       (createWorkItem on user "main.tf" "text/plain" (list_byte_of_string "hello")
          None emptyWorld).1 = Returned item
       /\ item !! "fileId" = Some (VStr fileId)
       /\ item !! "analysisStatus" = Some (VStr "NOT_STARTED")
       /\ item !! "analysisProgress" = Some (VNum 0)
       /\ item !! "iacGenerationStatus" = Some (VStr "NOT_STARTED")
       /\ item !! "iacGenerationProgress" = Some (VNum 0)
       /\ item !! "s3Prefix" = Some (VStr (storageRoot user fileId))
       /\ item !! "uploadMode" = Some (VStr (default SINGLE_FILE None))
       /\ callsSince emptyWorld
            (createWorkItem on user "main.tf" "text/plain" (list_byte_of_string "hello")
               None emptyWorld).2
          = [DdbPutItem item;
             S3Upload (originalContent (getS3Locations user fileId));
             S3Upload (metadata (getS3Locations user fileId))]
       /\ (getWorkItem on user fileId
             (createWorkItem on user "main.tf" "text/plain" (list_byte_of_string "hello")
                None emptyWorld).2).1
          = Returned item
       /\ (getOriginalContent on user fileId true
             (createWorkItem on user "main.tf" "text/plain" (list_byte_of_string "hello")
                None emptyWorld).2).1
          = Returned (CBuf (list_byte_of_string "hello"), "text/plain").
Proof.
  split; [reflexivity|]. split; [discriminate|].
  apply (createWorkItem_then_read on eq_refl user "main.tf" "text/plain"
           (list_byte_of_string "hello") None emptyWorld);
    [reflexivity | discriminate].
Defined.

Lemma createWorkItem_rejected_writes_nothing_witness :
  Ddb.validKey "" (createFileIdHash ("main.tf" +:+ numberToString (clock emptyWorld)))
  = false
  /\ (createWorkItem on "" "main.tf" "text/plain" (list_byte_of_string "hello")
        None emptyWorld).1 = Thrown "Failed to create work item"
  /\ sameStores emptyWorld
       (createWorkItem on "" "main.tf" "text/plain" (list_byte_of_string "hello")
          None emptyWorld).2
  /\ exists item,
       callsSince emptyWorld
         (createWorkItem on "" "main.tf" "text/plain" (list_byte_of_string "hello")
            None emptyWorld).2 = [DdbPutItem item].
Proof.
  split; [reflexivity|].
  apply (createWorkItem_rejected_writes_nothing on eq_refl "" "main.tf" "text/plain"
           (list_byte_of_string "hello") None emptyWorld).
  reflexivity.
Defined.

Lemma handleZipFile_then_read_witness :
  processZipFile (list_byte_of_string "hello") "a.zip" = Returned helloPacked
  /\ Ddb.validKey user (createFileIdHash ("a.zip" +:+ numberToString (clock emptyWorld)))
     = true
  /\ utf8Decode (utf8Encode (PackedProject.packedContent helloPacked))
     = PackedProject.packedContent helloPacked
  /\ exists fileId item,
       (handleZipFile on user "a.zip" (list_byte_of_string "hello") emptyWorld).1
       = Returned (fileId, PackedProject.tokenCount helloPacked,
                   PackedProject.exceedsTokenLimit helloPacked)
       /\ callsSince emptyWorld
            (handleZipFile on user "a.zip" (list_byte_of_string "hello") emptyWorld).2
          = [DdbPutItem item;
             S3Upload (originalContent (getS3Locations user fileId));
             S3Upload (packedContent (getS3Locations user fileId))]
       /\ (getWorkItem on user fileId
             (handleZipFile on user "a.zip" (list_byte_of_string "hello") emptyWorld).2).1
          = Returned item
       /\ item !! "uploadMode" = Some (VStr ZIP_FILE)
       /\ item !! "fileName" = Some (VStr "a.zip")
       /\ item !! "fileType" = Some (VStr "application/zip")
       /\ (getOriginalContent on user fileId false
             (handleZipFile on user "a.zip" (list_byte_of_string "hello") emptyWorld).2).1
          = Returned (CStr (PackedProject.packedContent helloPacked), "text/plain")
       /\ (getOriginalContent on user fileId true
             (handleZipFile on user "a.zip" (list_byte_of_string "hello") emptyWorld).2).1
          = Returned (CBuf (list_byte_of_string "hello"), "application/zip").
Proof.
  split; [reflexivity|]. split; [reflexivity|]. split; [reflexivity|].
  apply (handleZipFile_then_read on eq_refl user "a.zip" (list_byte_of_string "hello")
           helloPacked emptyWorld); reflexivity.
Defined.

Lemma handleMultipleFiles_then_read_witness :
  createZipFromFiles [helloFile] = Returned (list_byte_of_string "hello")
  /\ processMultipleFiles [helloFile] = Returned helloPacked
  /\ Ddb.validKey user
       (createFileIdHash (filename helloFile +:+ numberToString (clock emptyWorld)))
     = true
  /\ utf8Decode (utf8Encode (PackedProject.packedContent helloPacked))
     = PackedProject.packedContent helloPacked
  /\ exists fileId item,
       (handleMultipleFiles on user [helloFile] emptyWorld).1
       = Returned (fileId, PackedProject.tokenCount helloPacked,
                   PackedProject.exceedsTokenLimit helloPacked)
       /\ (getWorkItem on user fileId
             (handleMultipleFiles on user [helloFile] emptyWorld).2).1
          = Returned item
       /\ item !! "uploadMode" = Some (VStr MULTIPLE_FILES)
       /\ item !! "fileType" = Some (VStr "application/multiple-files")
       /\ item !! "fileName"
          = Some (VStr match @nil UploadedFile with
                       | [] => filename helloFile
                       | _ => filename helloFile +:+ "_and_"
                              +:+ numberToString (Z.of_nat (length (@nil UploadedFile)))
                              +:+ "_more_files"
                       end)
       /\ (getOriginalContent on user fileId false
             (handleMultipleFiles on user [helloFile] emptyWorld).2).1
          = Returned (CStr (PackedProject.packedContent helloPacked), "text/plain")
       /\ (getOriginalContent on user fileId true
             (handleMultipleFiles on user [helloFile] emptyWorld).2).1
          = Returned (CBuf (list_byte_of_string "hello"), "application/zip").
Proof.
  split; [reflexivity|]. split; [reflexivity|]. split; [reflexivity|].
  split; [reflexivity|].
  apply (handleMultipleFiles_then_read on eq_refl user helloFile []
           (list_byte_of_string "hello") helloPacked emptyWorld); reflexivity.
Defined.

Lemma getOriginalContent_needs_record_witness :
  items emptyWorld !! (user, file) = None
  /\ getOriginalContent on user file true emptyWorld
     = (Thrown "Failed to get original content", record (DdbGetItem user file) emptyWorld).
Proof.
  split; [reflexivity|].
  apply (getOriginalContent_needs_record on eq_refl user file true emptyWorld).
  reflexivity.
Defined.

Lemma deleteWorkItem_spares_other_items_witness :
  validId user = true /\ validId file = true
  /\ validId file = true /\ validId user = true
  /\ (user, file) <> (file, user)
  /\ items (deleteWorkItem on user file zipWorld).2 !! (file, user)
     = items zipWorld !! (file, user)
  /\ (forall r, objects (deleteWorkItem on user file zipWorld).2
                  !! (storageRoot file user +:+ r)
                = objects zipWorld !! (storageRoot file user +:+ r))
  /\ (getWorkItem on user file (deleteWorkItem on user file zipWorld).2).1
     = Thrown "Failed to get work item".
Proof.
  split; [reflexivity|]. split; [reflexivity|].
  split; [reflexivity|]. split; [reflexivity|]. split; [discriminate|].
  apply (deleteWorkItem_spares_other_items on eq_refl user file file user zipWorld);
    [reflexivity | reflexivity | reflexivity | reflexivity | discriminate].
Defined.

Lemma listWorkItems_returns_first_page_witness :
  user <> ""
  /\ exists l,
       listWorkItems on user singleWorld = (Returned l, record (DdbQuery user) singleWorld)
       /\ l `prefix_of` Ddb.partition user (items singleWorld)
       /\ (Ddb.totalSize itemSize l <= Ddb.pageBytes)%N
       /\ (forall item, item ∈ l -> exists f, items singleWorld !! (user, f) = Some item)
       /\ ((Ddb.totalSize itemSize (Ddb.partition user (items singleWorld))
            <= Ddb.pageBytes)%N ->
           forall item,
             (exists f, items singleWorld !! (user, f) = Some item) -> item ∈ l)
       /\ ((Ddb.pageBytes
            < Ddb.totalSize itemSize (Ddb.partition user (items singleWorld)))%N ->
           (length l < length (Ddb.partition user (items singleWorld)))%nat).
Proof.
  split; [discriminate|].
  apply (listWorkItems_returns_first_page on eq_refl user singleWorld).
  discriminate.
Defined.

(** Two records of 600 KB each: the listing holds the first in [fileId]
    order and lacks the second. *)
Example listWorkItems_second_page_is_lost :
  items twoItemsWorld !! (user, user) = Some otherItem
  /\ items twoItemsWorld !! (user, file) = Some singleItem
  /\ (listWorkItems (RT := bulky) on user twoItemsWorld).1 = Returned [otherItem]
  /\ (listWorkItems (RT := runtime) on user twoItemsWorld).1
     = Returned [otherItem; singleItem].
Proof. split_and!; vm_compute; reflexivity. Qed.

Lemma updateWorkItem_failure_changes_nothing_witness :
  (updateWorkItem on user file [] singleWorld).1 = Thrown "Failed to update work item"
  /\ "Failed to update work item" = "Failed to update work item"
  /\ sameStores singleWorld (updateWorkItem on user file [] singleWorld).2.
Proof.
  split; [reflexivity|].
  apply (updateWorkItem_failure_changes_nothing on eq_refl user file []
           "Failed to update work item" singleWorld).
  reflexivity.
Defined.

Lemma linkSupportingDocumentToWorkItem_supersedes_witness :
  Ddb.validKey user file = true
  /\ items zipWorld !! (user, file) = Some zipItem
  /\ exists new,
       (linkSupportingDocumentToWorkItem on user file "doc2" "notes.pdf"
          "application/pdf" "notes" zipWorld).1 = Returned new
       /\ items (linkSupportingDocumentToWorkItem on user file "doc2" "notes.pdf"
                   "application/pdf" "notes" zipWorld).2 !! (user, file)
          = Some new
       /\ new !! "supportingDocumentId" = Some (VStr "doc2")
       /\ new !! "supportingDocumentAdded" = Some (VBool true)
       /\ new !! "supportingDocumentName" = Some (VStr "notes.pdf")
       /\ new !! "supportingDocumentType" = Some (VStr "application/pdf")
       /\ new !! "supportingDocumentDescription" = Some (VStr "notes")
       /\ new !! "lastModified" = Some (VStr (toISOString (clock zipWorld)))
       /\ (forall k,
             k ∉ ["supportingDocumentId"; "supportingDocumentAdded";
                  "supportingDocumentDescription"; "supportingDocumentName";
                  "supportingDocumentType"; "lastModified"] ->
             new !! k = zipItem !! k)
       /\ objects (linkSupportingDocumentToWorkItem on user file "doc2" "notes.pdf"
                     "application/pdf" "notes" zipWorld).2
          = objects zipWorld
       /\ (forall other,
             other <> "doc2" ->
             callsSince (linkSupportingDocumentToWorkItem on user file "doc2" "notes.pdf"
                           "application/pdf" "notes" zipWorld).2
               (getSupportingDocument on user file other
                  (linkSupportingDocumentToWorkItem on user file "doc2" "notes.pdf"
                     "application/pdf" "notes" zipWorld).2).2
             = [DdbGetItem user file]
             /\ (getSupportingDocument on user file other
                   (linkSupportingDocumentToWorkItem on user file "doc2" "notes.pdf"
                      "application/pdf" "notes" zipWorld).2).1
                = Thrown "Failed to get supporting document").
Proof.
  split; [reflexivity|]. split; [reflexivity|].
  apply (linkSupportingDocumentToWorkItem_supersedes on eq_refl user file "doc2"
           "notes.pdf" "application/pdf" "notes" zipItem zipWorld);
    [reflexivity | reflexivity].
Defined.

Lemma storeSupportingDocument_then_get_witness :
  Ddb.validKey user file = true
  /\ createFileIdHash ("supporting_" +:+ file +:+ "_" +:+ "notes.pdf" +:+ "_"
                       +:+ numberToString (clock emptyWorld)) <> ""
  /\ exists docId item,
       (storeSupportingDocument on user file "notes.pdf" "application/pdf"
          (list_byte_of_string "hello") "notes" emptyWorld).1 = Returned docId
       /\ (getWorkItem on user file
             (storeSupportingDocument on user file "notes.pdf" "application/pdf"
                (list_byte_of_string "hello") "notes" emptyWorld).2).1
          = Returned item
       /\ item !! "supportingDocumentAdded" = Some (VBool true)
       /\ item !! "supportingDocumentId" = Some (VStr docId)
       /\ objects (storeSupportingDocument on user file "notes.pdf" "application/pdf"
                     (list_byte_of_string "hello") "notes" emptyWorld).2
            !! supportingDocKey user file docId
          = Some {| Body := list_byte_of_string "hello";
                    ContentType := Some "application/pdf" |}
       /\ is_Some (objects (storeSupportingDocument on user file "notes.pdf"
                              "application/pdf" (list_byte_of_string "hello") "notes"
                              emptyWorld).2
                     !! (supportingDocKey user file docId +:+ "_metadata.json"))
       /\ (getSupportingDocument on user file docId
             (storeSupportingDocument on user file "notes.pdf" "application/pdf"
                (list_byte_of_string "hello") "notes" emptyWorld).2).1
          = Returned (list_byte_of_string "hello",
                      strOrElse (Some "application/pdf") "application/octet-stream",
                      orElse (Some (VStr "notes.pdf")) (VStr "supporting-document")).
Proof.
  split; [reflexivity|]. split; [discriminate|].
  apply (storeSupportingDocument_then_get on eq_refl user file "notes.pdf"
           "application/pdf" (list_byte_of_string "hello") "notes" emptyWorld);
    [reflexivity | discriminate].
Defined.

Lemma storeIaCDocument_then_get_by_extension_witness :
  (@None string = None \/ @None string = Some "")
  /\ utf8Decode (utf8Encode "resource") = "resource"
  /\ (storeIaCDocument on user file "resource" "tf" None emptyWorld).1 = Returned tt
  /\ items (storeIaCDocument on user file "resource" "tf" None emptyWorld).2
     = items emptyWorld
  /\ (getIaCDocument on user file "tf" None
        (storeIaCDocument on user file "resource" "tf" None emptyWorld).2).1
     = Returned "resource"
  /\ (forall item,
        truthy (item !! "iacGeneratedFileType") = false ->
        (getIaCDocument on user file "tf" (Some item)
           (storeIaCDocument on user file "resource" "tf" None emptyWorld).2).1
        = Returned "resource").
Proof.
  split; [left; reflexivity|]. split; [reflexivity|].
  apply (storeIaCDocument_then_get_by_extension on eq_refl user file "resource" "tf"
           None emptyWorld); [left; reflexivity | reflexivity].
Defined.

Lemma storeIaCDocument_then_get_by_type_witness :
  Ddb.validKey user file = true
  /\ "terraform" <> ""
  /\ utf8Decode (utf8Encode "resource") = "resource"
  /\ exists item,
       (storeIaCDocument on user file "resource" "tf" (Some "terraform") singleWorld).1
       = Returned tt
       /\ (getWorkItem on user file
             (storeIaCDocument on user file "resource" "tf" (Some "terraform")
                singleWorld).2).1
          = Returned item
       /\ item !! "iacGeneratedFileType" = Some (VStr "terraform")
       /\ (forall passed,
             getExtensionFromTemplateType "terraform" = "tf" ->
             (getIaCDocument on user file passed (Some item)
                (storeIaCDocument on user file "resource" "tf" (Some "terraform")
                   singleWorld).2).1 = Returned "resource")
       /\ (forall passed,
             getExtensionFromTemplateType "terraform" <> "tf" ->
             objects singleWorld !! (iacDocument (getS3Locations user file) +:+ "."
                                     +:+ getExtensionFromTemplateType "terraform") = None ->
             (getIaCDocument on user file passed (Some item)
                (storeIaCDocument on user file "resource" "tf" (Some "terraform")
                   singleWorld).2).1
             = Thrown "Failed to get IaC document").
Proof.
  split; [reflexivity|]. split; [discriminate|]. split; [reflexivity|].
  apply (storeIaCDocument_then_get_by_type on eq_refl user file "resource" "tf"
           "terraform" singleWorld); [reflexivity | discriminate | reflexivity].
Defined.

Lemma getIaCDocument_typed_reads_known_extension_witness :
  typedItem !! "iacGeneratedFileType" = Some (VStr "cloudformation-yaml")
  /\ "cloudformation-yaml" <> ""
  /\ exists ext,
       (ext = "yaml" \/ ext = "json" \/ ext = "tf")
       /\ callsSince emptyWorld (getIaCDocument on user file "tf" (Some typedItem) emptyWorld).2
          = [S3GetObject (iacDocument (getS3Locations user file) +:+ "." +:+ ext)].
Proof.
  split; [reflexivity|]. split; [discriminate|].
  apply (getIaCDocument_typed_reads_known_extension on eq_refl user file "tf"
           "cloudformation-yaml" typedItem emptyWorld); [reflexivity | discriminate].
Defined.

Lemma storeOriginalContent_dataUri_round_trip_witness :
  Ddb.validKey user file = true
  /\ items singleWorld !! (user, file) = Some singleItem
  /\ isPackedMode singleItem = false
  /\ Js.startsWith "image/png" "image/" = true
  /\ noSemicolon "image/png" = true
  /\ noSemicolon "AAEC" = true
  /\ "AAEC" <> ""
  /\ base64Encode (base64Decode "AAEC") = "AAEC"
  /\ (getOriginalContent on user file false
        (storeOriginalContent on user file
           (CStr ("data:" +:+ "image/png" +:+ ";base64," +:+ "AAEC")) "image/png"
           singleWorld).2).1
     = Returned (CStr ("data:" +:+ "image/png" +:+ ";base64," +:+ "AAEC"), "image/png").
Proof.
  split; [reflexivity|]. split; [reflexivity|]. split; [reflexivity|].
  split; [reflexivity|]. split; [reflexivity|]. split; [reflexivity|].
  split; [discriminate|]. split; [reflexivity|].
  apply (storeOriginalContent_dataUri_round_trip on eq_refl user file "image/png" "AAEC"
           singleItem singleWorld);
    [reflexivity | reflexivity | reflexivity | reflexivity | reflexivity | reflexivity
     | discriminate | reflexivity].
Defined.

Lemma guarded_operations_fail_fast_witness :
  enabled off = false
  /\ (getWorkItem off user file emptyWorld = (Thrown notEnabled, emptyWorld))
  /\ (forall text,
        storePackedContent off user file text emptyWorld = (Thrown notEnabled, emptyWorld))
  /\ (getPackedContent off user file emptyWorld = (Thrown notEnabled, emptyWorld))
  /\ (forall c t,
        storeOriginalContent off user file c t emptyWorld = (Thrown notEnabled, emptyWorld))
  /\ (forall d, getOriginalContent off user file d emptyWorld = (Thrown notEnabled, emptyWorld))
  /\ (forall updates,
        updateWorkItem off user file updates emptyWorld = (Thrown notEnabled, emptyWorld))
  /\ (forall a b c d,
        linkSupportingDocumentToWorkItem off user file a b c d emptyWorld
        = (Thrown notEnabled, emptyWorld))
  /\ (forall docId,
        getSupportingDocument off user file docId emptyWorld = (Thrown notEnabled, emptyWorld))
  /\ (deleteWorkItem off user file emptyWorld = (Thrown notEnabled, emptyWorld))
  /\ (forall name type bytes mode,
        createWorkItem off user name type bytes mode emptyWorld
        = (Thrown notEnabled, emptyWorld))
  /\ (listWorkItems off user emptyWorld = (Thrown notEnabled, emptyWorld))
  /\ (forall results,
        storeAnalysisResults off user file results emptyWorld
        = (Thrown notEnabled, emptyWorld))
  /\ (getAnalysisResults off user file emptyWorld = (Thrown notEnabled, emptyWorld))
  /\ (forall text ext type,
        storeIaCDocument off user file text ext type emptyWorld
        = (Thrown notEnabled, emptyWorld))
  /\ (forall ext item,
        getIaCDocument off user file ext item emptyWorld = (Thrown notEnabled, emptyWorld))
  /\ (forall name type bytes description,
        storeSupportingDocument off user file name type bytes description emptyWorld
        = (Thrown notEnabled, emptyWorld)).
Proof.
  split; [reflexivity|].
  apply (guarded_operations_fail_fast off eq_refl user file emptyWorld).
Defined.

End StoreInstances.
